(** * django-admin-model-filters: the filter compilation engine

    A shallow embedding of [model_filters/utilities.py],
    [model_filters/forms/inline.py], [model_filters/forms/field_filter.py],
    [model_filters/forms/model_filter.py],
    [model_filters/managers/model_filter.py],
    [model_filters/admin/list_filters.py] and
    [model_filters/admin/model_filter.py], and the properties of the
    specification that are settled on it.

    Python dictionaries are [gmap]s, exceptions are the [Raise] branch of
    [result], Django's [Q] objects are a small expression tree with the
    empty-operand rule of [Q._combine], and querysets are lists of rows. *)

From Stdlib Require Import ZArith Lia.
From stdpp Require Import base option strings pretty gmap list.

Open Scope Z_scope.
Open Scope string_scope.

(** ** Python values and exceptions *)

Inductive PyVal : Type :=
| PyNone
| PyBool (b : bool)
| PyStr (s : string)
| PyInt (n : Z).

#[global] Instance PyVal_eq_dec : EqDecision PyVal.
Proof. solve_decision. Defined.

(** Truth value of a Python object, as [if x:] and [not x] test it. *)
Definition truthy (v : PyVal) : bool :=
  match v with
  | PyNone => false
  | PyBool b => b
  | PyStr s => negb (bool_decide (s = ""))
  | PyInt n => negb (bool_decide (n = 0))
  end.

(** [str(x)] *)
Definition py_str (v : PyVal) : string :=
  match v with
  | PyNone => "None"
  | PyBool true => "True"
  | PyBool false => "False"
  | PyStr s => s
  | PyInt n => pretty n
  end.

Inductive Exception : Type :=
| FieldDoesNotExist (path : string)
| FieldError (message : string)
| ValidationError (messages : list string)
| ValueError (message : string)
| TypeError (message : string)
| IndexError.

#[global] Instance Exception_eq_dec : EqDecision Exception.
Proof. solve_decision. Defined.

(** A call either returns or raises. *)
Inductive result (A : Type) : Type :=
| Ok (a : A)
| Raise (e : Exception).
Arguments Ok {A} a.
Arguments Raise {A} e.

#[global] Instance result_ret : MRet result := λ A a, Ok a.
#[global] Instance result_bind : MBind result := λ A B f m,
  match m with
  | Ok a => f a
  | Raise e => Raise e
  end.
#[global] Instance result_fmap : FMap result := λ A B f m,
  match m with
  | Ok a => Ok (f a)
  | Raise e => Raise e
  end.

Definition is_ok {A} (r : result A) : bool :=
  match r with Ok _ => true | Raise _ => false end.

(** [traverse f l] runs [f] over [l] from left to right and stops at the
    first exception, as a Python [for] loop does. *)
Fixpoint traverse {A B} (f : A → result B) (l : list A) : result (list B) :=
  match l with
  | [] => Ok []
  | x :: l' => y ← f x; ys ← traverse f l'; Ok (y :: ys)
  end.

(** ** Constants ([model_filters/constants.py])

    The operator tokens are the keys that [utilities_tests.py] expects
    from [get_field_operators]; the setting names are those the tests
    override.  The separator sentinel and the name of the
    save-apply-discard button are parameters of the sections below. *)
Module constants.
Definition IS_NULL : string := "isnull".
Definition IS_TRUE : string := "istrue".
Definition IS_FALSE : string := "isfalse".
Definition IS_EMPTY : string := "isempty".
Definition SETTING_MODEL_FILTERS_VIEW_OWNER_ONLY : string :=
  "MODEL_FILTERS_VIEW_OWNER_ONLY".
Definition SETTING_MODEL_FILTERS_CHANGE_OWNER_ONLY : string :=
  "MODEL_FILTERS_CHANGE_OWNER_ONLY".
Definition SETTING_MODEL_FILTERS_DELETE_OWNER_ONLY : string :=
  "MODEL_FILTERS_DELETE_OWNER_ONLY".
Definition SETTING_MODEL_FILTERS_USE_GUARDIAN : string :=
  "MODEL_FILTERS_USE_GUARDIAN".
(** Modelled from the spec: [constants.py] is not among the sources; the
    defaults are those of the configuration surface (section 6): every
    owner-only toggle defaults to true, object-level permissions to
    false. *)
Definition DEFAULT_MODEL_FILTERS_VIEW_OWNER_ONLY : bool := true.
Definition DEFAULT_MODEL_FILTERS_CHANGE_OWNER_ONLY : bool := true.
Definition DEFAULT_MODEL_FILTERS_DELETE_OWNER_ONLY : bool := true.
Definition DEFAULT_MODEL_FILTERS_USE_GUARDIAN : bool := false.
End constants.

(** ** Data model ([model_filters/models]) *)

Record ContentType : Type := {
  ct_id : Z;
  app_label : string;
  model : string;
}.

#[global] Instance ContentType_eq_dec : EqDecision ContentType.
Proof. solve_decision. Defined.

(** Django compares model instances by primary key: [user == owner] is the
    equality of [pk user] and the [owner] column. *)
Record User : Type := {
  pk : Z;
  is_staff : bool;
  is_superuser : bool;
}.

Record FieldFilter : Type := {
  field : string;
  operator : string;
  value : string;
  negate : bool;
}.

#[global] Instance FieldFilter_eq_dec : EqDecision FieldFilter.
Proof. solve_decision. Defined.

(** A [ModelFilter] instance together with its related [fields] manager:
    the clauses in [Meta.ordering] order.  The clauses go when the row goes
    ([on_delete=CASCADE]).  [id] and [created] are [None] until the first
    save; [owner] is the [owner_id] column. *)
Record ModelFilter : Type := {
  id : option Z;
  name : option string;
  description : option string;
  content_type : ContentType;
  owner : Z;
  created : option Z;
  ephemeral : bool;
  fields : list FieldFilter;
}.

#[global] Instance ModelFilter_eq_dec : EqDecision ModelFilter.
Proof. solve_decision. Defined.

(** ** Django's [Q] objects

    [Q_ kwargs] is [Q] applied to the keyword arguments [kwargs], so
    [Q_ []] is the empty [Q()].
    [Q_and] and [Q_or] are [&] and [|] with the rule of [Q._combine]: an
    empty operand is dropped and the other operand returned. *)
Inductive Q : Type :=
| Q_ (children : list (string * PyVal))
| QAnd (l r : Q)
| QOr (l r : Q)
| QNot (q : Q).

#[global] Instance Q_eq_dec : EqDecision Q.
Proof. solve_decision. Defined.

Definition Q_kwargs (kwargs : gmap string PyVal) : Q := Q_ (map_to_list kwargs).

Definition Q_bool (q : Q) : bool :=
  match q with
  | Q_ [] => false
  | _ => true
  end.

Definition Q_combine (conn : Q → Q → Q) (self other : Q) : Q :=
  if negb (Q_bool other) then self
  else if negb (Q_bool self) then other
  else conn self other.

Definition Q_and : Q → Q → Q := Q_combine QAnd.
Definition Q_or : Q → Q → Q := Q_combine QOr.
Definition Q_invert (q : Q) : Q := QNot q.

(** [functools.reduce(f, l)] with no initial value. *)
Definition reduce {A} (f : A → A → A) (l : list A) : option A :=
  match l with
  | [] => None
  | x :: l' => Some (fold_left f l' x)
  end.

(** ** The query compiler ([model_filters/utilities.py]) *)

(** A model field as the compiler and the clause validator use it. *)
Record ModelField : Type := {
  get_internal_type : string;
  to_python : string → result PyVal;
}.

Section Compiler.
(** The OR-separator sentinel of [constants.py]. *)
Variable OR_SEPARATOR : string.
(** [django.contrib.admin.utils.get_fields_from_path] on the model class
    of a content type. *)
Variable get_fields_from_path : ContentType → string → result (list ModelField).

(** [l[-1]] *)
Definition last_item {A} (l : list A) : result A :=
  match last l with
  | Some x => Ok x
  | None => Raise IndexError
  end.

Definition build_query_params (model_filter : ModelFilter) (f : FieldFilter)
  : result (gmap string PyVal) :=
  if bool_decide (operator f = constants.IS_NULL) then
    Ok {[ field f := PyNone ]}
  else if bool_decide (operator f = constants.IS_EMPTY) then
    Ok {[ field f := PyStr "" ]}
  else if bool_decide (operator f = constants.IS_TRUE) then
    Ok {[ field f := PyBool true ]}
  else if bool_decide (operator f = constants.IS_FALSE) then
    Ok {[ field f := PyBool false ]}
  else
    path ← get_fields_from_path (content_type model_filter) (field f);
    model_field ← last_item path;
    v ← to_python model_field (value f);
    Ok {[ field f +:+ "__" +:+ operator f := v ]}.

Definition make_query_filter (model_filter : ModelFilter) (f : FieldFilter)
  : result Q :=
  let query := Q_ [] in
  query_params ← build_query_params model_filter f;
  if negate f then Ok (Q_and query (Q_invert (Q_kwargs query_params)))
  else Ok (Q_and query (Q_kwargs query_params)).

(** The [for] loop of [build_query_filter], on the pair
    [(query_to_and, queries_to_or)]. *)
Fixpoint build_query_filter_loop (model_filter : ModelFilter)
    (fs : list FieldFilter) (query_to_and : Q) (queries_to_or : list Q)
  : result (Q * list Q) :=
  match fs with
  | [] => Ok (query_to_and, queries_to_or)
  | f :: fs' =>
      if bool_decide (field f = OR_SEPARATOR) then
        build_query_filter_loop model_filter fs' (Q_ [])
          (queries_to_or ++ [query_to_and])
      else
        q ← make_query_filter model_filter f;
        build_query_filter_loop model_filter fs' (Q_and query_to_and q)
          queries_to_or
  end.

Definition build_query_filter (model_filter : ModelFilter) : result Q :=
  '(query_to_and, queries_to_or) ←
    build_query_filter_loop model_filter (fields model_filter) (Q_ []) [];
  match queries_to_or with
  | [] => Ok query_to_and
  | _ :: _ =>
      match reduce Q_or (queries_to_or ++ [query_to_and]) with
      | Some q => Ok q
      | None => Raise (TypeError "reduce() of empty iterable with no initial value")
      end
  end.
End Compiler.

(** ** The record store

    A row satisfies a [Q] object as the lookups on it say; what one lookup
    [key = v] means on one row is the record store's business. *)
Section RecordStore.
Context {Row : Type} `{EqDecision Row}.
Variable lookup_holds : Row → string → PyVal → bool.

Fixpoint Q_matches (q : Q) (r : Row) : bool :=
  match q with
  | Q_ children => forallb (λ kv, lookup_holds r kv.1 kv.2) children
  | QAnd a b => Q_matches a r && Q_matches b r
  | QOr a b => Q_matches a r || Q_matches b r
  | QNot a => negb (Q_matches a r)
  end.

(** What [queryset.filter] makes of one keyword argument when it builds
    the query on the model of the listing: nothing to report, or the
    exception of a lookup that does not resolve ([FieldError] for an
    unknown field or an unsupported lookup, the error of a value the
    lookup cannot take). *)
Variable build_lookup : string → PyVal → result unit.

(** The keyword arguments of a [Q] object in the order [filter] visits
    them. *)
Fixpoint Q_lookups (q : Q) : list (string * PyVal) :=
  match q with
  | Q_ children => children
  | QAnd a b | QOr a b => (Q_lookups a ++ Q_lookups b)%list
  | QNot a => Q_lookups a
  end.

(** [queryset.filter(q)]: the query is built when [filter] is called, so
    a lookup that does not resolve raises there; otherwise the rows that
    satisfy [q] are selected.  [queryset.distinct()] drops the
    duplicates. *)
Definition queryset_filter (q : Q) (queryset : list Row) : result (list Row) :=
  _ ← traverse (λ kv, build_lookup kv.1 kv.2) (Q_lookups q);
  Ok (filter (λ r, Q_matches q r) queryset).
Definition distinct (queryset : list Row) : list Row := remove_dups queryset.
End RecordStore.

(** ** The compiler as the specification words it (section 4.5)

    The clauses are cut into AND-groups at the separators, every group is
    the conjunction of its clause conditions, and the groups are joined by
    OR.  [compile_spec] is compared with [build_query_filter] below. *)
Section CompilerSpec.
Variable OR_SEPARATOR : string.
Variable get_fields_from_path : ContentType → string → result (list ModelField).

(** A separator clause is a cut, any other clause is its condition. *)
Definition clause_token (model_filter : ModelFilter) (f : FieldFilter)
  : result (option Q) :=
  if bool_decide (field f = OR_SEPARATOR) then Ok None
  else Some <$> make_query_filter get_fields_from_path model_filter f.

Fixpoint and_groups (tokens : list (option Q)) : list (list Q) :=
  match tokens with
  | [] => [[]]
  | None :: rest => [] :: and_groups rest
  | Some q :: rest =>
      match and_groups rest with
      | g :: gs => (q :: g) :: gs
      | [] => [[q]]
      end
  end.

Definition conjunction (group : list Q) : Q := fold_left Q_and group (Q_ []).

Definition disjunction (groups : list Q) : Q :=
  match groups with
  | [] => Q_ []
  | g :: gs => fold_left Q_or gs g
  end.

Definition compile_spec (model_filter : ModelFilter) : result Q :=
  tokens ← traverse (clause_token model_filter) (fields model_filter);
  Ok (disjunction (conjunction <$> and_groups tokens)).
End CompilerSpec.

(** The placement rules of the data model: at least one clause, no
    separator first or last, no two separators in a row.  On tokens: no
    AND-group is empty. *)
Definition nonempty_group (g : list Q) : bool := negb (bool_decide (g = [])).

Definition no_empty_group (tokens : list (option Q)) : bool :=
  forallb nonempty_group (and_groups tokens).

(** ** The clause sequence validator ([model_filters/forms/inline.py]) *)

(** [d.get(k, default)] *)
Definition dict_get (d : gmap string PyVal) (k : string) (dflt : PyVal) : PyVal :=
  default dflt (d !! k).

Section InlineFormset.
Variable OR_SEPARATOR : string.

(** [data.get("field") == OR_SEPARATOR] *)
Definition field_is_or_separator (data : gmap string PyVal) : bool :=
  bool_decide (dict_get data "field" PyNone = PyStr OR_SEPARATOR).

(** [not data.get("DELETE", False)] *)
Definition not_deleted (data : gmap string PyVal) : bool :=
  negb (truthy (dict_get data "DELETE" (PyBool false))).

(** The closing [for] loop, on the flag [last_filter_was_or]. *)
Fixpoint consecutive_or_loop (filters : list (gmap string PyVal))
    (last_filter_was_or : bool) : result unit :=
  match filters with
  | [] => Ok ()
  | field_filter :: rest =>
      if field_is_or_separator field_filter then
        if last_filter_was_or then
          Raise (ValidationError ["Cannot have consecutive OR separators."])
        else consecutive_or_loop rest true
      else consecutive_or_loop rest false
  end.

Definition clean_field_filters (cleaned_data : list (gmap string PyVal))
  : result unit :=
  let filters := List.filter not_deleted cleaned_data in
  match filters with
  | [] => Raise (ValidationError ["At least one field filter is required."])
  | first_filter :: _ =>
      if field_is_or_separator first_filter then
        Raise (ValidationError ["First field filter cannot be an OR separator."])
      else if from_option field_is_or_separator false (last filters) then
        Raise (ValidationError ["Last field filter cannot be an OR separator."])
      else consecutive_or_loop filters false
  end.
End InlineFormset.

(** ** The clause validator ([model_filters/forms/field_filter.py]) *)

(** What a [FieldFilterForm] holds that [clean] reads and writes: the
    error dictionary, the [required] flag of the value input, and the
    operators allowed per field path. *)
Record FieldFilterForm : Type := {
  errors : gmap string (list string);
  value_required : bool;
  form_model : ContentType;
  field_operators : gmap string (list string);
}.

Definition set_errors (form : FieldFilterForm) (e : gmap string (list string))
  : FieldFilterForm :=
  {| errors := e; value_required := value_required form;
     form_model := form_model form; field_operators := field_operators form |}.

Definition set_value_required (form : FieldFilterForm) (b : bool) : FieldFilterForm :=
  {| errors := errors form; value_required := b;
     form_model := form_model form; field_operators := field_operators form |}.

(** [form.add_error(name, message)] *)
Definition add_error (form : FieldFilterForm) (name message : string)
  : FieldFilterForm :=
  set_errors form
    (<[name := (default [] (errors form !! name) ++ [message])%list]> (errors form)).

(** [str(error)], and the joined messages of a [ValidationError] *)
Definition error_message (error : Exception) : string :=
  match error with
  | ValidationError messages => String.concat " " messages
  | FieldDoesNotExist path => path
  | FieldError message => message
  | ValueError message => message
  | TypeError message => message
  | IndexError => "list index out of range"
  end.

Section FieldFilterForm.
Variable OR_SEPARATOR : string.
Variable get_fields_from_path : ContentType → string → result (list ModelField).

Definition NO_VALUE_OPERATORS : list string :=
  [constants.IS_NULL; constants.IS_TRUE; constants.IS_FALSE;
   constants.IS_EMPTY; OR_SEPARATOR].

(** [operator in self.NO_VALUE_OPERATORS] *)
Definition in_no_value_operators (operator : PyVal) : bool :=
  bool_decide (operator ∈ PyStr <$> NO_VALUE_OPERATORS).

(** The path argument of [get_fields_from_path] is split as a string. *)
Definition as_path (v : PyVal) : result string :=
  match v with
  | PyStr s => Ok s
  | _ => Raise (TypeError "path is not a string")
  end.

Definition _clean_value (form : FieldFilterForm) (cleaned_data : gmap string PyVal)
  : result (PyVal * FieldFilterForm) :=
  let field_path := dict_get cleaned_data "field" PyNone in
  if negb (truthy field_path) then Ok (PyNone, form) else
  let operator := dict_get cleaned_data "operator" PyNone in
  if negb (truthy operator) then Ok (PyNone, form) else
  if bool_decide (field_path = PyStr OR_SEPARATOR) || in_no_value_operators operator then
    let form := set_value_required form false in
    let form := set_errors form (delete "value" (errors form)) in
    Ok (PyStr "", form)
  else
  let value := dict_get cleaned_data "value" PyNone in
  if negb (truthy value) then Ok (value, form) else
  path ← as_path field_path;
  fs ← get_fields_from_path (form_model form) path;
  model_field ← last_item fs;
  raw ← as_path value;
  match to_python model_field raw with
  | Ok _ => Ok (value, form)
  | Raise error =>
      Ok (value,
          add_error form "value"
            ("Value is not valid for field (" +:+ get_internal_type model_field
             +:+ "): " +:+ error_message error))
  end.

Definition _clean_operator (form : FieldFilterForm) (cleaned_data : gmap string PyVal)
  : PyVal * FieldFilterForm :=
  match cleaned_data !! "field" with
  | None | Some PyNone => (PyNone, form)
  | Some field =>
      let operator := dict_get cleaned_data "operator" PyNone in
      if negb (truthy operator) then (PyNone, form) else
      if bool_decide (field ≠ PyStr OR_SEPARATOR) then
        let operator_keys :=
          match field with
          | PyStr path => default [] (field_operators form !! path)
          | _ => []
          end in
        if negb (existsb (λ key, bool_decide (operator = PyStr key)) operator_keys) then
          (operator,
           add_error form "operator"
             ("Operator '" +:+ py_str operator
              +:+ "' is not allowed for this field."))
        else (operator, form)
      else (operator, form)
  end.

(** [clean], after [super().clean()] has produced [cleaned_data] *)
Definition clean (form : FieldFilterForm) (cleaned_data : gmap string PyVal)
  : result (gmap string PyVal * FieldFilterForm) :=
  let '(operator, form) := _clean_operator form cleaned_data in
  let cleaned_data := <["operator" := operator]> cleaned_data in
  '(value, form) ← _clean_value form cleaned_data;
  Ok (<["value" := value]> cleaned_data, form).
End FieldFilterForm.

(** ** Settings, requests and the permission service *)

Record Settings : Type := {
  setting_values : gmap string PyVal;
  INSTALLED_APPS : list string;
}.

(** [getattr(settings, name, default)] *)
Definition getattr (settings : Settings) (name : string) (dflt : PyVal) : PyVal :=
  default dflt (setting_values settings !! name).

Record HttpRequest : Type := {
  user : User;
  POST : gmap string PyVal;
}.

(** [key in request.POST] *)
Definition in_POST (key : string) (request : HttpRequest) : bool :=
  bool_decide (is_Some (POST request !! key)).

(** ** The access control evaluator
    ([utilities.py] and [admin/model_filter.py]) *)
Section AccessControl.
Variable settings : Settings.
(** [user.has_perm(perm)], the class-level answer of the permission
    service. *)
Variable has_perm : User → string → bool.
(** [ModelAdmin.has_view_permission] and its siblings, which the admin
    class falls back on through [super()]. *)
Variable super_has_view_permission : HttpRequest → option ModelFilter → bool.
Variable super_has_change_permission : HttpRequest → option ModelFilter → bool.
Variable super_has_delete_permission : HttpRequest → option ModelFilter → bool.

(** [django.contrib.auth.get_permission_codename] *)
Definition get_permission_codename (action : string) (opts : ContentType) : string :=
  action +:+ "_" +:+ model opts.

Definition user_can_access_content_type (u : User) (ct : ContentType) : bool :=
  let opts := ct in
  let has_view_perm :=
    has_perm u (app_label opts +:+ "." +:+ get_permission_codename "view" opts) in
  let has_change_perm :=
    has_perm u (app_label opts +:+ "." +:+ get_permission_codename "change" opts) in
  has_view_perm || has_change_perm.

Definition user_has_permission (u : User) (setting : string) (dflt : bool)
    (model_filter : option ModelFilter) : option bool :=
  match model_filter with
  | None => Some true
  | Some mf =>
      if is_superuser u then Some true
      else if negb (user_can_access_content_type u (content_type mf)) then Some false
      else if bool_decide (pk u = owner mf) then Some true
      else if truthy (getattr settings setting (PyBool dflt)) then Some false
      else None
  end.

Definition has_view_permission (request : HttpRequest) (obj : option ModelFilter)
  : bool :=
  let permission :=
    user_has_permission (user request)
      constants.SETTING_MODEL_FILTERS_VIEW_OWNER_ONLY
      constants.DEFAULT_MODEL_FILTERS_VIEW_OWNER_ONLY obj in
  match permission with
  | None => super_has_view_permission request obj
  | Some permission => permission
  end.

Definition has_change_permission (request : HttpRequest) (obj : option ModelFilter)
  : bool :=
  let permission :=
    user_has_permission (user request)
      constants.SETTING_MODEL_FILTERS_CHANGE_OWNER_ONLY
      constants.DEFAULT_MODEL_FILTERS_CHANGE_OWNER_ONLY obj in
  match permission with
  | None => super_has_change_permission request obj
  | Some permission => permission
  end.

Definition has_delete_permission (request : HttpRequest) (obj : option ModelFilter)
  : bool :=
  let permission :=
    user_has_permission (user request)
      constants.SETTING_MODEL_FILTERS_DELETE_OWNER_ONLY
      constants.DEFAULT_MODEL_FILTERS_DELETE_OWNER_ONLY obj in
  match permission with
  | None => super_has_delete_permission request obj
  | Some permission => permission
  end.

Definition use_guardian : bool :=
  truthy (getattr settings constants.SETTING_MODEL_FILTERS_USE_GUARDIAN
            (PyBool constants.DEFAULT_MODEL_FILTERS_USE_GUARDIAN))
  && bool_decide ("guardian" ∈ INSTALLED_APPS settings).

Definition view_owner_only : bool :=
  truthy (getattr settings constants.SETTING_MODEL_FILTERS_VIEW_OWNER_ONLY
            (PyBool constants.DEFAULT_MODEL_FILTERS_VIEW_OWNER_ONLY)).

Definition change_owner_only : bool :=
  truthy (getattr settings constants.SETTING_MODEL_FILTERS_CHANGE_OWNER_ONLY
            (PyBool constants.DEFAULT_MODEL_FILTERS_CHANGE_OWNER_ONLY)).
End AccessControl.

(** The three actions of the evaluator and, per action, its owner-only
    toggle and its check. *)
Inductive Action : Type := View | Change | Delete.

Definition owner_only_toggle (settings : Settings) (a : Action) : bool :=
  match a with
  | View =>
      truthy (getattr settings constants.SETTING_MODEL_FILTERS_VIEW_OWNER_ONLY
                (PyBool constants.DEFAULT_MODEL_FILTERS_VIEW_OWNER_ONLY))
  | Change =>
      truthy (getattr settings constants.SETTING_MODEL_FILTERS_CHANGE_OWNER_ONLY
                (PyBool constants.DEFAULT_MODEL_FILTERS_CHANGE_OWNER_ONLY))
  | Delete =>
      truthy (getattr settings constants.SETTING_MODEL_FILTERS_DELETE_OWNER_ONLY
                (PyBool constants.DEFAULT_MODEL_FILTERS_DELETE_OWNER_ONLY))
  end.

Definition has_permission (settings : Settings) (has_perm : User → string → bool)
    (super_has_permission : Action → HttpRequest → option ModelFilter → bool)
    (a : Action) (request : HttpRequest) (obj : option ModelFilter) : bool :=
  match a with
  | View =>
      has_view_permission settings has_perm (super_has_permission View) request obj
  | Change =>
      has_change_permission settings has_perm (super_has_permission Change) request obj
  | Delete =>
      has_delete_permission settings has_perm (super_has_permission Delete) request obj
  end.

(** ** The filter repository ([model_filters/managers/model_filter.py])

    A queryset is a table and the condition its rows are selected by;
    [|] and [&] join the conditions, and evaluating it lists the rows in
    table order. *)
Record QuerySet : Type := {
  table : list ModelFilter;
  where_ : ModelFilter → bool;
}.

Definition qs_rows (qs : QuerySet) : list ModelFilter :=
  List.filter (where_ qs) (table qs).
Definition qs_all (t : list ModelFilter) : QuerySet :=
  {| table := t; where_ := λ _, true |}.
Definition qs_filter (p : ModelFilter → bool) (qs : QuerySet) : QuerySet :=
  {| table := table qs; where_ := λ mf, where_ qs mf && p mf |}.
Definition qs_or (a b : QuerySet) : QuerySet :=
  {| table := table a; where_ := λ mf, where_ a mf || where_ b mf |}.
Definition qs_and (a b : QuerySet) : QuerySet :=
  {| table := table a; where_ := λ mf, where_ a mf && where_ b mf |}.
Definition qs_first (qs : QuerySet) : option ModelFilter := head (qs_rows qs).

(** [filter(owner=user)] *)
Definition owned_by (u : User) (mf : ModelFilter) : bool :=
  bool_decide (owner mf = pk u).

Section Manager.
Variable settings : Settings.
Variable has_perm : User → string → bool.
(** The object-level grants of django-guardian, when the library can be
    imported: [None] is the [get_objects_for_user = None] of the failed
    import. *)
Variable guardian : option (User → string → ModelFilter → bool).

(** [guardian.shortcuts.get_objects_for_user(user, perm, klass)]: every
    row for a superuser or a holder of the class-level permission,
    otherwise the rows with an object-level grant. *)
Definition get_objects_for_user : option (User → string → list ModelFilter → QuerySet) :=
  (λ object_perm u perm t,
     {| table := t;
        where_ := λ mf, is_superuser u
                        || has_perm u ("model_filters." +:+ perm)
                        || object_perm u perm mf |}) <$> guardian.

Definition for_user (self : QuerySet) (u : User) : QuerySet :=
  let queryset := self in
  if view_owner_only settings then qs_filter (owned_by u) queryset
  else
    let view_permission := "view_modelfilter" in
    match (if use_guardian settings then get_objects_for_user else None) with
    | Some get_objects =>
        let base := qs_all (table queryset) in
        let permissions :=
          qs_or (qs_filter (owned_by u) base)
                (get_objects u view_permission (table queryset)) in
        qs_and queryset permissions
    | None =>
        if negb (has_perm u ("model_filters." +:+ view_permission)) then
          qs_filter (owned_by u) queryset
        else queryset
    end.
End Manager.

(** ** Applying a filter to a listing ([model_filters/admin/list_filters.py]) *)
Section ListFilter.
Context {Row : Type} `{EqDecision Row}.
Variable lookup_holds : Row → string → PyVal → bool.
Variable build_lookup : string → PyVal → result unit.
Variable OR_SEPARATOR : string.
Variable get_fields_from_path : ContentType → string → result (list ModelField).
Variable settings : Settings.
Variable has_perm : User → string → bool.
Variable guardian : option (User → string → ModelFilter → bool).

(** [model_filter.delete()] on the table *)
Definition delete_model_filter (mf : ModelFilter) (t : list ModelFilter)
  : list ModelFilter :=
  List.filter (λ row, negb (bool_decide (id row = id mf))) t.

(** What [queryset] leaves behind: the listing it returns, the table of
    stored filters, and the filter it stored on the request, if any. *)
Record Applied : Type := {
  listing : list Row;
  stored : list ModelFilter;
  model_filter_model_filter : option ModelFilter;
}.

(** [ModelFilterListFilter.queryset]; [value] is [self.value()] read as
    an id, [None] when the parameter is absent or empty.  The only write
    is [model_filter.delete()], after the call of [filter]: when the
    compiler or [filter] raises, the stored filters are as they were. *)
Definition ModelFilterListFilter_queryset (value : option Z)
    (self_content_type : ContentType) (request : HttpRequest)
    (queryset : list Row) (t : list ModelFilter) : result Applied :=
  match value with
  | None =>
      Ok {| listing := queryset; stored := t; model_filter_model_filter := None |}
  | Some v =>
      let model_filter :=
        qs_first
          (qs_filter
             (λ mf, bool_decide (id mf = Some v)
                    && bool_decide (content_type mf = self_content_type))
             (for_user settings has_perm guardian (qs_all t) (user request))) in
      match model_filter with
      | Some mf =>
          q ← build_query_filter OR_SEPARATOR get_fields_from_path mf;
          filtered ← queryset_filter lookup_holds build_lookup q queryset;
          let queryset := distinct filtered in
          if bool_decide (owner mf = pk (user request)) && ephemeral mf then
            Ok {| listing := queryset; stored := delete_model_filter mf t;
                  model_filter_model_filter := None |}
          else
            Ok {| listing := queryset; stored := t;
                  model_filter_model_filter := Some mf |}
      | None =>
          Ok {| listing := queryset; stored := t; model_filter_model_filter := None |}
      end
  end.
End ListFilter.

(** ** Saving a filter ([forms/model_filter.py], [admin/model_filter.py]) *)

(** A bound [ModelFilterForm]: the instance it edits ([None] for the
    blank instance of an add form), its initial data and the submitted
    data.  Ids in the submitted data are read as integers. *)
Record ModelFilterForm : Type := {
  instance : option ModelFilter;
  initial : gmap string PyVal;
  data : gmap string PyVal;
}.

(** A [ModelChoiceField]: the queryset a submitted value is looked up
    in, and the choices set on the field, if any were set ([None]: the
    rows of the queryset are the choices). *)
Record ModelChoiceField (A : Type) : Type := {
  field_queryset : list A;
  field_choices : option (list A);
}.
Arguments field_queryset {A} _.
Arguments field_choices {A} _.

(** The field of a form over the rows of a table. *)
Definition model_choice_field {A} (rows : list A) : ModelChoiceField A :=
  {| field_queryset := rows; field_choices := None |}.

(** [value in self.empty_values] of a form field *)
Definition in_empty_values (v : PyVal) : bool :=
  match v with
  | PyNone => true
  | PyStr s => bool_decide (s = "")
  | _ => false
  end.

Section SaveForm.
Variable FORM_SAVE_APPLY_DISCARD : string.
(** The rows the two related fields choose from. *)
Variable content_types : list ContentType.
Variable users : list User.
(** [clean] of the form fields of [name] and of [description], on the
    submitted value ([None] when it is missing): the cleaned text, [None]
    for the null of the column, or the [ValidationError] of the field. *)
Variable name_clean : PyVal → result (option string).
Variable description_clean : PyVal → result (option string).

Definition _get_content_type (form : ModelFilterForm) : PyVal :=
  match instance form with
  | Some inst => PyInt (ct_id (content_type inst))
  | None => dict_get (initial form) "content_type"
              (dict_get (data form) "content_type" PyNone)
  end.

Definition _get_owner (form : ModelFilterForm) : PyVal :=
  match instance form with
  | Some inst => PyInt (owner inst)
  | None => dict_get (initial form) "owner" (dict_get (data form) "owner" PyNone)
  end.

(** [_update_choices]: a truthy id narrows the queryset of the field to
    the row with that id; otherwise the choices of the field are set to
    the empty list, and its queryset stays as it is. *)
Definition _update_choices {A} (pk_of : A → Z) (object_id : PyVal)
    (field : ModelChoiceField A) : ModelChoiceField A :=
  if truthy object_id then
    {| field_queryset :=
         List.filter (λ row, bool_decide (PyInt (pk_of row) = object_id))
           (field_queryset field);
       field_choices := field_choices field |}
  else
    {| field_queryset := field_queryset field; field_choices := Some [] |}.

(** [ModelChoiceField.clean]: a required field, whose value is looked up
    in the queryset of the field. *)
Definition clean_choice {A} (pk_of : A → Z) (field : ModelChoiceField A)
    (submitted : PyVal) : result A :=
  if in_empty_values submitted then Raise (ValidationError ["This field is required."])
  else
    match List.find (λ row, bool_decide (PyInt (pk_of row) = submitted))
            (field_queryset field) with
    | Some row => Ok row
    | None =>
        Raise (ValidationError
                 ["Select a valid choice. That choice is not one of the available choices."])
    end.

(** [form.save(commit=False)] of a valid form, which is what
    [ModelAdmin.save_form] returns: the instance with the cleaned
    [name], [description], [content_type] and [owner].  The form is
    invalid as soon as one field fails to clean; the exception stands
    for that, with the error of the first such field in the order of
    [Meta.fields]. *)
Definition ModelAdmin_save_form (form : ModelFilterForm) : result ModelFilter :=
  cleaned_name ← name_clean (dict_get (data form) "name" PyNone);
  cleaned_description ← description_clean (dict_get (data form) "description" PyNone);
  ct ← clean_choice ct_id
         (_update_choices ct_id (_get_content_type form)
            (model_choice_field content_types))
         (dict_get (data form) "content_type" PyNone);
  o ← clean_choice pk
        (_update_choices pk (_get_owner form) (model_choice_field users))
        (dict_get (data form) "owner" PyNone);
  Ok {| id := inst ← instance form; id inst;
        name := cleaned_name;
        description := cleaned_description;
        content_type := ct;
        owner := pk o;
        created := inst ← instance form; created inst;
        ephemeral := from_option ephemeral false (instance form);
        fields := from_option fields [] (instance form) |}.

Definition save_form (request : HttpRequest) (form : ModelFilterForm) (change : bool)
  : result ModelFilter :=
  model_filter ← ModelAdmin_save_form form;
  Ok {| id := id model_filter;
        name := name model_filter;
        description := description model_filter;
        content_type := content_type model_filter;
        owner := pk (user request);
        created := created model_filter;
        ephemeral := in_POST FORM_SAVE_APPLY_DISCARD request;
        fields := fields model_filter |}.

(** [obj.save()]: an object without id is inserted with [new_id], the
    key the store hands out, and the time of the insertion; an object
    with the id of a stored row replaces that row in place, and one whose
    id no row has is inserted with its id. *)
Definition save_model (obj : ModelFilter) (now : Z) (new_id : Z)
    (t : list ModelFilter) : list ModelFilter :=
  match id obj with
  | None =>
      (t ++ [ {| id := Some new_id; name := name obj;
                 description := description obj;
                 content_type := content_type obj; owner := owner obj;
                 created := Some now; ephemeral := ephemeral obj;
                 fields := fields obj |} ])%list
  | Some _ =>
      if existsb (λ row, bool_decide (id row = id obj)) t then
        (λ row, if bool_decide (id row = id obj) then obj else row) <$> t
      else
        (t ++ [ {| id := id obj; name := name obj;
                   description := description obj;
                   content_type := content_type obj; owner := owner obj;
                   created := Some now; ephemeral := ephemeral obj;
                   fields := fields obj |} ])%list
  end.

(** The POST branch of the change form: bind the form to the submitted
    data, and save when it is valid. *)
Definition changeform_post (request : HttpRequest) (obj : option ModelFilter)
    (now : Z) (new_id : Z) (t : list ModelFilter) : result (list ModelFilter) :=
  let form := {| instance := obj; initial := ∅; data := POST request |} in
  let change := bool_decide (is_Some obj) in
  new_object ← save_form request form change;
  Ok (save_model new_object now new_id t).
End SaveForm.

(** ** The spec's words for the sequence rules (section 4.4) *)
Section SequenceRules.
Variable OR_SEPARATOR : string.

Definition remaining (cleaned_data : list (gmap string PyVal))
  : list (gmap string PyVal) :=
  List.filter (λ data, negb (truthy (dict_get data "DELETE" (PyBool false))))
    cleaned_data.

Definition is_separator (data : gmap string PyVal) : Prop :=
  data !! "field" = Some (PyStr OR_SEPARATOR).

Definition starts_with_separator (filters : list (gmap string PyVal)) : Prop :=
  ∃ first_filter, filters !! 0%nat = Some first_filter ∧ is_separator first_filter.

Definition ends_with_separator (filters : list (gmap string PyVal)) : Prop :=
  ∃ last_filter, last filters = Some last_filter ∧ is_separator last_filter.

Definition has_adjacent_separators (filters : list (gmap string PyVal)) : Prop :=
  ∃ (i : nat) a b, filters !! i = Some a ∧ filters !! S i = Some b
                   ∧ is_separator a ∧ is_separator b.
End SequenceRules.

Definition AtLeastOneRequired : Exception :=
  ValidationError ["At least one field filter is required."].
Definition LeadingSeparator : Exception :=
  ValidationError ["First field filter cannot be an OR separator."].
Definition TrailingSeparator : Exception :=
  ValidationError ["Last field filter cannot be an OR separator."].
Definition ConsecutiveSeparators : Exception :=
  ValidationError ["Cannot have consecutive OR separators."].

(** ** Who holds view permission on a filter

    Class-level: the permission service grants [view_modelfilter] on the
    filter type.  Object-level: django-guardian is in use and its checker
    grants it on the instance (the checker grants a superuser
    everything). *)
Definition holds_class_view_permission (has_perm : User → string → bool) (u : User)
  : bool :=
  has_perm u "model_filters.view_modelfilter".

Definition holds_object_view_permission (settings : Settings)
    (guardian : option (User → string → ModelFilter → bool))
    (u : User) (mf : ModelFilter) : bool :=
  use_guardian settings
  && match guardian with
     | Some object_perm => is_superuser u || object_perm u "view_modelfilter" mf
     | None => false
     end.

(** ** Auxiliary notions of the proofs *)

(** Where the loop stands after the groups [gs], entered with the
    accumulator [qa] and the branches [qo]. *)
Definition loop_state (qa : Q) (qo : list Q) (gs : list (list Q)) : Q * list Q :=
  match gs with
  | [] => (qa, qo)
  | g :: rest =>
      let first_group := fold_left Q_and g qa in
      match rest with
      | [] => (first_group, qo)
      | _ :: _ =>
          (conjunction (List.last rest []),
           (qo ++ first_group :: (conjunction <$> List.removelast rest))%list)
      end
  end.

(** Every negation in the expression sits directly on one lookup. *)
Fixpoint negation_on_lookups_only (q : Q) : bool :=
  match q with
  | Q_ _ => true
  | QAnd a b | QOr a b => negation_on_lookups_only a && negation_on_lookups_only b
  | QNot (Q_ _) => true
  | QNot _ => false
  end.

(** ** The demo project ([acme/core/models.py]) as a concrete instance *)
Module acme.
(** A sample value of the separator sentinel and of the
    save-apply-discard key. *)
Definition OR_SEPARATOR : string := "__or__".
Definition FORM_SAVE_APPLY_DISCARD : string := "_saveapplydiscard".

Definition customer : ContentType :=
  {| ct_id := 1; app_label := "core"; model := "customer" |}.
Definition product : ContentType :=
  {| ct_id := 2; app_label := "core"; model := "product" |}.

Definition CharField : ModelField :=
  {| get_internal_type := "CharField"; to_python := λ s, Ok (PyStr s) |}.

Definition is_digit (c : Ascii.ascii) : bool :=
  let n := Ascii.nat_of_ascii c in (48 <=? n)%nat && (n <=? 57)%nat.

Fixpoint digits_value (s : string) (acc : Z) : option Z :=
  match s with
  | EmptyString => Some acc
  | String c s' =>
      if is_digit c then
        digits_value s' (10 * acc + Z.of_nat (Ascii.nat_of_ascii c) - 48)
      else None
  end.

(** [IntegerField.to_python] on plain decimal numerals; anything else is
    the [ValidationError] of the field. *)
Definition PositiveSmallIntegerField : ModelField :=
  {| get_internal_type := "PositiveSmallIntegerField";
     to_python := λ s,
       match (if bool_decide (s = "") then None else digits_value s 0) with
       | Some n => Ok (PyInt n)
       | None => Raise (ValidationError ["'" +:+ s +:+ "' value must be an integer."])
       end |}.

Definition get_fields_from_path (ct : ContentType) (path : string)
  : result (list ModelField) :=
  if bool_decide (ct = customer) then
    if bool_decide (path = "name") then Ok [CharField]
    else if bool_decide (path = "membership") then Ok [CharField]
    else Raise (FieldDoesNotExist path)
  else if bool_decide (ct = product) then
    if bool_decide (path = "name") then Ok [CharField]
    else if bool_decide (path = "min_age") then Ok [PositiveSmallIntegerField]
    else Raise (FieldDoesNotExist path)
  else Raise (FieldDoesNotExist path).

(** Customer rows, and the lookups the record store answers on them:
    [column = v] and [column__exact = v]. *)
Definition Row : Type := gmap string PyVal.

Definition lookup_holds (r : Row) (key : string) (v : PyVal) : bool :=
  existsb (λ column,
             (bool_decide (key = column) || bool_decide (key = column +:+ "__exact"))
             && bool_decide (r !! column = Some v))
          ["name"; "membership"].

(** The part of a lookup before the first [__], and the rest. *)
Fixpoint split_lookup (key : string) : string * option string :=
  match key with
  | EmptyString => (EmptyString, None)
  | String c rest =>
      match rest with
      | String c' rest' =>
          if bool_decide (String c (String c' EmptyString) = "__")
          then (EmptyString, Some rest')
          else let '(name, lookup) := split_lookup rest in (String c name, lookup)
      | EmptyString => (String c EmptyString, None)
      end
  end.

(** What [filter] says of a keyword argument on the customer model: the
    lookups [lookup_holds] answers resolve, a name that is no field of
    [Customer] and a lookup that [CharField] does not have raise
    [FieldError]. *)
Definition build_lookup (key : string) (v : PyVal) : result unit :=
  let '(name, lookup) := split_lookup key in
  if negb (bool_decide (name ∈ ["name"; "membership"])) then
    Raise (FieldError
             ("Cannot resolve keyword '" +:+ name +:+ "' into field. Choices are: "
              +:+ "email, first_seen, id, membership, name, purchase"))
  else
    match lookup with
    | None => Ok ()
    | Some l =>
        if bool_decide (l = "exact") then Ok ()
        else Raise (FieldError
                      ("Unsupported lookup '" +:+ l +:+ "' for CharField or join on "
                       +:+ "the field not permitted."))
    end.

Definition wile : Row :=
  {[ "name" := PyStr "Wile E. Coyote"; "membership" := PyStr "platinum" ]}.
Definition road_runner : Row :=
  {[ "name" := PyStr "Road Runner"; "membership" := PyStr "gold" ]}.

Definition clause (f o v : string) (n : bool) : FieldFilter :=
  {| field := f; operator := o; value := v; negate := n |}.
Definition or_clause : FieldFilter := clause OR_SEPARATOR "exact" "" false.

Definition customer_filter (i owner_id : Z) (e : bool) (fs : list FieldFilter)
  : ModelFilter :=
  {| id := Some i; name := Some "Customer Filter"; description := None;
     content_type := customer; owner := owner_id; created := Some 0;
     ephemeral := e; fields := fs |}.

Definition staff (i : Z) : User := {| pk := i; is_staff := true; is_superuser := false |}.
Definition superuser (i : Z) : User := {| pk := i; is_staff := true; is_superuser := true |}.

Definition request (u : User) (post : gmap string PyVal) : HttpRequest :=
  {| user := u; POST := post |}.

Definition settings (values : gmap string PyVal) : Settings :=
  {| setting_values := values; INSTALLED_APPS := ["django.contrib.admin"; "model_filters"] |}.

(** A permission service that grants the listed (user id, permission)
    pairs, and everything to a superuser. *)
Definition has_perm (granted : list (Z * string)) (u : User) (perm : string) : bool :=
  is_superuser u || bool_decide ((pk u, perm) ∈ granted).

(** [ModelAdmin.has_view_permission] and its siblings for the filter
    type: view needs view or change, the others their own permission. *)
Definition ModelAdmin_has_permission (granted : list (Z * string)) (a : Action)
    (r : HttpRequest) (obj : option ModelFilter) : bool :=
  match a with
  | View => has_perm granted (user r) "model_filters.view_modelfilter"
            || has_perm granted (user r) "model_filters.change_modelfilter"
  | Change => has_perm granted (user r) "model_filters.change_modelfilter"
  | Delete => has_perm granted (user r) "model_filters.delete_modelfilter"
  end.

(** Clauses and filters of the examples. *)
Definition name_is_wile : FieldFilter := clause "name" "exact" "Wile E. Coyote" false.
Definition name_is_not_wile : FieldFilter := clause "name" "exact" "Wile E. Coyote" true.
Definition name_is_road_runner : FieldFilter := clause "name" "exact" "Road Runner" false.
Definition membership_is_gold : FieldFilter := clause "membership" "exact" "gold" false.
Definition membership_is_platinum : FieldFilter :=
  clause "membership" "exact" "platinum" false.
Definition membership_is_null : FieldFilter := clause "membership" "isnull" "junk" false.
Definition bogus_is_x : FieldFilter := clause "bogus" "exact" "x" false.

Definition six_clauses : ModelFilter :=
  customer_filter 1 1 false
    [name_is_wile; or_clause; name_is_road_runner; membership_is_gold; or_clause;
     membership_is_null].
Definition negated_or : ModelFilter :=
  customer_filter 2 1 false [name_is_not_wile; or_clause; membership_is_gold].
Definition two_clauses : ModelFilter :=
  customer_filter 3 1 false [name_is_wile; membership_is_platinum].
Definition unknown_field : ModelFilter := customer_filter 4 1 false [bogus_is_x].
Definition trailing_or : ModelFilter :=
  customer_filter 5 1 false [name_is_wile; or_clause].
Definition bad_integer : ModelFilter :=
  {| id := Some 6; name := Some "Product Filter"; description := None;
     content_type := product; owner := 1; created := Some 0; ephemeral := false;
     fields := [clause "min_age" "exact" "5 years" false] |}.
Definition one_shot : ModelFilter := customer_filter 7 1 true [name_is_wile].
(** The clause [modelfilter_change_tests.py] stores: [equals] is no lookup
    of a [CharField]. *)
Definition membership_equals_platinum : FieldFilter :=
  clause "membership" "equals" "platinum" false.
Definition one_shot_equals : ModelFilter :=
  customer_filter 9 1 true [membership_equals_platinum].

(** Settings with the view toggle switched off. *)
Definition view_open : Settings :=
  settings {[ constants.SETTING_MODEL_FILTERS_VIEW_OWNER_ONLY := PyBool false ]}.

(** User 1 may view customers; user 2 may view filters, not customers. *)
Definition owner_grants : list (Z * string) := [(1, "core.view_customer")].
Definition viewer_grants : list (Z * string) := [(2, "model_filters.view_modelfilter")].

(** A clause form after field cleaning found the operator and the value
    blank. *)
Definition blank_operator_form : FieldFilterForm :=
  {| errors := {[ "operator" := ["This field is required."];
                  "value" := ["This field is required."] ]};
     value_required := true;
     form_model := customer;
     field_operators := {[ "name" := ["exact"; "isnull"];
                           "membership" := ["exact"; "isnull"] ]} |}.
(** A clause form whose value was reported missing. *)
Definition missing_value_form : FieldFilterForm :=
  {| errors := {[ "value" := ["This field is required."] ]};
     value_required := true;
     form_model := customer;
     field_operators := {[ "name" := ["exact"; "isnull"];
                           "membership" := ["exact"; "isnull"] ]} |}.

(** [str.strip] on the whitespace of ASCII. *)
Definition is_space (c : Ascii.ascii) : bool :=
  let n := Ascii.nat_of_ascii c in
  ((9 <=? n)%nat && (n <=? 13)%nat) || ((28 <=? n)%nat && (n <=? 32)%nat).

Fixpoint lstrip (s : string) : string :=
  match s with
  | EmptyString => EmptyString
  | String c rest => if is_space c then lstrip rest else s
  end.

Fixpoint rstrip (s : string) : string :=
  match s with
  | EmptyString => EmptyString
  | String c rest =>
      match rstrip rest with
      | EmptyString => if is_space c then EmptyString else String c EmptyString
      | kept => String c kept
      end
  end.

Definition strip (s : string) : string := rstrip (lstrip s).

(** [forms.CharField.clean] of an optional field: the text of the value,
    stripped; [empty_value] when nothing is left; the error of
    [max_length] when there is one. *)
Definition char_field_clean (empty_value : option string) (max_length : option nat)
    (v : PyVal) : result (option string) :=
  let text := if in_empty_values v then "" else strip (py_str v) in
  if bool_decide (text = "") then Ok empty_value
  else
    match max_length with
    | Some n =>
        if (n <? String.length text)%nat then
          Raise (ValidationError
                   ["Ensure this value has at most " +:+ pretty n
                    +:+ " characters (it has " +:+ pretty (String.length text) +:+ ")."])
        else Ok (Some text)
    | None => Ok (Some text)
    end.

(** The form field of [name], a nullable [CharField] of at most 1024
    characters, cleans a blank to [None]; that of [description], a
    [TextField], to the empty string. *)
Definition name_clean : PyVal → result (option string) :=
  char_field_clean None (Some 1024%nat).
Definition description_clean : PyVal → result (option string) :=
  char_field_clean (Some "") None.

(** The body of an ordinary save of filter 3, and of one of filter 7. *)
Definition edit_post : gmap string PyVal :=
  {[ "name" := PyStr "New Name"; "content_type" := PyInt 1; "owner" := PyInt 1;
     "_save" := PyStr "Save" ]}.
Definition edited : ModelFilter :=
  {| id := Some 3; name := Some "New Name"; description := Some "";
     content_type := customer; owner := 2; created := Some 0;
     ephemeral := false; fields := [name_is_wile; membership_is_platinum] |}.
Definition edit_form (inst : ModelFilter) : ModelFilterForm :=
  {| instance := Some inst; initial := ∅; data := edit_post |}.
End acme.

(** ** Filter field configuration ([get_clean_filter_fields]) *)

(** One entry of [model_filter_fields]: a tuple or list of values, or any
    other value (a field path when it is a string). *)
Inductive FilterFieldEntry : Type :=
| EntrySequence (items : list PyVal)
| EntryValue (v : PyVal).

(** [collections.OrderedDict]: the items in insertion order.
    [od_set] is [d[key] = v]: the value of a key already present is replaced
    where it stands, a new key goes to the end. *)
Fixpoint od_set (key : string) (v : string) (d : list (string * string))
  : list (string * string) :=
  match d with
  | [] => [(key, v)]
  | (k, w) :: d' =>
      if bool_decide (k = key) then (k, v) :: d' else (k, w) :: od_set key v d'
  end.

Fixpoint od_get (key : string) (d : list (string * string)) : option string :=
  match d with
  | [] => None
  | (k, w) :: d' => if bool_decide (k = key) then Some w else od_get key d'
  end.

Section CleanFilterFields.
Variable get_fields_from_path : ContentType → string → result (list ModelField).
(** [model_field.verbose_name] *)
Variable verbose_name : ModelField → string.
(** [django.template.defaultfilters.title] *)
Variable title : string → string.

(** One turn of the loop: the key and the label the entry stands for. *)
Definition clean_filter_field (model_ : ContentType) (entry : FilterFieldEntry)
    (use_title_case : bool) : result (string * string) :=
  match entry with
  | EntrySequence items =>
      if negb (bool_decide (length items = 2%nat)) then
        Raise (ValueError "Iterable model filter field length must be 2.")
      else
        match items with
        | [PyStr name0; PyStr label] => Ok (name0, label)
        | _ => Raise (ValueError "Model filter field values must be strings.")
        end
  | EntryValue (PyStr path) =>
      fs ← get_fields_from_path model_ path;
      model_field ← last_item fs;
      let label := verbose_name model_field in
      Ok (path, if use_title_case then title label else label)
  | EntryValue _ => Raise (ValueError "Model filter field values must be strings.")
  end.

Fixpoint get_clean_filter_fields_loop (model_ : ContentType)
    (entries : list FilterFieldEntry) (use_title_case : bool)
    (model_fields : list (string * string)) : result (list (string * string)) :=
  match entries with
  | [] => Ok model_fields
  | entry :: rest =>
      '(key, label) ← clean_filter_field model_ entry use_title_case;
      get_clean_filter_fields_loop model_ rest use_title_case
        (od_set key label model_fields)
  end.

Definition get_clean_filter_fields (model_ : ContentType)
    (entries : list FilterFieldEntry) (use_title_case : bool)
  : result (list (string * string)) :=
  get_clean_filter_fields_loop model_ entries use_title_case [].
End CleanFilterFields.

(** The field names of a configuration in the order they first occur. *)
Fixpoint first_occurrences (names : list string) : list string :=
  match names with
  | [] => []
  | x :: rest => x :: List.filter (λ y, negb (bool_decide (y = x))) (first_occurrences rest)
  end.

(** ** The operator catalog ([get_field_operators] and the tables of
    [FieldFilterForm]) *)

Definition DEFAULT_OPERATORS : list (string * string) :=
  [("exact", "Equals (exact)"); (constants.IS_NULL, "Is NULL")].

Definition BOOLEAN_OPERATORS : list (string * string) :=
  [(constants.IS_TRUE, "Is TRUE"); (constants.IS_FALSE, "Is FALSE");
   (constants.IS_NULL, "Is NULL")].

Definition TEXT_OPERATORS : list (string * string) :=
  [("exact", "Equals (case-sensitive)"); ("iexact", "Equals (ignore case)");
   ("contains", "Contains (case-sensitive)"); ("icontains", "Contains (ignore case)");
   ("regex", "Regex Match (case-sensitive)"); ("iregex", "Regex Match (ignore case)");
   (constants.IS_EMPTY, "Is Empty"); (constants.IS_NULL, "Is NULL")].

Definition NUMERIC_OPERATORS : list (string * string) :=
  [("exact", "Equals (numeric)"); ("lt", "Less Than"); ("gt", "Greater Than");
   ("lte", "Less Than or Equal To"); ("gte", "Greater Than or Equal To");
   (constants.IS_NULL, "Is NULL")].

Definition DATE_OPERATORS : list (string * string) :=
  [("exact", "Equals (date/time)"); ("lt", "Less Than"); ("gt", "Greater Than");
   ("lte", "Less Than or Equal To"); ("gte", "Greater Than or Equal To");
   (constants.IS_NULL, "Is NULL")].

Definition UUID_OPERATORS : list (string * string) :=
  [("exact", "Equals (UUID)"); (constants.IS_NULL, "Is NULL")].

(** The choices of the operator input. *)
Definition OPERATORS : list (string * string) :=
  (BOOLEAN_OPERATORS ++ TEXT_OPERATORS ++ NUMERIC_OPERATORS ++ DATE_OPERATORS
   ++ UUID_OPERATORS)%list.

(** Field classes are named; the dictionary keeps its insertion order. *)
Definition OPERATOR_MAP : list (string * list (string * string)) :=
  [("CharField", TEXT_OPERATORS); ("TextField", TEXT_OPERATORS);
   ("FilePathField", TEXT_OPERATORS); ("IPAddressField", TEXT_OPERATORS);
   ("GenericIPAddressField", TEXT_OPERATORS); ("DecimalField", NUMERIC_OPERATORS);
   ("FloatField", NUMERIC_OPERATORS); ("IntegerField", NUMERIC_OPERATORS);
   ("DateField", DATE_OPERATORS); ("BooleanField", BOOLEAN_OPERATORS);
   ("UUIDField", UUID_OPERATORS)].

(** [not operators], for [None] and for an empty list *)
Definition no_operators (operators : option (list (string * string))) : bool :=
  match operators with
  | None | Some [] => true
  | Some (_ :: _) => false
  end.

(** The inner loop over [OPERATOR_MAP.items()].  [class_of] is the class
    of the field object and [bases] are the classes it is an instance of
    (its own class among them). *)
Fixpoint match_operators (class_of : string) (bases : list string)
    (operator_map : list (string * list (string * string)))
    (operators : option (list (string * string)))
  : option (list (string * string)) :=
  match operator_map with
  | [] => operators
  | (field_class, valid_operators) :: rest =>
      if bool_decide (class_of = field_class) then Some valid_operators
      else if no_operators operators && bool_decide (field_class ∈ bases) then
        match_operators class_of bases rest (Some valid_operators)
      else match_operators class_of bases rest operators
  end.

Definition operators_for (class_of : string) (bases : list string)
    (operator_map : list (string * list (string * string)))
    (default_operators : list (string * string)) : list (string * string) :=
  let operators := match_operators class_of bases operator_map None in
  if no_operators operators then default_operators
  else default [] operators.

Section FieldOperators.
Variable get_fields_from_path : ContentType → string → result (list ModelField).
(** [type(field_obj)] and the classes [isinstance] accepts for it. *)
Variable class_of : ModelField → string.
Variable bases : ModelField → list string.

Fixpoint get_field_operators_loop (model_ : ContentType) (field_paths : list string)
    (operator_map : list (string * list (string * string)))
    (default_operators : list (string * string))
    (field_operators : gmap string (list (string * string)))
  : result (gmap string (list (string * string))) :=
  match field_paths with
  | [] => Ok field_operators
  | field_path :: rest =>
      fs ← get_fields_from_path model_ field_path;
      field_obj ← last_item fs;
      let operators :=
        operators_for (class_of field_obj) (bases field_obj) operator_map
          default_operators in
      get_field_operators_loop model_ rest operator_map default_operators
        (<[field_path := operators]> field_operators)
  end.

Definition get_field_operators (model_ : ContentType) (field_paths : list string)
    (operator_map : list (string * list (string * string)))
    (default_operators : list (string * string))
  : result (gmap string (list (string * string))) :=
  get_field_operators_loop model_ field_paths operator_map default_operators ∅.
End FieldOperators.

(** ** Redirecting a save to the listing ([get_apply_url],
    [_save_apply_redirect]) *)

(** The parameter name of [constants.py], as [utilities_tests.py] expects
    it in the apply URL. *)
Definition FILTER_PARAMETER_NAME : string := "__model_filter".

Inductive HttpResponse : Type :=
| TemplateResponse (content : string)
| HttpResponseRedirect (url : string).

(** [str(model_filter.id)] *)
Definition id_str (i : option Z) : string :=
  match i with
  | Some n => py_str (PyInt n)
  | None => py_str PyNone
  end.

Section ApplyRedirect.
Variable FORM_SAVE_APPLY : string.
Variable FORM_SAVE_APPLY_DISCARD : string.
(** [django.urls.reverse] *)
Variable reverse : string → string.

Definition get_apply_url (ct : ContentType) (model_filter_id : option Z) : string :=
  let app := app_label ct in
  let model_name := model ct in
  let url := reverse ("admin:" +:+ app +:+ "_" +:+ model_name +:+ "_changelist") in
  url +:+ "?" +:+ FILTER_PARAMETER_NAME +:+ "=" +:+ id_str model_filter_id.

Definition _save_apply_redirect (request : HttpRequest) (response : HttpResponse)
    (model_filter : ModelFilter) : HttpResponse :=
  let apply_keys := [FORM_SAVE_APPLY; FORM_SAVE_APPLY_DISCARD] in
  if existsb (λ key, in_POST key request) apply_keys then
    HttpResponseRedirect (get_apply_url (content_type model_filter) (id model_filter))
  else response.
End ApplyRedirect.

(** ** The edit link of the listing ([ModelFilterMixin.get_changelist_instance]) *)
Section ChangelistInstance.
Variable settings : Settings.
(** [user.has_perm(perm, obj=obj)] *)
Variable has_perm_obj : User → string → option ModelFilter → bool.

(** The [can_change_filter] entry that [get_changelist_instance] puts in
    the extra context for the filter stored on the request. *)
Definition can_change_filter (request : HttpRequest) (model_filter : ModelFilter) : bool :=
  let can_change := bool_decide (owner model_filter = pk (user request)) in
  if negb can_change && negb (change_owner_only settings) then
    let codename := "change" +:+ "_" +:+ "modelfilter" in
    has_perm_obj (user request) ("model_filters" +:+ "." +:+ codename)
      (if use_guardian settings then Some model_filter else None)
  else can_change.
End ChangelistInstance.

(** ** The admin's own queryset and add permission ([admin/model_filter.py]) *)
Section AdminQueryset.
Variable settings : Settings.
Variable has_perm : User → string → bool.
Variable guardian : option (User → string → ModelFilter → bool).

Definition get_queryset (request : HttpRequest) (queryset : QuerySet) : QuerySet :=
  if is_superuser (user request) then queryset
  else for_user settings has_perm guardian queryset (user request).

(** [content_type] is what [get_content_type] finds on the request. *)
Definition has_add_permission (request : HttpRequest) (ct : option ContentType) : bool :=
  match ct with
  | None => false
  | Some ct =>
      if is_superuser (user request) then true
      else user_can_access_content_type has_perm (user request) ct
  end.
End AdminQueryset.

(** ** The cleaned data of a stored clause

    What the inline form of a clause hands to the formset when the clause
    is submitted as it is stored. *)
Definition clause_data (f : FieldFilter) : gmap string PyVal :=
  {[ "field" := PyStr (field f); "operator" := PyStr (operator f);
     "value" := PyStr (value f); "negate" := PyBool (negate f) ]}.

(** The entry of the map for the class itself, and the first entry for a
    class the field is an instance of. *)
Definition exact_entry (class_of : string)
    (operator_map : list (string * list (string * string)))
  : option (string * list (string * string)) :=
  List.find (λ entry, bool_decide (class_of = entry.1)) operator_map.

Definition first_base_entry (bases : list string)
    (operator_map : list (string * list (string * string)))
  : option (string * list (string * string)) :=
  List.find (λ entry, bool_decide (entry.1 ∈ bases)) operator_map.

(** Separator placement on the flags "this clause is a separator": after a
    clause, and from the start of the sequence. *)
Fixpoint well_placed_after_clause (flags : list bool) : bool :=
  match flags with
  | [] => true
  | false :: rest => well_placed_after_clause rest
  | true :: rest =>
      match rest with
      | false :: rest' => well_placed_after_clause rest'
      | _ => false
      end
  end.

Definition well_placed (flags : list bool) : bool :=
  match flags with
  | false :: rest => well_placed_after_clause rest
  | _ => false
  end.

(** ** More of the demo project: declared filter fields, clause forms,
    filters to join, and requests *)
Module demo.
Definition FORM_SAVE_APPLY : string := "_saveapply".

(** [verbose_name] of the demo fields, and [str.title]. *)
Definition verbose_name (f : ModelField) : string :=
  if bool_decide (get_internal_type f = "CharField") then "name" else "minimum age".
Definition title (s : string) : string := s.

(** A [model_filter_fields] declaration: a path, a (path, label) pair,
    and the first path again with a label of its own. *)
Definition declared_fields : list FilterFieldEntry :=
  [EntryValue (PyStr "name");
   EntrySequence [PyStr "membership"; PyStr "Tier"];
   EntrySequence [PyStr "name"; PyStr "Full name"]].
Definition declared_pairs : list (string * string) :=
  [("name", "name"); ("membership", "Tier"); ("name", "Full name")].

(** A clause form of the customer model and one of the product model. *)
Definition customer_form : FieldFilterForm :=
  {| errors := ∅; value_required := true; form_model := acme.customer;
     field_operators := {[ "name" := ["exact"; "isnull"];
                           "membership" := ["exact"; "isnull"] ]} |}.
Definition product_form : FieldFilterForm :=
  {| errors := ∅; value_required := true; form_model := acme.product;
     field_operators := {[ "min_age" := ["exact"; "gt"] ]} |}.
Definition regex_row : gmap string PyVal :=
  {[ "field" := PyStr "name"; "operator" := PyStr "regex"; "value" := PyStr "^W" ]}.
Definition min_age_row : gmap string PyVal :=
  {[ "field" := PyStr "min_age"; "operator" := PyStr "exact";
     "value" := PyStr "5 years" ]}.
Definition separator_row : gmap string PyVal :=
  {[ "field" := PyStr acme.OR_SEPARATOR; "operator" := PyStr "exact" ]}.

(** The conditions of the six clauses of [acme.six_clauses]. *)
Definition six_tokens : list (option Q) :=
  [Some (Q_ [("name__exact", PyStr "Wile E. Coyote")]); None;
   Some (Q_ [("name__exact", PyStr "Road Runner")]);
   Some (Q_ [("membership__exact", PyStr "gold")]); None;
   Some (Q_ [("membership", PyNone)])].

(** The two sides of [acme.negated_or], the two halves of
    [acme.two_clauses], that filter with its clauses swapped, and a
    filter whose second clause names no field. *)
Definition not_wile : ModelFilter := acme.customer_filter 10 1 false [acme.name_is_not_wile].
Definition gold : ModelFilter := acme.customer_filter 11 1 false [acme.membership_is_gold].
Definition platinum : ModelFilter :=
  acme.customer_filter 12 1 false [acme.membership_is_platinum].
Definition swapped : ModelFilter :=
  acme.customer_filter 13 1 false [acme.membership_is_platinum; acme.name_is_wile].
Definition bogus_second : ModelFilter :=
  acme.customer_filter 14 1 false
    [acme.name_is_wile; acme.bogus_is_x; acme.membership_is_gold].

(** What applying [acme.one_shot] leaves behind. *)
Definition applied_one_shot : Applied :=
  {| listing := distinct (filter (λ r, Q_matches acme.lookup_holds
                                         (Q_ [("name__exact", PyStr "Wile E. Coyote")]) r)
                            [acme.wile; acme.road_runner]);
     stored := delete_model_filter acme.one_shot [acme.two_clauses; acme.one_shot];
     model_filter_model_filter := None |}.

(** The body of a save-apply-discard of filter 3, what the form and what
    [save_form] make of it. *)
Definition discard_post : gmap string PyVal :=
  <[ acme.FORM_SAVE_APPLY_DISCARD := PyStr "Save, apply and discard" ]> acme.edit_post.
Definition unsaved_edit : ModelFilter :=
  {| id := Some 3; name := Some "New Name"; description := Some "";
     content_type := acme.customer; owner := 1; created := Some 0;
     ephemeral := false; fields := [acme.name_is_wile; acme.membership_is_platinum] |}.
Definition saved_discard : ModelFilter :=
  {| id := Some 3; name := Some "New Name"; description := Some "";
     content_type := acme.customer; owner := 1; created := Some 0;
     ephemeral := true; fields := [acme.name_is_wile; acme.membership_is_platinum] |}.
Definition reverse (view_name : string) : string :=
  if bool_decide (view_name = "admin:core_customer_changelist")
  then "/admin/core/customer/" else "/admin/".

(** Settings with the change toggle switched off; user 2 may view
    customers and change filters. *)
Definition change_open : Settings :=
  acme.settings {[ constants.SETTING_MODEL_FILTERS_CHANGE_OWNER_ONLY := PyBool false ]}.
Definition editor_grants : list (Z * string) :=
  [(2, "core.view_customer"); (2, "model_filters.change_modelfilter")].
Definition has_perm_obj (u : User) (perm : string) (obj : option ModelFilter) : bool :=
  acme.has_perm editor_grants u perm.
End demo.

Module demo_fields.
(** The class of a demo field and the classes it is an instance of. *)
Definition class_of (f : ModelField) : string := get_internal_type f.
Definition bases (f : ModelField) : list string :=
  if bool_decide (get_internal_type f = "PositiveSmallIntegerField")
  then ["PositiveSmallIntegerField"; "IntegerField"; "Field"]
  else [get_internal_type f; "Field"].
End demo_fields.

(** * Properties of the query compiler *)

Lemma bind_Ok {A B} (a : A) (f : A → result B) : (Ok a ≫= f) = f a.
Proof. reflexivity. Qed.

Lemma bind_Raise {A B} (e : Exception) (f : A → result B) : (Raise e ≫= f) = Raise e.
Proof. reflexivity. Qed.

Lemma Q_bool_false (q : Q) : Q_bool q = false ↔ q = Q_ [].
Proof.
  split; [|intros ->; reflexivity].
  destruct q as [[|kv children]| | |]; simpl; intros H; congruence.
Qed.

Lemma Q_and_empty_l (q : Q) : Q_and (Q_ []) q = q.
Proof.
  unfold Q_and, Q_combine. destruct (Q_bool q) eqn:E; simpl; [reflexivity|].
  symmetry. by apply Q_bool_false.
Qed.

Lemma Q_or_empty_l (q : Q) : Q_or (Q_ []) q = q.
Proof.
  unfold Q_or, Q_combine. destruct (Q_bool q) eqn:E; simpl; [reflexivity|].
  symmetry. by apply Q_bool_false.
Qed.

Lemma Q_or_empty_r (q : Q) : Q_or q (Q_ []) = q.
Proof. reflexivity. Qed.

Lemma Q_and_nonempty (a b : Q) :
  Q_bool a = true → Q_bool b = true → Q_and a b = QAnd a b.
Proof. unfold Q_and, Q_combine. by intros -> ->. Qed.

Lemma Q_or_nonempty (a b : Q) :
  Q_bool a = true → Q_bool b = true → Q_or a b = QOr a b.
Proof. unfold Q_or, Q_combine. by intros -> ->. Qed.

Lemma Q_bool_and (a b : Q) : Q_bool (Q_and a b) = Q_bool a || Q_bool b.
Proof.
  unfold Q_and, Q_combine.
  destruct (Q_bool b) eqn:Eb, (Q_bool a) eqn:Ea; simpl; congruence.
Qed.

Lemma Q_bool_or (a b : Q) : Q_bool (Q_or a b) = Q_bool a || Q_bool b.
Proof.
  unfold Q_or, Q_combine.
  destruct (Q_bool b) eqn:Eb, (Q_bool a) eqn:Ea; simpl; congruence.
Qed.

Lemma Q_kwargs_singleton (k : string) (v : PyVal) : Q_kwargs {[ k := v ]} = Q_ [(k, v)].
Proof. unfold Q_kwargs. by rewrite map_to_list_singleton. Qed.

Section CompilerFacts.
Variable OR_SEPARATOR : string.
Variable get_fields_from_path : ContentType → string → result (list ModelField).

Local Abbreviation params := (build_query_params get_fields_from_path).
Local Abbreviation condition := (make_query_filter get_fields_from_path).
Local Abbreviation token := (clause_token OR_SEPARATOR get_fields_from_path).
Local Abbreviation loop := (build_query_filter_loop OR_SEPARATOR get_fields_from_path).
Local Abbreviation compile := (build_query_filter OR_SEPARATOR get_fields_from_path).

(** The parameter dictionary of a clause has exactly one entry. *)
Lemma build_query_params_singleton mf f p :
  params mf f = Ok p → ∃ k v, p = {[ k := v ]}.
Proof.
  unfold build_query_params. repeat case_bool_decide.
  1-4: intros [= <-]; eauto.
  destruct (get_fields_from_path _ _) as [path|]; simpl; [|done].
  destruct (last_item path) as [mfld|]; simpl; [|done].
  destruct (to_python mfld _) as [v|]; simpl; [|done].
  intros [= <-]; eauto.
Qed.

(** The condition of a clause is its lookup, inverted when [negate] is
    set. *)
Lemma make_query_filter_params mf f p :
  params mf f = Ok p →
  condition mf f = Ok (if negate f then QNot (Q_kwargs p) else Q_kwargs p).
Proof.
  intros Hp. unfold make_query_filter. rewrite Hp. simpl.
  destruct (build_query_params_singleton _ _ _ Hp) as (k & v & ->).
  rewrite Q_kwargs_singleton.
  destruct (negate f); by rewrite Q_and_empty_l.
Qed.

Lemma make_query_filter_Raise mf f e :
  params mf f = Raise e → condition mf f = Raise e.
Proof. intros Hp. unfold make_query_filter. by rewrite Hp. Qed.

Lemma make_query_filter_nonempty mf f q : condition mf f = Ok q → Q_bool q = true.
Proof.
  destruct (params mf f) as [p|e] eqn:Hp.
  - rewrite (make_query_filter_params _ _ _ Hp).
    destruct (build_query_params_singleton _ _ _ Hp) as (k & v & ->).
    rewrite Q_kwargs_singleton. destruct (negate f); by intros [= <-].
  - by rewrite (make_query_filter_Raise _ _ _ Hp).
Qed.
End CompilerFacts.

Lemma and_groups_cons (tokens : list (option Q)) :
  ∃ g gs, and_groups tokens = g :: gs.
Proof.
  induction tokens as [|[q|] tokens IH]; simpl; eauto.
  destruct IH as (g & gs & ->). eauto.
Qed.

Lemma loop_state_cut (qa : Q) (qo : list Q) (gs : list (list Q)) :
  gs ≠ [] →
  loop_state (Q_ []) (qo ++ [qa]) gs = loop_state qa qo ([] :: gs).
Proof.
  destruct gs as [|g rest]; [done|]. intros _.
  cbn [loop_state fold_left].
  destruct rest as [|g' rest'].
  - reflexivity.
  - change (List.last (g :: g' :: rest') []) with (List.last (g' :: rest') []).
    change (List.removelast (g :: g' :: rest')) with (g :: List.removelast (g' :: rest')).
    rewrite fmap_cons, <- app_assoc. reflexivity.
Qed.

Section Refinement.
Variable OR_SEPARATOR : string.
Variable get_fields_from_path : ContentType → string → result (list ModelField).

Local Abbreviation condition := (make_query_filter get_fields_from_path).
Local Abbreviation token := (clause_token OR_SEPARATOR get_fields_from_path).
Local Abbreviation loop := (build_query_filter_loop OR_SEPARATOR get_fields_from_path).
Local Abbreviation compile := (build_query_filter OR_SEPARATOR get_fields_from_path).

Lemma clause_token_separator mf f : field f = OR_SEPARATOR → token mf f = Ok None.
Proof. intros H. unfold clause_token. by rewrite bool_decide_eq_true_2. Qed.

Lemma clause_token_condition mf f :
  field f ≠ OR_SEPARATOR → token mf f = (Some <$> condition mf f).
Proof. intros H. unfold clause_token. by rewrite bool_decide_eq_false_2. Qed.

Lemma loop_and_groups mf fs : ∀ qa qo,
  loop mf fs qa qo =
  (tokens ← traverse (token mf) fs; Ok (loop_state qa qo (and_groups tokens))).
Proof.
  induction fs as [|f fs IH]; intros qa qo; [reflexivity|].
  cbn [build_query_filter_loop traverse].
  case_bool_decide as Hsep.
  - rewrite IH, (clause_token_separator _ _ Hsep), bind_Ok.
    destruct (traverse (token mf) fs) as [tokens|e]; [|reflexivity].
    rewrite !bind_Ok. cbn [and_groups].
    rewrite loop_state_cut; [reflexivity|].
    destruct (and_groups_cons tokens) as (g & gs & ->). done.
  - rewrite (clause_token_condition _ _ Hsep).
    destruct (condition mf f) as [q|e]; [|reflexivity].
    cbn [fmap result_fmap]. rewrite !bind_Ok, IH.
    destruct (traverse (token mf) fs) as [tokens|e]; [|reflexivity].
    rewrite !bind_Ok. cbn [and_groups].
    destruct (and_groups_cons tokens) as (g & gs & ->).
    reflexivity.
Qed.

(** The loop of [build_query_filter] computes what the specification
    describes: cut at the separators, AND inside a group, OR between
    groups, with the same exception when a clause fails to build. *)
Lemma build_query_filter_refines mf :
  compile mf = compile_spec OR_SEPARATOR get_fields_from_path mf.
Proof.
  unfold build_query_filter, compile_spec. rewrite loop_and_groups.
  destruct (traverse (token mf) (fields mf)) as [tokens|e]; [|reflexivity].
  rewrite !bind_Ok.
  destruct (and_groups_cons tokens) as (g & gs & ->).
  cbn [loop_state fold_left]. destruct gs as [|g' rest]; [reflexivity|].
  cbn -[List.last List.removelast conjunction]. f_equal.
  change (fold_left Q_or (conjunction <$> rest) (Q_or (conjunction g) (conjunction g')))
    with (fold_left Q_or (conjunction <$> (g' :: rest)) (conjunction g)).
  assert (Hr : g' :: rest ≠ []) by done.
  rewrite (app_removelast_last [] Hr) at 3.
  rewrite fmap_app. reflexivity.
Qed.
End Refinement.

Section Matching.
Context {Row : Type}.
Variable lookup_holds : Row → string → PyVal → bool.
Local Abbreviation matches := (Q_matches lookup_holds).

Lemma Q_matches_empty r : matches (Q_ []) r = true.
Proof. reflexivity. Qed.

Lemma Q_matches_and a b r : matches (Q_and a b) r = matches a r && matches b r.
Proof.
  unfold Q_and, Q_combine.
  destruct (Q_bool b) eqn:Eb; simpl.
  - destruct (Q_bool a) eqn:Ea; simpl; [reflexivity|].
    apply Q_bool_false in Ea as ->. reflexivity.
  - apply Q_bool_false in Eb as ->. simpl. by rewrite andb_true_r.
Qed.

Lemma Q_matches_or a b r :
  Q_bool a = true → Q_bool b = true →
  matches (Q_or a b) r = matches a r || matches b r.
Proof. intros Ha Hb. by rewrite Q_or_nonempty. Qed.

Lemma fold_Q_and_matches g : ∀ q0 r,
  matches (fold_left Q_and g q0) r = matches q0 r && forallb (λ q, matches q r) g.
Proof.
  induction g as [|q g IH]; intros q0 r; simpl.
  - by rewrite andb_true_r.
  - by rewrite IH, Q_matches_and, andb_assoc.
Qed.

Lemma conjunction_matches g r :
  matches (conjunction g) r = forallb (λ q, matches q r) g.
Proof. unfold conjunction. by rewrite fold_Q_and_matches. Qed.

Lemma fold_Q_and_bool g : ∀ q0,
  Q_bool (fold_left Q_and g q0) = Q_bool q0 || existsb Q_bool g.
Proof.
  induction g as [|q g IH]; intros q0; simpl.
  - by rewrite orb_false_r.
  - by rewrite IH, Q_bool_and, orb_assoc.
Qed.

Lemma conjunction_bool g :
  Forall (λ q, Q_bool q = true) g → Q_bool (conjunction g) = nonempty_group g.
Proof.
  unfold conjunction. rewrite fold_Q_and_bool. simpl.
  destruct 1 as [|q g Hq Hg]; [reflexivity|].
  simpl. by rewrite Hq.
Qed.

(** [|] drops its empty operands: only the non-empty ones count, and
    when every one is empty the result is the empty [Q()]. *)
Lemma fold_Q_or_matches qs : ∀ q0 r,
  matches (fold_left Q_or qs q0) r =
  if existsb Q_bool (q0 :: qs)
  then existsb (λ q, Q_bool q && matches q r) (q0 :: qs)
  else true.
Proof.
  induction qs as [|q qs IH]; intros q0 r.
  - simpl. rewrite !orb_false_r.
    destruct (Q_bool q0) eqn:E; [reflexivity|].
    apply Q_bool_false in E as ->. reflexivity.
  - cbn [fold_left]. rewrite IH. cbn [existsb].
    rewrite Q_bool_or.
    destruct (Q_bool q0) eqn:E0, (Q_bool q) eqn:E; cbn [orb andb].
    + rewrite Q_matches_or by done. by rewrite orb_assoc.
    + apply Q_bool_false in E as ->. reflexivity.
    + apply Q_bool_false in E0 as ->. by rewrite Q_or_empty_l.
    + apply Q_bool_false in E as ->. reflexivity.
Qed.

Lemma disjunction_matches (gs : list (list Q)) r :
  Forall (Forall (λ q, Q_bool q = true)) gs →
  matches (disjunction (conjunction <$> gs)) r =
  if existsb nonempty_group gs
  then existsb (λ g, nonempty_group g && forallb (λ q, matches q r) g) gs
  else true.
Proof.
  intros Hgs. destruct gs as [|g gs]; [reflexivity|].
  rewrite fmap_cons. cbn [disjunction]. rewrite fold_Q_or_matches.
  assert (Hb : ∀ l : list (list Q), Forall (Forall (λ q, Q_bool q = true)) l →
            existsb Q_bool (conjunction <$> l) = existsb nonempty_group l).
  { induction 1 as [|x l Hx Hl IHl]; [reflexivity|].
    rewrite fmap_cons. cbn [existsb]. by rewrite IHl, conjunction_bool. }
  assert (Hm : ∀ l : list (list Q), Forall (Forall (λ q, Q_bool q = true)) l →
            existsb (λ q, Q_bool q && matches q r) (conjunction <$> l)
            = existsb (λ g, nonempty_group g && forallb (λ q, matches q r) g) l).
  { induction 1 as [|x l Hx Hl IHl]; [reflexivity|].
    rewrite fmap_cons. cbn [existsb].
    by rewrite IHl, conjunction_bool, conjunction_matches. }
  rewrite <- fmap_cons, Hb, Hm by done. reflexivity.
Qed.

(** With no empty group this is the plain sum of products. *)
Lemma disjunction_matches_no_empty (gs : list (list Q)) r :
  Forall (Forall (λ q, Q_bool q = true)) gs →
  gs ≠ [] →
  forallb nonempty_group gs = true →
  matches (disjunction (conjunction <$> gs)) r =
  existsb (forallb (λ q, matches q r)) gs.
Proof.
  intros Hgs Hne Hall. rewrite disjunction_matches by done.
  assert (Hex : existsb nonempty_group gs = true).
  { destruct gs as [|g gs]; [done|]. simpl in *.
    apply andb_true_iff in Hall as [-> _]. reflexivity. }
  rewrite Hex. clear Hex Hne Hgs.
  induction gs as [|g gs IH]; [reflexivity|].
  simpl in *. apply andb_true_iff in Hall as [Hg Hall].
  by rewrite Hg, IH.
Qed.
End Matching.

Lemma and_groups_nonempty_conditions (tokens : list (option Q)) :
  Forall (λ t, ∀ q, t = Some q → Q_bool q = true) tokens →
  Forall (Forall (λ q, Q_bool q = true)) (and_groups tokens).
Proof.
  induction 1 as [|t tokens Ht Hts IH]; simpl.
  - repeat constructor.
  - destruct t as [q|].
    + destruct (and_groups tokens) as [|g gs].
      * repeat constructor. by apply Ht.
      * inversion IH; subst. constructor; [|done]. constructor; [by apply Ht|done].
    + constructor; [constructor|done].
Qed.

Lemma traverse_Ok_Forall2 {A B} (f : A → result B) (l : list A) (l' : list B) :
  traverse f l = Ok l' → Forall2 (λ x y, f x = Ok y) l l'.
Proof.
  revert l'. induction l as [|x l IH]; intros l'; simpl.
  - intros [= <-]. constructor.
  - destruct (f x) as [y|] eqn:Hx; simpl; [|done].
    destruct (traverse f l) as [ys|]; simpl; [|done].
    intros [= <-]. constructor; [done|]. by apply IH.
Qed.

Lemma traverse_is_ok {A B} (f : A → result B) (l : list A) :
  Forall (λ x, is_ok (f x) = true) l → ∃ l', traverse f l = Ok l'.
Proof.
  induction 1 as [|x l Hx Hl [ys IH]]; simpl; [eauto|].
  destruct (f x) as [y|]; [|done]. rewrite IH. simpl. eauto.
Qed.

Lemma traverse_first_failure {A B} (f : A → result B) (good rest : list A)
    (bad : A) (e : Exception) :
  Forall (λ x, is_ok (f x) = true) good → f bad = Raise e →
  traverse f (good ++ bad :: rest)%list = Raise e.
Proof.
  intros Hgood Hbad. induction Hgood as [|x good Hx _ IH]; simpl.
  - by rewrite Hbad.
  - destruct (f x) as [y|]; [|done]. simpl. by rewrite IH.
Qed.

Section TokenFacts.
Variable OR_SEPARATOR : string.
Variable get_fields_from_path : ContentType → string → result (list ModelField).
Local Abbreviation token := (clause_token OR_SEPARATOR get_fields_from_path).

Lemma tokens_nonempty_conditions mf fs tokens :
  traverse (token mf) fs = Ok tokens →
  Forall (λ t, ∀ q, t = Some q → Q_bool q = true) tokens.
Proof.
  intros H. apply traverse_Ok_Forall2 in H.
  induction H as [|f t fs tokens Hf _ IH]; constructor; [|done].
  intros q ->. unfold clause_token in Hf. case_bool_decide; [done|].
  destruct (make_query_filter _ mf f) as [q'|] eqn:Hq; [|done].
  injection Hf as ->. by eapply make_query_filter_nonempty.
Qed.
End TokenFacts.

Lemma and_groups_conditions (conds : list Q) : and_groups (Some <$> conds) = [conds].
Proof.
  induction conds as [|q conds IH]; [reflexivity|].
  rewrite fmap_cons. cbn [and_groups]. by rewrite IH.
Qed.

Section CompilerTheorems.
Variable OR_SEPARATOR : string.
Variable get_fields_from_path : ContentType → string → result (list ModelField).

Local Abbreviation params := (build_query_params get_fields_from_path).
Local Abbreviation condition := (make_query_filter get_fields_from_path).
Local Abbreviation token := (clause_token OR_SEPARATOR get_fields_from_path).
Local Abbreviation compile := (build_query_filter OR_SEPARATOR get_fields_from_path).

Lemma traverse_tokens_no_separator mf fs conds :
  Forall (λ f, field f ≠ OR_SEPARATOR) fs →
  traverse (condition mf) fs = Ok conds →
  traverse (token mf) fs = Ok (Some <$> conds).
Proof.
  intros Hfs. revert conds. induction Hfs as [|f fs Hf _ IH]; intros conds; simpl.
  - by intros [= <-].
  - rewrite (clause_token_condition _ _ _ _ Hf).
    destruct (condition mf f) as [q|]; simpl; [|done].
    destruct (traverse (condition mf) fs) as [qs|]; simpl; [|done].
    intros [= <-]. by rewrite (IH qs eq_refl).
Qed.

Lemma compile_tokens mf tokens :
  traverse (token mf) (fields mf) = Ok tokens →
  compile mf = Ok (disjunction (conjunction <$> and_groups tokens)).
Proof.
  intros H. rewrite build_query_filter_refines. unfold compile_spec. by rewrite H.
Qed.

Lemma compile_no_separator mf conds :
  Forall (λ f, field f ≠ OR_SEPARATOR) (fields mf) →
  traverse (condition mf) (fields mf) = Ok conds →
  compile mf = Ok (conjunction conds).
Proof.
  intros Hfs Hc.
  rewrite (compile_tokens mf _ (traverse_tokens_no_separator _ _ _ Hfs Hc)).
  by rewrite and_groups_conditions.
Qed.

(** Claim C1.  For every stored clause sequence the compiler produces the
    disjunction of the AND-groups cut exactly at the separators.  The
    lookup of a clause follows the fixed mapping: is-null gives
    [field = None], is-empty gives [field = ""], is-true gives
    [field = True], is-false gives [field = False], any other operator
    gives [field__operator = to_python(value)].  [build_query_filter] and
    [compile_spec] return the same expression or raise the same exception;
    when the clauses build, the expression is the OR of the group
    conjunctions, and on a sequence with no empty group a row matches it
    exactly when it matches every condition of some group.  For
    [A, OR, B, C, OR, D] the result is [A | (B & C) | D], and with no
    separator it is the conjunction of all the conditions. *)
Theorem C1_compile_is_or_of_and_groups (mf : ModelFilter) :
  (∀ f, operator f = constants.IS_NULL → params mf f = Ok {[ field f := PyNone ]})
  ∧ (∀ f, operator f = constants.IS_EMPTY → params mf f = Ok {[ field f := PyStr "" ]})
  ∧ (∀ f, operator f = constants.IS_TRUE → params mf f = Ok {[ field f := PyBool true ]})
  ∧ (∀ f, operator f = constants.IS_FALSE → params mf f = Ok {[ field f := PyBool false ]})
  ∧ (∀ f, operator f ∉ [constants.IS_NULL; constants.IS_EMPTY;
                         constants.IS_TRUE; constants.IS_FALSE] →
          params mf f =
          (path ← get_fields_from_path (content_type mf) (field f);
           model_field ← last_item path;
           v ← to_python model_field (value f);
           Ok {[ field f +:+ "__" +:+ operator f := v ]}))
  ∧ compile mf = compile_spec OR_SEPARATOR get_fields_from_path mf
  ∧ (∀ tokens, traverse (token mf) (fields mf) = Ok tokens →
       compile mf = Ok (disjunction (conjunction <$> and_groups tokens))
       ∧ (no_empty_group tokens = true →
          ∀ (Row : Type) (lookup_holds : Row → string → PyVal → bool) (r : Row),
            Q_matches lookup_holds
              (disjunction (conjunction <$> and_groups tokens)) r
            = existsb (forallb (λ c, Q_matches lookup_holds c r)) (and_groups tokens)))
  ∧ (∀ A s1 B C s2 D a b c d,
       fields mf = [A; s1; B; C; s2; D] →
       field s1 = OR_SEPARATOR → field s2 = OR_SEPARATOR →
       field A ≠ OR_SEPARATOR → field B ≠ OR_SEPARATOR →
       field C ≠ OR_SEPARATOR → field D ≠ OR_SEPARATOR →
       condition mf A = Ok a → condition mf B = Ok b →
       condition mf C = Ok c → condition mf D = Ok d →
       compile mf = Ok (QOr (QOr a (QAnd b c)) d)
       ∧ ∀ (Row : Type) (lookup_holds : Row → string → PyVal → bool) (r : Row),
           Q_matches lookup_holds (QOr (QOr a (QAnd b c)) d) r
           = Q_matches lookup_holds a r
             || (Q_matches lookup_holds b r && Q_matches lookup_holds c r)
             || Q_matches lookup_holds d r)
  ∧ (∀ conds,
       Forall (λ f, field f ≠ OR_SEPARATOR) (fields mf) →
       traverse (condition mf) (fields mf) = Ok conds →
       compile mf = Ok (conjunction conds)
       ∧ ∀ (Row : Type) (lookup_holds : Row → string → PyVal → bool) (r : Row),
           Q_matches lookup_holds (conjunction conds) r
           = forallb (λ c, Q_matches lookup_holds c r) conds).
Proof.
  refine (conj _ (conj _ (conj _ (conj _ (conj _ (conj _ (conj _ (conj _ _)))))))).
  - intros f Hop. unfold build_query_params. by rewrite Hop.
  - intros f Hop. unfold build_query_params. by rewrite Hop.
  - intros f Hop. unfold build_query_params. by rewrite Hop.
  - intros f Hop. unfold build_query_params. by rewrite Hop.
  - intros f Hop. unfold build_query_params.
    rewrite !not_elem_of_cons in Hop. destruct Hop as (H1 & H2 & H3 & H4 & _).
    by rewrite !bool_decide_eq_false_2.
  - apply build_query_filter_refines.
  - intros tokens Htokens. split; [by apply compile_tokens|].
    intros Hne Row lookup_holds r.
    apply disjunction_matches_no_empty; [| |exact Hne].
    + eapply and_groups_nonempty_conditions, tokens_nonempty_conditions; eauto.
    + destruct (and_groups_cons tokens) as (g & gs & ->). done.
  - intros A s1 B C s2 D a b c d Hf Hs1 Hs2 HnA HnB HnC HnD HA HB HC HD.
    split; [|reflexivity].
    unfold build_query_filter. rewrite Hf. cbn [build_query_filter_loop].
    rewrite (bool_decide_eq_false_2 _ HnA), (bool_decide_eq_false_2 _ HnB),
      (bool_decide_eq_false_2 _ HnC), (bool_decide_eq_false_2 _ HnD),
      (bool_decide_eq_true_2 _ Hs1), (bool_decide_eq_true_2 _ Hs2).
    rewrite HA, HB, HC, HD. simpl.
    pose proof (make_query_filter_nonempty _ _ _ _ HA).
    pose proof (make_query_filter_nonempty _ _ _ _ HB).
    pose proof (make_query_filter_nonempty _ _ _ _ HC).
    pose proof (make_query_filter_nonempty _ _ _ _ HD).
    rewrite !Q_and_empty_l.
    rewrite (Q_and_nonempty b c), (Q_or_nonempty a), Q_or_nonempty by done.
    reflexivity.
  - intros conds Hfs Hc. split; [by apply compile_no_separator|].
    intros Row lookup_holds r. apply conjunction_matches.
Qed.
End CompilerTheorems.

Lemma negation_on_lookups_only_combine conn a b :
  (∀ x y, negation_on_lookups_only (conn x y)
          = negation_on_lookups_only x && negation_on_lookups_only y) →
  negation_on_lookups_only a = true → negation_on_lookups_only b = true →
  negation_on_lookups_only (Q_combine conn a b) = true.
Proof.
  intros Hconn Ha Hb. unfold Q_combine.
  destruct (Q_bool b), (Q_bool a); simpl; try done. by rewrite Hconn, Ha, Hb.
Qed.

Lemma negation_on_lookups_only_fold conn (qs : list Q) : ∀ q0,
  (∀ x y, negation_on_lookups_only (conn x y)
          = negation_on_lookups_only x && negation_on_lookups_only y) →
  negation_on_lookups_only q0 = true →
  Forall (λ q, negation_on_lookups_only q = true) qs →
  negation_on_lookups_only (fold_left (Q_combine conn) qs q0) = true.
Proof.
  induction qs as [|q qs IH]; intros q0 Hconn H0 Hqs; [done|].
  inversion Hqs; subst. simpl. apply IH; [done| |done].
  by apply negation_on_lookups_only_combine.
Qed.

Lemma and_groups_Forall (P : Q → Prop) (tokens : list (option Q)) :
  Forall (λ t, ∀ q, t = Some q → P q) tokens →
  Forall (Forall P) (and_groups tokens).
Proof.
  induction 1 as [|t tokens Ht Hts IH]; simpl.
  - repeat constructor.
  - destruct t as [q|].
    + destruct (and_groups tokens) as [|g gs].
      * repeat constructor. by apply Ht.
      * inversion IH; subst. constructor; [|done]. constructor; [by apply Ht|done].
    + constructor; [constructor|done].
Qed.

Section NegationAndTotality.
Variable OR_SEPARATOR : string.
Variable get_fields_from_path : ContentType → string → result (list ModelField).

Local Abbreviation params := (build_query_params get_fields_from_path).
Local Abbreviation condition := (make_query_filter get_fields_from_path).
Local Abbreviation token := (clause_token OR_SEPARATOR get_fields_from_path).
Local Abbreviation compile := (build_query_filter OR_SEPARATOR get_fields_from_path).

Lemma condition_negation_on_lookups_only mf f q :
  condition mf f = Ok q → negation_on_lookups_only q = true.
Proof.
  destruct (params mf f) as [p|e] eqn:Hp.
  - rewrite (make_query_filter_params _ _ _ _ Hp).
    destruct (negate f); by intros [= <-].
  - by rewrite (make_query_filter_Raise _ _ _ _ Hp).
Qed.

Lemma compile_negation_on_lookups_only mf q :
  compile mf = Ok q → negation_on_lookups_only q = true.
Proof.
  rewrite build_query_filter_refines. unfold compile_spec.
  destruct (traverse (token mf) (fields mf)) as [tokens|] eqn:Ht; [|done].
  simpl. intros [= <-].
  assert (Hg : Forall (Forall (λ q, negation_on_lookups_only q = true))
                 (and_groups tokens)).
  { apply and_groups_Forall. apply traverse_Ok_Forall2 in Ht.
    induction Ht as [|f t fs ts Hf _ IH]; constructor; [|done].
    intros q ->. unfold clause_token in Hf. case_bool_decide; [done|].
    destruct (condition mf f) as [q'|] eqn:Hq; [|done].
    injection Hf as ->. by eapply condition_negation_on_lookups_only. }
  assert (Hc : Forall (λ q, negation_on_lookups_only q = true)
                 (conjunction <$> and_groups tokens)).
  { apply Forall_fmap. eapply Forall_impl; [exact Hg|].
    intros g Hgq. by apply negation_on_lookups_only_fold. }
  destruct (conjunction <$> and_groups tokens) as [|c cs]; [done|].
  inversion Hc; subst. by apply negation_on_lookups_only_fold.
Qed.

(** Claim C8.  A clause with [negate] set contributes the inversion of its
    own lookup and nothing else: in every compiled expression each
    negation sits directly on one lookup, never on an AND or an OR.  The
    clauses [A(negate), OR, B] compile to [(~A) | B], which is another
    expression than [~(A | B)]: on a row that satisfies [B] the first
    matches and the second does not. *)
Theorem C8_negate_inverts_one_clause (mf : ModelFilter) :
  (∀ f p, negate f = true → params mf f = Ok p →
          condition mf f = Ok (QNot (Q_kwargs p)))
  ∧ (∀ q, compile mf = Ok q → negation_on_lookups_only q = true)
  ∧ (∀ A s B pa b,
       fields mf = [A; s; B] →
       negate A = true → field A ≠ OR_SEPARATOR →
       field s = OR_SEPARATOR → field B ≠ OR_SEPARATOR →
       params mf A = Ok pa → condition mf B = Ok b →
       compile mf = Ok (QOr (QNot (Q_kwargs pa)) b)
       ∧ QOr (QNot (Q_kwargs pa)) b ≠ QNot (QOr (Q_kwargs pa) b)
       ∧ ∀ (Row : Type) (lookup_holds : Row → string → PyVal → bool) (r : Row),
           Q_matches lookup_holds (QOr (QNot (Q_kwargs pa)) b) r
           = negb (Q_matches lookup_holds (Q_kwargs pa) r)
             || Q_matches lookup_holds b r
           ∧ (Q_matches lookup_holds b r = true →
              Q_matches lookup_holds (QOr (QNot (Q_kwargs pa)) b) r = true
              ∧ Q_matches lookup_holds (QNot (QOr (Q_kwargs pa) b)) r = false)).
Proof.
  refine (conj _ (conj _ _)).
  - intros f p Hneg Hp. rewrite (make_query_filter_params _ _ _ _ Hp). by rewrite Hneg.
  - apply compile_negation_on_lookups_only.
  - intros A s B pa b Hf Hneg HnA Hs HnB HA HB.
    split; [|split; [done|]].
    + pose proof (make_query_filter_params _ _ _ _ HA) as HcA. rewrite Hneg in HcA.
      unfold build_query_filter. rewrite Hf. cbn [build_query_filter_loop].
      rewrite (bool_decide_eq_false_2 _ HnA), (bool_decide_eq_false_2 _ HnB),
        (bool_decide_eq_true_2 _ Hs).
      rewrite HcA, HB. simpl.
      pose proof (make_query_filter_nonempty _ _ _ _ HB).
      rewrite !Q_and_empty_l. by rewrite Q_or_nonempty.
    + intros Row lookup_holds r. split; [reflexivity|].
      intros Hb. cbn [Q_matches]. rewrite Hb. by rewrite !orb_true_r.
Qed.

Lemma condition_is_ok mf f :
  is_ok (params mf f) = true → is_ok (condition mf f) = true.
Proof.
  destruct (params mf f) as [p|] eqn:Hp; [|done]. intros _.
  by rewrite (make_query_filter_params _ _ _ _ Hp).
Qed.

Lemma compile_total mf :
  Forall (λ f, field f ≠ OR_SEPARATOR → is_ok (params mf f) = true) (fields mf) →
  ∃ tokens, traverse (token mf) (fields mf) = Ok tokens
            ∧ compile mf = Ok (disjunction (conjunction <$> and_groups tokens)).
Proof.
  intros Hfs.
  destruct (traverse_is_ok (token mf) (fields mf)) as [tokens Ht].
  { eapply Forall_impl; [exact Hfs|]. intros f Hf. unfold clause_token.
    case_bool_decide as Hsep; [done|].
    specialize (Hf Hsep). apply condition_is_ok in Hf.
    by destruct (condition mf f). }
  exists tokens. split; [done|]. by apply compile_tokens.
Qed.

(** Claim C10, as amended.  Whatever the placement of the separators, the
    compiler returns an expression whenever every clause that is not a
    separator builds its lookup (by a no-value operator, or by a field
    path that resolves and a value that converts).  The expression is the
    OR of the conjunctions of the non-empty groups: an empty group
    contributes the empty [Q()], which [|] drops.  The empty sequence
    compiles to the empty [Q()], and that matches every row. *)
Theorem C10_compile_total_when_clauses_build (mf : ModelFilter) :
  (Forall (λ f, field f ≠ OR_SEPARATOR → is_ok (params mf f) = true) (fields mf) →
   ∃ tokens, traverse (token mf) (fields mf) = Ok tokens
     ∧ compile mf = Ok (disjunction (conjunction <$> and_groups tokens))
     ∧ ∀ (Row : Type) (lookup_holds : Row → string → PyVal → bool) (r : Row),
         Q_matches lookup_holds (disjunction (conjunction <$> and_groups tokens)) r
         = if existsb nonempty_group (and_groups tokens)
           then existsb (λ g, nonempty_group g
                              && forallb (λ c, Q_matches lookup_holds c r) g)
                  (and_groups tokens)
           else true)
  ∧ (fields mf = [] →
     compile mf = Ok (Q_ [])
     ∧ ∀ (Row : Type) (lookup_holds : Row → string → PyVal → bool) (r : Row),
         Q_matches lookup_holds (Q_ []) r = true).
Proof.
  split.
  - intros Hfs. destruct (compile_total mf Hfs) as (tokens & Ht & Hc).
    exists tokens. split; [done|]. split; [done|].
    intros Row lookup_holds r. apply disjunction_matches.
    eapply and_groups_nonempty_conditions, tokens_nonempty_conditions; eauto.
  - intros Hf. split; [|done]. unfold build_query_filter. by rewrite Hf.
Qed.
End NegationAndTotality.

(** * Properties of the clause sequence validator *)
Section SequenceValidator.
Variable OR_SEPARATOR : string.

Local Abbreviation is_sep := (is_separator OR_SEPARATOR).
Local Abbreviation starts := (starts_with_separator OR_SEPARATOR).
Local Abbreviation ends := (ends_with_separator OR_SEPARATOR).
Local Abbreviation adjacent := (has_adjacent_separators OR_SEPARATOR).

Lemma field_is_or_separator_spec (data : gmap string PyVal) :
  field_is_or_separator OR_SEPARATOR data = true ↔ is_sep data.
Proof.
  unfold field_is_or_separator, is_separator, dict_get.
  rewrite bool_decide_eq_true.
  destruct (data !! "field") as [v|]; simpl; split; congruence.
Qed.

Lemma field_is_or_separator_false (data : gmap string PyVal) :
  field_is_or_separator OR_SEPARATOR data = false ↔ ¬ is_sep data.
Proof.
  rewrite <- field_is_or_separator_spec.
  destruct (field_is_or_separator OR_SEPARATOR data); split; congruence.
Qed.

Lemma starts_cons (f : gmap string PyVal) rest : starts (f :: rest) ↔ is_sep f.
Proof.
  unfold starts_with_separator. simpl. split.
  - by intros (x & [= <-] & Hx).
  - intros Hf. eauto.
Qed.

Lemma starts_nil : ¬ starts [].
Proof. by intros (x & Hx & _). Qed.

Lemma adjacent_nil : ¬ adjacent [].
Proof. by intros (i & a & b & Ha & _). Qed.

Lemma adjacent_cons (f : gmap string PyVal) rest :
  adjacent (f :: rest) ↔ (is_sep f ∧ starts rest) ∨ adjacent rest.
Proof.
  unfold has_adjacent_separators, starts_with_separator. split.
  - intros (i & a & b & Ha & Hb & Hsa & Hsb). destruct i as [|i].
    + left. simpl in Ha, Hb. injection Ha as <-. eauto.
    + right. exists i, a, b. eauto.
  - intros [(Hf & b & Hb & Hsb)|(i & a & b & Ha & Hb & Hsa & Hsb)].
    + exists 0%nat, f, b. eauto.
    + exists (S i), a, b. eauto.
Qed.

(** The closing loop raises exactly when it meets two separators in a
    row, counting a separator seen just before it was entered. *)
Lemma consecutive_or_loop_spec (filters : list (gmap string PyVal)) : ∀ flag,
  (consecutive_or_loop OR_SEPARATOR filters flag = Raise ConsecutiveSeparators
   ∧ ((flag = true ∧ starts filters) ∨ adjacent filters))
  ∨ (consecutive_or_loop OR_SEPARATOR filters flag = Ok ()
     ∧ ¬ ((flag = true ∧ starts filters) ∨ adjacent filters)).
Proof.
  induction filters as [|f rest IH]; intros flag.
  - right. split; [reflexivity|]. intros [[_ H]|H].
    + by apply starts_nil in H.
    + by apply adjacent_nil in H.
  - cbn [consecutive_or_loop].
    destruct (field_is_or_separator OR_SEPARATOR f) eqn:Hf.
    + apply field_is_or_separator_spec in Hf.
      destruct flag.
      * left. split; [reflexivity|]. left. split; [done|]. by apply starts_cons.
      * destruct (IH true) as [[-> H]|[-> H]]; [left|right];
          (split; [reflexivity|]); rewrite adjacent_cons.
        -- right. destruct H as [[_ H]|H]; [by left|by right].
        -- intros [[? _]|[[_ Hs]|Ha]]; [done| |]; apply H; [left|right]; done.
    + apply field_is_or_separator_false in Hf.
      destruct (IH false) as [[-> H]|[-> H]]; [left|right];
        (split; [reflexivity|]); rewrite adjacent_cons, starts_cons.
      * right. right. destruct H as [[? _]|H]; done.
      * intros [[_ ?]|[[? _]|Ha]]; [done|done|]. apply H. by right.
Qed.

Lemma ends_spec (filters : list (gmap string PyVal)) :
  from_option (field_is_or_separator OR_SEPARATOR) false (last filters) = true
  ↔ ends filters.
Proof.
  unfold ends_with_separator. destruct (last filters) as [l|]; simpl.
  - rewrite field_is_or_separator_spec. split; [eauto|].
    by intros (x & [= <-] & Hx).
  - split; [done|]. by intros (x & ? & _).
Qed.

(** The validator takes exactly one of five exits, the rules being
    tried in the order of section 4.4. *)
Lemma clean_field_filters_cases (cleaned_data : list (gmap string PyVal)) :
  let filters := remaining cleaned_data in
  let outcome := clean_field_filters OR_SEPARATOR cleaned_data in
  (filters = [] ∧ outcome = Raise AtLeastOneRequired)
  ∨ (filters ≠ [] ∧ starts filters ∧ outcome = Raise LeadingSeparator)
  ∨ (filters ≠ [] ∧ ¬ starts filters ∧ ends filters
     ∧ outcome = Raise TrailingSeparator)
  ∨ (filters ≠ [] ∧ ¬ starts filters ∧ ¬ ends filters ∧ adjacent filters
     ∧ outcome = Raise ConsecutiveSeparators)
  ∨ (filters ≠ [] ∧ ¬ starts filters ∧ ¬ ends filters ∧ ¬ adjacent filters
     ∧ outcome = Ok ()).
Proof.
  intros filters outcome. subst outcome. unfold clean_field_filters.
  change (List.filter (not_deleted) cleaned_data) with filters.
  destruct filters as [|f rest] eqn:Hfilters; [by left|].
  right. rewrite <- Hfilters.
  assert (Hne : filters ≠ []) by (subst filters; congruence).
  destruct (field_is_or_separator OR_SEPARATOR f) eqn:Hf.
  { left. split; [done|]. split; [|done]. rewrite Hfilters.
    apply starts_cons. by apply field_is_or_separator_spec. }
  right.
  assert (Hns : ¬ starts filters).
  { rewrite Hfilters, starts_cons. by apply field_is_or_separator_false. }
  destruct (from_option (field_is_or_separator OR_SEPARATOR) false (last filters))
    eqn:Hl.
  { left. apply ends_spec in Hl. done. }
  right.
  assert (Hnl : ¬ ends filters).
  { intros H. apply ends_spec in H. congruence. }
  destruct (consecutive_or_loop_spec filters false) as [[-> H]|[-> H]].
  - left. destruct H as [[? _]|H]; done.
  - right. repeat split; try done. intros Ha. apply H. by right.
Qed.

(** Claim C2.  On the clauses not marked for deletion the validator
    rejects if and only if the sequence is empty, or starts with the
    separator, or ends with it, or holds two separators next to each
    other, and accepts every other sequence.  The four rules are tried in
    this order and the first one violated names the error. *)
Theorem C2_validate_sequence_rejects_iff (cleaned_data : list (gmap string PyVal)) :
  let filters := remaining cleaned_data in
  let outcome := clean_field_filters OR_SEPARATOR cleaned_data in
  (is_ok outcome = false
   ↔ filters = [] ∨ starts filters ∨ ends filters ∨ adjacent filters)
  ∧ (outcome = Raise AtLeastOneRequired ↔ filters = [])
  ∧ (outcome = Raise LeadingSeparator ↔ filters ≠ [] ∧ starts filters)
  ∧ (outcome = Raise TrailingSeparator
     ↔ filters ≠ [] ∧ ¬ starts filters ∧ ends filters)
  ∧ (outcome = Raise ConsecutiveSeparators
     ↔ filters ≠ [] ∧ ¬ starts filters ∧ ¬ ends filters ∧ adjacent filters)
  ∧ (outcome = Ok ()
     ↔ filters ≠ [] ∧ ¬ starts filters ∧ ¬ ends filters ∧ ¬ adjacent filters).
Proof.
  intros filters outcome.
  assert (Hnil : ¬ starts [] ∧ ¬ ends [] ∧ ¬ adjacent []).
  { split; [apply starts_nil|]. split; [|apply adjacent_nil]. by intros (x & ? & _). }
  destruct Hnil as (Hs0 & He0 & Ha0).
  destruct (clean_field_filters_cases cleaned_data)
    as [(Hf & Ho)|[(Hf & Hs & Ho)|[(Hf & Hs & He & Ho)|
       [(Hf & Hs & He & Ha & Ho)|(Hf & Hs & He & Ha & Ho)]]]];
    fold filters in Hf; fold outcome in Ho; rewrite Ho;
    unfold AtLeastOneRequired, LeadingSeparator, TrailingSeparator,
      ConsecutiveSeparators; try rewrite Hf in *; simpl;
    repeat split; try (intros; congruence); try tauto;
    try (intros [?|[?|[?|?]]]; tauto).
Qed.
End SequenceValidator.

(** * Properties of the access control evaluator *)
Section AccessControlTheorems.
Variable settings : Settings.
Variable has_perm : User → string → bool.
Variable super_has_permission : Action → HttpRequest → option ModelFilter → bool.

Local Abbreviation can := (has_permission settings has_perm super_has_permission).
Local Abbreviation access := (user_can_access_content_type has_perm).

(** The three checks differ only in the setting they read and in the
    sibling of [ModelAdmin] they fall back on. *)
Lemma has_permission_unfold a request obj :
  can a request obj =
  match obj with
  | None => true
  | Some mf =>
      if is_superuser (user request) then true
      else if negb (access (user request) (content_type mf)) then false
      else if bool_decide (pk (user request) = owner mf) then true
      else if owner_only_toggle settings a then false
      else super_has_permission a request obj
  end.
Proof.
  destruct a; unfold has_permission, has_view_permission, has_change_permission,
    has_delete_permission, user_has_permission, owner_only_toggle;
    destruct obj as [mf|]; [|reflexivity| |reflexivity| |reflexivity];
    destruct (is_superuser (user request)); try reflexivity;
    destruct (negb (access (user request) (content_type mf))); try reflexivity;
    destruct (bool_decide (pk (user request) = owner mf)); try reflexivity;
    match goal with |- context [truthy ?x] => destruct (truthy x) end; reflexivity.
Qed.

(** Claim C3, as amended.  For a user who is not a superuser, an action
    among view, change and delete, and a stored filter: the owner who
    holds view-or-change access to the target model is granted; a
    non-owner is denied when the owner-only toggle of the action is on,
    whatever the permission service grants; a non-owner with the toggle
    off who holds view-or-change access to the target model gets exactly
    the answer of the permission service for that action; and without
    access to the target model the check denies. *)
Theorem C3_access_check_by_ownership_toggle_and_grants
    (a : Action) (request : HttpRequest) (mf : ModelFilter) :
  is_superuser (user request) = false →
  (pk (user request) = owner mf →
   access (user request) (content_type mf) = true →
   can a request (Some mf) = true)
  ∧ (pk (user request) ≠ owner mf →
     owner_only_toggle settings a = true →
     can a request (Some mf) = false)
  ∧ (pk (user request) ≠ owner mf →
     owner_only_toggle settings a = false →
     access (user request) (content_type mf) = true →
     can a request (Some mf) = super_has_permission a request (Some mf))
  ∧ (access (user request) (content_type mf) = false →
     can a request (Some mf) = false).
Proof.
  intros Hsuper. rewrite has_permission_unfold, Hsuper.
  refine (conj _ (conj _ (conj _ _))).
  - intros Hown Hacc. rewrite Hacc. simpl. by rewrite bool_decide_eq_true_2.
  - intros Hown Htoggle. rewrite (bool_decide_eq_false_2 _ Hown), Htoggle.
    by destruct (negb _).
  - intros Hown Htoggle Hacc.
    by rewrite Hacc, (bool_decide_eq_false_2 _ Hown), Htoggle.
  - intros Hacc. by rewrite Hacc.
Qed.
End AccessControlTheorems.

(** * Properties of the filter repository *)
Lemma elem_of_qs_rows (qs : QuerySet) (mf : ModelFilter) :
  mf ∈ qs_rows qs ↔ mf ∈ table qs ∧ where_ qs mf = true.
Proof. unfold qs_rows. by rewrite !list_elem_of_In, filter_In. Qed.

Section ManagerTheorems.
Variable settings : Settings.
Variable has_perm : User → string → bool.
Variable guardian : option (User → string → ModelFilter → bool).

Local Abbreviation visible := (for_user settings has_perm guardian).

Lemma for_user_table self u : table (visible self u) = table self.
Proof.
  unfold for_user. destruct (view_owner_only settings); [reflexivity|].
  destruct (if use_guardian settings then _ else _); [reflexivity|].
  by destruct (negb _).
Qed.

Lemma for_user_where self u mf :
  where_ (visible self u) mf =
  where_ self mf
  && (if view_owner_only settings then owned_by u mf
      else owned_by u mf
           || holds_class_view_permission has_perm u
           || holds_object_view_permission settings guardian u mf).
Proof.
  unfold for_user, holds_class_view_permission, holds_object_view_permission,
    get_objects_for_user.
  cbv zeta.
  change ("model_filters." +:+ "view_modelfilter") with "model_filters.view_modelfilter".
  destruct (view_owner_only settings); [reflexivity|].
  destruct (use_guardian settings), guardian as [object_perm|]; simpl.
  - change ("model_filters." +:+ "view_modelfilter")
      with "model_filters.view_modelfilter".
    destruct (owned_by u mf), (is_superuser u),
      (has_perm u "model_filters.view_modelfilter"),
      (object_perm u "view_modelfilter" mf); simpl;
      rewrite ?andb_true_r, ?andb_false_r; reflexivity.
  - destruct (has_perm u "model_filters.view_modelfilter"); simpl.
    + by rewrite orb_true_r, andb_true_r.
    + by rewrite !orb_false_r.
  - destruct (has_perm u "model_filters.view_modelfilter"); simpl.
    + by rewrite orb_true_r, andb_true_r.
    + by rewrite !orb_false_r.
  - destruct (has_perm u "model_filters.view_modelfilter"); simpl.
    + by rewrite orb_true_r, andb_true_r.
    + by rewrite !orb_false_r.
Qed.

(** The owner of a filter always finds it. *)
Lemma for_user_owner self u mf :
  owner mf = pk u → where_ self mf = true → where_ (visible self u) mf = true.
Proof.
  intros Hown Hself. rewrite for_user_where, Hself. unfold owned_by.
  rewrite (bool_decide_eq_true_2 _ Hown). by destruct (view_owner_only settings).
Qed.

(** Claim C6.  The filters a queryset lists for a user are its own rows
    owned by the user when the view toggle is on; otherwise its rows that
    the user owns or holds view permission on, class-level from the
    permission service or object-level from django-guardian when that is
    in use. *)
Theorem C6_for_user_is_own_or_permitted (self : QuerySet) (u : User) (mf : ModelFilter) :
  mf ∈ qs_rows (visible self u)
  ↔ mf ∈ qs_rows self
    ∧ (if view_owner_only settings then owner mf = pk u
       else owner mf = pk u
            ∨ holds_class_view_permission has_perm u = true
            ∨ holds_object_view_permission settings guardian u mf = true).
Proof.
  rewrite !elem_of_qs_rows, for_user_table, for_user_where, andb_true_iff.
  unfold owned_by.
  destruct (view_owner_only settings).
  - rewrite bool_decide_eq_true. tauto.
  - rewrite !orb_true_iff, bool_decide_eq_true. tauto.
Qed.
End ManagerTheorems.

(** * Properties of saving a filter *)
Section SaveFormTheorems.
Variable FORM_SAVE_APPLY_DISCARD : string.
Variable content_types : list ContentType.
Variable users : list User.
Variable name_clean : PyVal → result (option string).
Variable description_clean : PyVal → result (option string).

Local Abbreviation save :=
  (save_form FORM_SAVE_APPLY_DISCARD content_types users name_clean description_clean).
Local Abbreviation unsaved :=
  (ModelAdmin_save_form content_types users name_clean description_clean).

Lemma save_form_Ok request form change new_object :
  unsaved form = Ok new_object →
  save request form change =
  Ok {| id := id new_object; name := name new_object;
        description := description new_object;
        content_type := content_type new_object;
        owner := pk (user request);
        created := created new_object;
        ephemeral := in_POST FORM_SAVE_APPLY_DISCARD request;
        fields := fields new_object |}.
Proof. intros H. unfold save_form. by rewrite H. Qed.

(** Claim C9.  Whenever [save_form] returns a filter, on creation and on
    edit alike, its ephemeral flag is true exactly when the
    save-apply-discard key is in the request body, and it does return one
    whenever the form yields an instance.  So an ephemeral filter saved
    again without that key is no longer ephemeral. *)
Theorem C9_ephemeral_is_recomputed_on_every_save
    (request : HttpRequest) (form : ModelFilterForm) (change : bool) :
  (∀ new_object, unsaved form = Ok new_object →
     ∃ mf, save request form change = Ok mf
           ∧ (ephemeral mf = true
              ↔ is_Some (POST request !! FORM_SAVE_APPLY_DISCARD)))
  ∧ (∀ mf, save request form change = Ok mf →
       ephemeral mf = in_POST FORM_SAVE_APPLY_DISCARD request)
  ∧ (∀ inst mf, instance form = Some inst → ephemeral inst = true →
       POST request !! FORM_SAVE_APPLY_DISCARD = None →
       save request form change = Ok mf → ephemeral mf = false).
Proof.
  assert (Hsave : ∀ mf, save request form change = Ok mf →
                    ephemeral mf = in_POST FORM_SAVE_APPLY_DISCARD request).
  { intros mf. unfold save_form. destruct (unsaved form) as [new_object|]; [|done].
    simpl. by intros [= <-]. }
  refine (conj _ (conj Hsave _)).
  - intros new_object Hnew. eexists. split; [by apply save_form_Ok|].
    simpl. unfold in_POST. by rewrite bool_decide_eq_true.
  - intros inst mf _ _ Hkey Hmf. rewrite (Hsave mf Hmf). unfold in_POST.
    rewrite Hkey. apply bool_decide_eq_false_2. by intros [? ?].
Qed.
End SaveFormTheorems.

(** * Properties of the clause validator *)
Section ClauseValidator.
Variable OR_SEPARATOR : string.
Variable get_fields_from_path : ContentType → string → result (list ModelField).

Local Abbreviation clean_value := (_clean_value OR_SEPARATOR get_fields_from_path).

Lemma in_no_value_operators_named (op : PyVal) :
  op ∈ PyStr <$> [constants.IS_NULL; constants.IS_TRUE;
                  constants.IS_FALSE; constants.IS_EMPTY] →
  in_no_value_operators OR_SEPARATOR op = true.
Proof.
  intros Hop. unfold in_no_value_operators, NO_VALUE_OPERATORS.
  apply bool_decide_eq_true_2.
  rewrite !fmap_cons in *. rewrite !elem_of_cons in *. tauto.
Qed.

(** Claim C7, as amended.  For cleaned data that hold a non-empty field
    and a non-empty operator, where the field is the separator or the
    operator is one of is-null, is-true, is-false and is-empty:
    [_clean_value] returns the empty string whatever value was supplied,
    removes the errors of the value input, leaves the other errors alone
    and makes the value optional.  This holds for every field resolver,
    also one that raises on every path, so the value is never converted. *)
Theorem C7_no_value_clause_discards_value
    (form : FieldFilterForm) (cleaned_data : gmap string PyVal)
    (field_path operator : PyVal) :
  cleaned_data !! "field" = Some field_path → truthy field_path = true →
  cleaned_data !! "operator" = Some operator → truthy operator = true →
  field_path = PyStr OR_SEPARATOR
  ∨ operator ∈ PyStr <$> [constants.IS_NULL; constants.IS_TRUE;
                          constants.IS_FALSE; constants.IS_EMPTY] →
  ∃ form',
    clean_value form cleaned_data = Ok (PyStr "", form')
    ∧ errors form' !! "value" = None
    ∧ (∀ k, k ≠ "value" → errors form' !! k = errors form !! k)
    ∧ value_required form' = false.
Proof.
  intros Hf Hft Ho Hot Hcase.
  exists (set_errors (set_value_required form false) (delete "value" (errors form))).
  split; [|split; [|split]].
  - unfold _clean_value, dict_get. rewrite Hf, Ho. simpl. rewrite Hft, Hot. simpl.
    destruct Hcase as [->|Hop].
    + by rewrite bool_decide_eq_true_2.
    + rewrite (in_no_value_operators_named _ Hop). by rewrite orb_true_r.
  - simpl. apply lookup_delete_eq.
  - intros k Hk. simpl. by apply lookup_delete_ne.
  - reflexivity.
Qed.
End ClauseValidator.

(** * Properties of applying a filter *)
Lemma head_filter_unique {A} (p : A → bool) (l : list A) (x : A) :
  x ∈ l → p x = true → (∀ y, y ∈ l → p y = true → y = x) →
  head (List.filter p l) = Some x.
Proof.
  induction l as [|a l IH]; intros Hx Hp Huniq; [by apply elem_of_nil in Hx|].
  simpl. destruct (p a) eqn:Ha.
  - simpl. f_equal. apply Huniq; [left|done].
  - apply IH; [|done|].
    + apply elem_of_cons in Hx as [->|Hx]; [congruence|done].
    + intros y Hy. apply Huniq. by right.
Qed.

Lemma filter_none {A} (p : A → bool) (l : list A) :
  (∀ y, y ∈ l → p y = false) → List.filter p l = [].
Proof.
  induction l as [|a l IH]; intros Hl; [reflexivity|].
  simpl. rewrite (Hl a) by left. apply IH. intros y Hy. apply Hl. by right.
Qed.

Lemma NoDup_fmap_eq {A B} (f : A → B) (l : list A) (x y : A) :
  NoDup (f <$> l) → x ∈ l → y ∈ l → f x = f y → x = y.
Proof.
  induction l as [|a l IH]; intros Hnd Hx Hy Hxy; [by apply elem_of_nil in Hx|].
  rewrite fmap_cons in Hnd. apply NoDup_cons in Hnd as [Ha Hnd].
  apply elem_of_cons in Hx as [->|Hx]; apply elem_of_cons in Hy as [->|Hy].
  - reflexivity.
  - exfalso. apply Ha. rewrite Hxy. by apply list_elem_of_fmap_2.
  - exfalso. apply Ha. rewrite <- Hxy. by apply list_elem_of_fmap_2.
  - by apply IH.
Qed.

Lemma elem_of_delete_model_filter (mf row : ModelFilter) (t : list ModelFilter) :
  row ∈ delete_model_filter mf t ↔ row ∈ t ∧ id row ≠ id mf.
Proof.
  unfold delete_model_filter.
  rewrite !list_elem_of_In, filter_In, negb_true_iff, bool_decide_eq_false.
  reflexivity.
Qed.

Section RecordStoreTheorems.
Context {Row : Type}.
Variable lookup_holds : Row → string → PyVal → bool.
Variable build_lookup : string → PyVal → result unit.

(** [filter] returns when every lookup resolves, and raises the exception
    of the first one that does not. *)
Lemma queryset_filter_Ok (q : Q) (queryset : list Row) :
  Forall (λ kv, is_ok (build_lookup kv.1 kv.2) = true) (Q_lookups q) →
  queryset_filter lookup_holds build_lookup q queryset
  = Ok (filter (λ r, Q_matches lookup_holds q r) queryset).
Proof.
  intros Hresolve. unfold queryset_filter.
  destruct (traverse_is_ok _ _ Hresolve) as [units ->]. reflexivity.
Qed.

Lemma queryset_filter_Raise (q : Q) (queryset : list Row)
    (resolved rest : list (string * PyVal)) (failing : string * PyVal) (e : Exception) :
  Q_lookups q = (resolved ++ failing :: rest)%list →
  Forall (λ kv, is_ok (build_lookup kv.1 kv.2) = true) resolved →
  build_lookup failing.1 failing.2 = Raise e →
  queryset_filter lookup_holds build_lookup q queryset = Raise e.
Proof.
  intros Hq Hresolved Hfailing. unfold queryset_filter. rewrite Hq.
  by rewrite (traverse_first_failure _ resolved rest failing e).
Qed.

Lemma queryset_filter_rows (q : Q) (queryset filtered : list Row) :
  queryset_filter lookup_holds build_lookup q queryset = Ok filtered →
  filtered = filter (λ r, Q_matches lookup_holds q r) queryset.
Proof.
  unfold queryset_filter. destruct (traverse _ _) as [units|]; [|done].
  by intros [= <-].
Qed.
End RecordStoreTheorems.

Section ListFilterTheorems.
Context {Row : Type} `{EqDecision Row}.
Variable lookup_holds : Row → string → PyVal → bool.
Variable build_lookup : string → PyVal → result unit.
Variable OR_SEPARATOR : string.
Variable get_fields_from_path : ContentType → string → result (list ModelField).
Variable settings : Settings.
Variable has_perm : User → string → bool.
Variable guardian : option (User → string → ModelFilter → bool).

Local Abbreviation apply_filter :=
  (ModelFilterListFilter_queryset lookup_holds build_lookup OR_SEPARATOR
     get_fields_from_path settings has_perm guardian).
Local Abbreviation selected v ct t u :=
  (qs_first
     (qs_filter
        (λ mf, bool_decide (id mf = Some v) && bool_decide (content_type mf = ct))
        (for_user settings has_perm guardian (qs_all t) u))).

Lemma selected_own_filter v ct (t : list ModelFilter) u mf :
  NoDup (id <$> t) → mf ∈ t → id mf = Some v → content_type mf = ct →
  owner mf = pk u →
  selected v ct t u = Some mf.
Proof.
  intros Hnd Hin Hid Hct Hown. unfold qs_first, qs_rows, qs_filter. cbn [table where_].
  rewrite for_user_table. cbn [qs_all table].
  apply head_filter_unique; [done| |].
  - rewrite for_user_owner by done.
    by rewrite (bool_decide_eq_true_2 _ Hid), (bool_decide_eq_true_2 _ Hct).
  - intros y Hy Hp. apply andb_true_iff in Hp as [_ Hp].
    apply andb_true_iff in Hp as [Hidy _]. apply bool_decide_eq_true in Hidy.
    apply (NoDup_fmap_eq id t); [done..|congruence].
Qed.

Lemma selected_missing v ct (t : list ModelFilter) u :
  (∀ row, row ∈ t → id row ≠ Some v) → selected v ct t u = None.
Proof.
  intros Hmissing. unfold qs_first, qs_rows, qs_filter. cbn [table where_].
  rewrite for_user_table. cbn [qs_all table].
  rewrite filter_none; [reflexivity|].
  intros y Hy. rewrite (bool_decide_eq_false_2 _ (Hmissing y Hy)).
  by rewrite andb_false_r.
Qed.

End ListFilterTheorems.

Section SaveFormTarget.
Variable FORM_SAVE_APPLY_DISCARD : string.
Variable content_types : list ContentType.
Variable users : list User.
Variable name_clean : PyVal → result (option string).
Variable description_clean : PyVal → result (option string).

(** What the field accepts is a row of its queryset with the submitted
    id, and with the pinned id when that one is truthy. *)
Lemma clean_choice_update_choices {A} (pk_of : A → Z) (object_id : PyVal)
    (field : ModelChoiceField A) (submitted : PyVal) (row : A) :
  clean_choice pk_of (_update_choices pk_of object_id field) submitted = Ok row →
  submitted = PyInt (pk_of row)
  ∧ row ∈ field_queryset field
  ∧ (truthy object_id = true → object_id = PyInt (pk_of row)).
Proof.
  unfold clean_choice, _update_choices.
  destruct (in_empty_values submitted); [done|].
  destruct (truthy object_id); cbn [field_queryset].
  - destruct (List.find _ _) as [found|] eqn:Hfind; [|done].
    intros [= ->]. apply find_some in Hfind as [Hin Hsub].
    apply filter_In in Hin as [Hin Hpk].
    apply bool_decide_eq_true in Hpk, Hsub.
    by rewrite list_elem_of_In.
  - destruct (List.find _ _) as [found|] eqn:Hfind; [|done].
    intros [= ->]. apply find_some in Hfind as [Hin Hsub].
    apply bool_decide_eq_true in Hsub.
    by rewrite list_elem_of_In.
Qed.

Lemma clean_choice_pinned {A} (pk_of : A → Z) (n : Z) (field : ModelChoiceField A)
    (submitted : PyVal) (row : A) :
  n ≠ 0 →
  clean_choice pk_of (_update_choices pk_of (PyInt n) field) submitted = Ok row →
  pk_of row = n.
Proof.
  intros Hn Hrow. apply clean_choice_update_choices in Hrow as (_ & _ & Hpin).
  assert (Ht : truthy (PyInt n) = true) by (simpl; by rewrite bool_decide_eq_false_2).
  specialize (Hpin Ht). congruence.
Qed.

(** An edit leaves the target alone: the content type that [save_form]
    returns for an existing filter is the one it had. *)
Lemma save_form_keeps_target request inst initial_data submitted change mf :
  ct_id (content_type inst) ≠ 0 →
  save_form FORM_SAVE_APPLY_DISCARD content_types users name_clean description_clean
    request {| instance := Some inst; initial := initial_data; data := submitted |} change
  = Ok mf →
  ct_id (content_type mf) = ct_id (content_type inst).
Proof.
  intros Hid. unfold save_form, ModelAdmin_save_form.
  cbn [instance data initial _get_content_type].
  destruct (name_clean _) as [cleaned_name|]; [|done]. rewrite bind_Ok.
  destruct (description_clean _) as [cleaned_description|]; [|done]. rewrite bind_Ok.
  destruct (clean_choice ct_id _ _) as [ct|] eqn:Hct; [|done]. simpl.
  destruct (clean_choice pk _ _) as [o|]; [|done]. simpl.
  intros [= <-]. simpl. by apply clean_choice_pinned in Hct.
Qed.

(** The form itself keeps the owner of an existing filter: what
    [ModelAdmin.save_form] hands to [save_form] still has it. *)
Lemma ModelAdmin_save_form_keeps_owner inst initial_data submitted new_object :
  owner inst ≠ 0 →
  ModelAdmin_save_form content_types users name_clean description_clean
    {| instance := Some inst; initial := initial_data; data := submitted |}
  = Ok new_object →
  owner new_object = owner inst.
Proof.
  intros Hid. unfold ModelAdmin_save_form. cbn [instance data initial _get_owner].
  destruct (name_clean _) as [cleaned_name|]; [|done]. rewrite bind_Ok.
  destruct (description_clean _) as [cleaned_description|]; [|done]. rewrite bind_Ok.
  destruct (clean_choice ct_id _ _) as [ct|]; [|done]. simpl.
  destruct (clean_choice pk _ _) as [o|] eqn:Ho; [|done]. simpl.
  intros [= <-]. simpl. by apply clean_choice_pinned in Ho.
Qed.
End SaveFormTarget.

(** * The properties on the demo project *)

(** The six clauses [name = Wile, OR, name = Road Runner, membership = gold,
    OR, membership is null] of a customer filter compile to
    [A | (B & C) | D]. *)
Lemma C1_witness :
  build_query_filter acme.OR_SEPARATOR acme.get_fields_from_path acme.six_clauses =
  Ok (QOr (QOr (Q_ [("name__exact", PyStr "Wile E. Coyote")])
               (QAnd (Q_ [("name__exact", PyStr "Road Runner")])
                     (Q_ [("membership__exact", PyStr "gold")])))
          (Q_ [("membership", PyNone)])).
Proof.
  destruct (C1_compile_is_or_of_and_groups acme.OR_SEPARATOR acme.get_fields_from_path
              acme.six_clauses) as (_ & _ & _ & _ & _ & _ & _ & Hexample & _).
  apply (Hexample acme.name_is_wile acme.or_clause acme.name_is_road_runner
           acme.membership_is_gold acme.or_clause acme.membership_is_null);
    first [reflexivity | discriminate].
Defined.

(** [not (name = Wile), OR, membership = gold] compiles to [(~A) | B]. *)
Lemma C8_witness :
  build_query_filter acme.OR_SEPARATOR acme.get_fields_from_path acme.negated_or =
  Ok (QOr (QNot (Q_kwargs {[ "name__exact" := PyStr "Wile E. Coyote" ]}))
          (Q_ [("membership__exact", PyStr "gold")])).
Proof.
  destruct (C8_negate_inverts_one_clause acme.OR_SEPARATOR acme.get_fields_from_path
              acme.negated_or) as (_ & _ & Hexample).
  apply (Hexample acme.name_is_not_wile acme.or_clause acme.membership_is_gold);
    first [reflexivity | discriminate].
Defined.

(** A sequence that ends with a separator still compiles. *)
Lemma C10_witness :
  ∃ tokens,
    traverse (clause_token acme.OR_SEPARATOR acme.get_fields_from_path acme.trailing_or)
      (fields acme.trailing_or) = Ok tokens
    ∧ build_query_filter acme.OR_SEPARATOR acme.get_fields_from_path acme.trailing_or
      = Ok (disjunction (conjunction <$> and_groups tokens))
    ∧ ∀ (Row : Type) (lookup_holds : Row → string → PyVal → bool) (r : Row),
        Q_matches lookup_holds (disjunction (conjunction <$> and_groups tokens)) r
        = if existsb nonempty_group (and_groups tokens)
          then existsb (λ g, nonempty_group g
                             && forallb (λ c, Q_matches lookup_holds c r) g)
                 (and_groups tokens)
          else true.
Proof.
  apply (proj1 (C10_compile_total_when_clauses_build acme.OR_SEPARATOR
                  acme.get_fields_from_path acme.trailing_or)).
  repeat (constructor;
          [intros Hclause; first [reflexivity | exfalso; apply Hclause; reflexivity]|]).
  constructor.
Defined.

(** The compiler raises on a stored clause with an unknown field path and
    on one whose value the field cannot convert; and the empty group
    after a trailing separator does not make the result match every row. *)
Lemma C10_counterexample :
  build_query_filter acme.OR_SEPARATOR acme.get_fields_from_path acme.unknown_field
  = Raise (FieldDoesNotExist "bogus")
  ∧ build_query_filter acme.OR_SEPARATOR acme.get_fields_from_path acme.bad_integer
    = Raise (ValidationError ["'5 years' value must be an integer."])
  ∧ build_query_filter acme.OR_SEPARATOR acme.get_fields_from_path acme.trailing_or
    = Ok (Q_ [("name__exact", PyStr "Wile E. Coyote")])
  ∧ Q_matches acme.lookup_holds (Q_ [("name__exact", PyStr "Wile E. Coyote")])
      acme.road_runner = false.
Proof. repeat split; vm_compute; reflexivity. Qed.

(** The owner, who may view customers, may delete the own filter. *)
Lemma C3_witness :
  has_permission acme.view_open (acme.has_perm acme.owner_grants)
    (acme.ModelAdmin_has_permission acme.owner_grants)
    Delete (acme.request (acme.staff 1) ∅) (Some acme.two_clauses) = true.
Proof.
  apply (proj1 (C3_access_check_by_ownership_toggle_and_grants acme.view_open
                  (acme.has_perm acme.owner_grants)
                  (acme.ModelAdmin_has_permission acme.owner_grants)
                  Delete (acme.request (acme.staff 1) ∅) acme.two_clauses eq_refl));
    reflexivity.
Defined.

(** With the view toggle off, user 2 is not the owner and the permission
    service grants the view of filters; user 2 may not view customers, and
    the check denies. *)
Lemma C3_counterexample :
  is_superuser (user (acme.request (acme.staff 2) ∅)) = false
  ∧ pk (user (acme.request (acme.staff 2) ∅)) ≠ owner acme.two_clauses
  ∧ owner_only_toggle acme.view_open View = false
  ∧ acme.ModelAdmin_has_permission acme.viewer_grants View
      (acme.request (acme.staff 2) ∅) (Some acme.two_clauses) = true
  ∧ has_permission acme.view_open (acme.has_perm acme.viewer_grants)
      (acme.ModelAdmin_has_permission acme.viewer_grants)
      View (acme.request (acme.staff 2) ∅) (Some acme.two_clauses) = false.
Proof. repeat split; try (vm_compute; reflexivity). vm_compute. discriminate. Qed.



(** [membership isnull] with the junk value supplied. *)
Lemma C7_witness :
  ∃ form',
    _clean_value acme.OR_SEPARATOR acme.get_fields_from_path acme.missing_value_form
      {[ "field" := PyStr "membership"; "operator" := PyStr "isnull";
         "value" := PyStr "junk" ]}
    = Ok (PyStr "", form')
    ∧ errors form' !! "value" = None
    ∧ (∀ k, k ≠ "value" → errors form' !! k = errors acme.missing_value_form !! k)
    ∧ value_required form' = false.
Proof.
  apply (C7_no_value_clause_discards_value acme.OR_SEPARATOR acme.get_fields_from_path
           acme.missing_value_form _ (PyStr "membership") (PyStr "isnull"));
    try reflexivity.
  right. apply (bool_decide_unpack _). vm_compute. exact I.
Defined.

(** A separator clause submitted with a blank operator and a blank value:
    the value comes back as [None] and its error stays. *)
Lemma C7_counterexample :
  _clean_value acme.OR_SEPARATOR acme.get_fields_from_path acme.blank_operator_form
    {[ "field" := PyStr acme.OR_SEPARATOR; "operator" := PyNone ]}
  = Ok (PyNone, acme.blank_operator_form)
  ∧ errors acme.blank_operator_form !! "value" = Some ["This field is required."]
  ∧ ∃ cleaned_data form',
      clean acme.OR_SEPARATOR acme.get_fields_from_path acme.blank_operator_form
        {[ "field" := PyStr acme.OR_SEPARATOR ]}
      = Ok (cleaned_data, form')
      ∧ cleaned_data !! "value" = Some PyNone
      ∧ errors form' !! "value" = Some ["This field is required."].
Proof.
  split; [vm_compute; reflexivity|]. split; [vm_compute; reflexivity|].
  eexists _, _. split; [vm_compute; reflexivity|].
  split; vm_compute; reflexivity.
Qed.

(** The ephemeral filter 7 saved again with an ordinary save. *)
Lemma C9_witness :
  ∃ mf,
    save_form acme.FORM_SAVE_APPLY_DISCARD [acme.customer; acme.product]
      [acme.staff 1; acme.superuser 2] acme.name_clean acme.description_clean
      (acme.request (acme.staff 1) acme.edit_post) (acme.edit_form acme.one_shot) true
    = Ok mf
    ∧ ephemeral acme.one_shot = true
    ∧ ephemeral mf = false.
Proof.
  destruct (C9_ephemeral_is_recomputed_on_every_save
              acme.FORM_SAVE_APPLY_DISCARD [acme.customer; acme.product]
              [acme.staff 1; acme.superuser 2] acme.name_clean acme.description_clean
              (acme.request (acme.staff 1) acme.edit_post)
              (acme.edit_form acme.one_shot) true) as (Hreturns & _ & Hresave).
  destruct (Hreturns _ eq_refl) as (mf & Hmf & _).
  exists mf. split; [exact Hmf|]. split; [reflexivity|].
  apply (Hresave acme.one_shot mf); first [reflexivity | exact Hmf].
Defined.

(** Claim C5, on the code: a superuser who is not the owner saves filter 3
    with an ordinary save.  The form accepted the pinned owner 1 and the
    pinned content type; the content type stays, and [save_form] writes
    the editor, user 2, over the owner. *)
Lemma C5_save_form_reassigns_owner :
  changeform_post acme.FORM_SAVE_APPLY_DISCARD [acme.customer; acme.product]
    [acme.staff 1; acme.superuser 2] acme.name_clean acme.description_clean
    (acme.request (acme.superuser 2) acme.edit_post) (Some acme.two_clauses) 100 4
    [acme.two_clauses]
  = Ok [acme.edited]
  ∧ owner acme.two_clauses = 1
  ∧ owner acme.edited = 2
  ∧ content_type acme.edited = content_type acme.two_clauses.
Proof. repeat split; vm_compute; reflexivity. Qed.

(** * The repository's own test cases, run on the embedding *)

(** The cases of [forms/inline_tests.py]. *)
Example test_clean_field_filters :
  clean_field_filters acme.OR_SEPARATOR
    [ {[ "field" := PyStr "name" ]}; {[ "DELETE" := PyBool true ]};
      {[ "field" := PyStr acme.OR_SEPARATOR; "DELETE" := PyBool true ]};
      {[ "field" := PyStr acme.OR_SEPARATOR ]};
      {[ "field" := PyStr "description" ]}; {[ "DELETE" := PyBool true ]} ]
  = Ok ().
Proof. vm_compute. reflexivity. Qed.

Example test_clean_field_filters_errors :
  clean_field_filters acme.OR_SEPARATOR [] = Raise AtLeastOneRequired
  ∧ clean_field_filters acme.OR_SEPARATOR [ {[ "DELETE" := PyBool true ]} ]
    = Raise AtLeastOneRequired
  ∧ clean_field_filters acme.OR_SEPARATOR [ {[ "field" := PyStr acme.OR_SEPARATOR ]} ]
    = Raise LeadingSeparator
  ∧ clean_field_filters acme.OR_SEPARATOR
      [ {[ "field" := PyStr "name" ]}; {[ "field" := PyStr acme.OR_SEPARATOR ]} ]
    = Raise TrailingSeparator
  ∧ clean_field_filters acme.OR_SEPARATOR
      [ {[ "DELETE" := PyBool true ]}; {[ "field" := PyStr "name" ]};
        {[ "DELETE" := PyBool true ]}; {[ "field" := PyStr acme.OR_SEPARATOR ]};
        {[ "DELETE" := PyBool true ]}; {[ "field" := PyStr acme.OR_SEPARATOR ]};
        {[ "DELETE" := PyBool true ]}; {[ "field" := PyStr "description" ]};
        {[ "DELETE" := PyBool true ]} ]
    = Raise ConsecutiveSeparators.
Proof. repeat split; vm_compute; reflexivity. Qed.

(** [test_clean_value_no_value] of [forms/field_filter_tests.py]. *)
Example test_clean_value_no_value :
  fst <$> _clean_value acme.OR_SEPARATOR acme.get_fields_from_path
            acme.missing_value_form
            {[ "field" := PyStr "explosive"; "operator" := PyStr acme.OR_SEPARATOR;
               "value" := PyStr "junk" ]}
  = Ok (PyStr "")
  ∧ fst <$> _clean_value acme.OR_SEPARATOR acme.get_fields_from_path
              acme.missing_value_form
              {[ "field" := PyStr acme.OR_SEPARATOR; "operator" := PyStr "exact";
                 "value" := PyStr "junk" ]}
    = Ok (PyStr "")
  ∧ fst <$> _clean_value acme.OR_SEPARATOR acme.get_fields_from_path
              acme.missing_value_form
              {[ "field" := PyStr "explosive"; "operator" := PyStr "istrue" ]}
    = Ok (PyStr "").
Proof. repeat split; vm_compute; reflexivity. Qed.

(** The filter of [list_filter_tests.py]: [name exact "Wile E. Coyote"]
    keeps the first of the two customers. *)
Example test_filtering_model_filter :
  (q ← build_query_filter acme.OR_SEPARATOR acme.get_fields_from_path
         (acme.customer_filter 8 1 false [acme.name_is_wile]);
   queryset_filter acme.lookup_holds acme.build_lookup q [acme.wile; acme.road_runner])
  = Ok [acme.wile].
Proof. vm_compute. reflexivity. Qed.

(** * Properties of the filter field configuration *)

Lemma od_set_keys (key v : string) (d : list (string * string)) :
  (od_set key v d).*1 = if bool_decide (key ∈ d.*1) then d.*1 else (d.*1 ++ [key])%list.
Proof.
  induction d as [|[k w] d IH]; [reflexivity|].
  cbn [od_set]. rewrite !fmap_cons. cbn [fst].
  destruct (decide (k = key)) as [->|Hne].
  - rewrite bool_decide_eq_true_2 by done.
    rewrite bool_decide_eq_true_2 by left. reflexivity.
  - rewrite (bool_decide_eq_false_2 _ Hne), fmap_cons, IH. cbn [fst].
    destruct (decide (key ∈ d.*1)) as [Hin|Hnin].
    + rewrite !bool_decide_eq_true_2; [done|by right|done].
    + rewrite !bool_decide_eq_false_2; [done| |done].
      intros [?|?]%elem_of_cons; congruence.
Qed.

Lemma od_get_set (key key' v : string) (d : list (string * string)) :
  od_get key (od_set key' v d) = if bool_decide (key' = key) then Some v else od_get key d.
Proof.
  induction d as [|[k w] d IH]; [reflexivity|].
  cbn [od_set]. destruct (decide (k = key')) as [->|Hne].
  - rewrite bool_decide_eq_true_2 by done. cbn [od_get].
    by destruct (bool_decide (key' = key)).
  - rewrite (bool_decide_eq_false_2 _ Hne). cbn [od_get]. rewrite IH.
    destruct (decide (k = key)) as [->|Hk].
    + rewrite bool_decide_eq_true_2 by done. by rewrite bool_decide_eq_false_2.
    + by rewrite (bool_decide_eq_false_2 _ Hk).
Qed.

Lemma filter_not_elem_of_snoc (ks : list string) (x : string) (l : list string) :
  List.filter (λ y, negb (bool_decide (y ∈ (ks ++ [x])%list))) l
  = List.filter (λ y, negb (bool_decide (y ∈ ks)))
      (List.filter (λ y, negb (bool_decide (y = x))) l).
Proof.
  induction l as [|y l IH]; [reflexivity|]. cbn [List.filter].
  destruct (decide (y = x)) as [->|Hne].
  - rewrite (bool_decide_eq_true_2 (x = x)) by done. cbn [negb].
    rewrite bool_decide_eq_true_2; [exact IH|].
    apply elem_of_app. right. left.
  - rewrite (bool_decide_eq_false_2 (y = x)) by done. cbn [negb List.filter].
    destruct (decide (y ∈ ks)) as [Hin|Hnin].
    + rewrite !bool_decide_eq_true_2; [exact IH|done|].
      apply elem_of_app. by left.
    + rewrite !bool_decide_eq_false_2; [cbn [negb]; by rewrite IH|done|].
      intros [?|[?|[]%elem_of_nil]%elem_of_cons]%elem_of_app; congruence.
Qed.

Lemma filter_not_elem_of_drop (ks : list string) (x : string) (l : list string) :
  x ∈ ks →
  List.filter (λ y, negb (bool_decide (y ∈ ks)))
    (List.filter (λ y, negb (bool_decide (y = x))) l)
  = List.filter (λ y, negb (bool_decide (y ∈ ks))) l.
Proof.
  intros Hx. induction l as [|y l IH]; [reflexivity|]. cbn [List.filter].
  destruct (decide (y = x)) as [->|Hne].
  - rewrite (bool_decide_eq_true_2 (x = x)) by done. cbn [negb].
    by rewrite (bool_decide_eq_true_2 (x ∈ ks)).
  - rewrite (bool_decide_eq_false_2 (y = x)) by done. cbn [negb List.filter].
    by rewrite IH.
Qed.

Lemma od_fold_keys (kls : list (string * string)) : ∀ d,
  (fold_left (λ acc kl, od_set kl.1 kl.2 acc) kls d).*1
  = (d.*1 ++ List.filter (λ y, negb (bool_decide (y ∈ d.*1))) (first_occurrences kls.*1))%list.
Proof.
  induction kls as [|[k v] kls IH]; intros d.
  - simpl. by rewrite app_nil_r.
  - cbn [fold_left]. rewrite IH, od_set_keys. cbn [fst snd].
    rewrite fmap_cons. cbn [first_occurrences List.filter fst].
    destruct (decide (k ∈ d.*1)) as [Hin|Hnin].
    + rewrite !bool_decide_eq_true_2 by done. cbn [negb].
      by rewrite filter_not_elem_of_drop.
    + rewrite !bool_decide_eq_false_2 by done. cbn [negb].
      rewrite <- app_assoc. cbn [app]. by rewrite filter_not_elem_of_snoc.
Qed.

Lemma filter_true_id (l : list string) : List.filter (λ y, negb (bool_decide (y ∈ @nil string))) l = l.
Proof.
  induction l as [|y l IH]; [reflexivity|]. cbn [List.filter].
  rewrite bool_decide_eq_false_2 by apply not_elem_of_nil. cbn [negb]. by rewrite IH.
Qed.

Lemma od_fold_get (key : string) (kls : list (string * string)) : ∀ d,
  od_get key (fold_left (λ acc kl, od_set kl.1 kl.2 acc) kls d)
  = match last (filter (λ kl, kl.1 = key) kls) with
    | Some kl => Some kl.2
    | None => od_get key d
    end.
Proof.
  induction kls as [|[k v] kls IH]; intros d; [reflexivity|].
  cbn [fold_left fst snd]. rewrite IH, od_get_set.
  destruct (decide (k = key)) as [->|Hne].
  - rewrite filter_cons_True by done.
    rewrite bool_decide_eq_true_2 by done.
    destruct (filter (λ kl, kl.1 = key) kls) as [|kl' F] eqn:HF; [reflexivity|].
    rewrite (last_cons (key, v)), !last_cons. by destruct (last F).
  - rewrite filter_cons_False by done.
    by rewrite (bool_decide_eq_false_2 _ Hne).
Qed.

Section CleanFilterFieldsTheorems.
Variable get_fields_from_path : ContentType → string → result (list ModelField).
Variable verbose_name : ModelField → string.
Variable title : string → string.

Local Abbreviation entry_of :=
  (clean_filter_field get_fields_from_path verbose_name title).
Local Abbreviation clean_fields :=
  (get_clean_filter_fields get_fields_from_path verbose_name title).

Lemma get_clean_filter_fields_loop_traverse model_ entries utc : ∀ d,
  get_clean_filter_fields_loop get_fields_from_path verbose_name title model_ entries utc d
  = (kls ← traverse (λ e, entry_of model_ e utc) entries;
     Ok (fold_left (λ acc kl, od_set kl.1 kl.2 acc) kls d)).
Proof.
  induction entries as [|e entries IH]; intros d; [reflexivity|].
  cbn [get_clean_filter_fields_loop traverse].
  destruct (entry_of model_ e utc) as [[k v]|err]; [|reflexivity].
  simpl. rewrite IH.
  by destruct (traverse (λ e0, entry_of model_ e0 utc) entries).
Qed.

(** Property X1.  When every declared entry is well formed,
    [get_clean_filter_fields] returns an ordered dictionary in which each
    field path appears once, at the position of its first declaration,
    and carries the label of its last declaration. *)
Theorem X1_clean_filter_fields_keeps_first_position_last_label
    (model_ : ContentType) (entries : list FilterFieldEntry) (use_title_case : bool)
    (kls : list (string * string)) :
  traverse (λ e, entry_of model_ e use_title_case) entries = Ok kls →
  ∃ d, clean_fields model_ entries use_title_case = Ok d
       ∧ d.*1 = first_occurrences kls.*1
       ∧ ∀ key, od_get key d
                = (λ kl : string * string, kl.2) <$> last (filter (λ kl, kl.1 = key) kls).
Proof.
  intros Hkls. unfold get_clean_filter_fields.
  rewrite get_clean_filter_fields_loop_traverse, Hkls. simpl.
  eexists. split; [reflexivity|]. split.
  - rewrite od_fold_keys. simpl. apply filter_true_id.
  - intros key. rewrite od_fold_get. simpl.
    by destruct (last (filter (λ kl, kl.1 = key) kls)).
Qed.

(** Property X2.  [get_clean_filter_fields] raises the exception of the
    first entry that is malformed or names no field; the entries after it
    are never examined. *)
Theorem X2_clean_filter_fields_first_bad_entry_raises
    (model_ : ContentType) (good : list FilterFieldEntry) (bad : FilterFieldEntry)
    (rest : list FilterFieldEntry) (use_title_case : bool) (e : Exception) :
  Forall (λ entry, is_ok (entry_of model_ entry use_title_case) = true) good →
  entry_of model_ bad use_title_case = Raise e →
  clean_fields model_ (good ++ bad :: rest) use_title_case = Raise e.
Proof.
  intros Hgood Hbad. unfold get_clean_filter_fields.
  rewrite get_clean_filter_fields_loop_traverse.
  assert (Ht : traverse (λ e0, entry_of model_ e0 use_title_case) (good ++ bad :: rest)
               = Raise e); [|by rewrite Ht].
  induction Hgood as [|g good Hg _ IH]; simpl.
  - by rewrite Hbad.
  - destruct (entry_of model_ g use_title_case); [|done]. simpl. by rewrite IH.
Qed.

(** What each shape of entry stands for. *)
Lemma clean_filter_field_shapes (model_ : ContentType) (use_title_case : bool) :
  (∀ k l, entry_of model_ (EntrySequence [PyStr k; PyStr l]) use_title_case = Ok (k, l))
  ∧ (∀ items, length items ≠ 2%nat →
       entry_of model_ (EntrySequence items) use_title_case
       = Raise (ValueError "Iterable model filter field length must be 2."))
  ∧ (∀ a b, (∀ k l, (a, b) ≠ (PyStr k, PyStr l)) →
       entry_of model_ (EntrySequence [a; b]) use_title_case
       = Raise (ValueError "Model filter field values must be strings."))
  ∧ (∀ v, (∀ s, v ≠ PyStr s) →
       entry_of model_ (EntryValue v) use_title_case
       = Raise (ValueError "Model filter field values must be strings."))
  ∧ (∀ path err, get_fields_from_path model_ path = Raise err →
       entry_of model_ (EntryValue (PyStr path)) use_title_case = Raise err).
Proof.
  refine (conj _ (conj _ (conj _ (conj _ _)))).
  - reflexivity.
  - intros items Hlen. unfold clean_filter_field.
    by rewrite (bool_decide_eq_false_2 _ Hlen).
  - intros a b Hab. unfold clean_filter_field. simpl.
    destruct a as [| |k|]; try reflexivity.
    destruct b as [| |l|]; try reflexivity. by destruct (Hab k l).
  - intros v Hv. destruct v as [| |s|]; try reflexivity. by destruct (Hv s).
  - intros path err Herr. unfold clean_filter_field. by rewrite Herr.
Qed.
End CleanFilterFieldsTheorems.

(** * Properties of the operator catalog *)

Lemma match_operators_spec (class_of : string) (bases : list string)
    (operator_map : list (string * list (string * string))) :
  Forall (λ entry, entry.2 ≠ []) operator_map →
  ∀ operators,
    match_operators class_of bases operator_map operators =
    match exact_entry class_of operator_map with
    | Some entry => Some entry.2
    | None =>
        if no_operators operators
        then match first_base_entry bases operator_map with
             | Some entry => Some entry.2
             | None => operators
             end
        else operators
    end.
Proof.
  unfold exact_entry, first_base_entry.
  induction 1 as [|[c ops] operator_map Hops _ IH]; intros operators.
  - simpl. by destruct (no_operators operators).
  - cbn [match_operators List.find fst snd].
    destruct (bool_decide (class_of = c)); [reflexivity|].
    destruct (no_operators operators) eqn:Hno; cbn [andb].
    + destruct (bool_decide (c ∈ bases)).
      * rewrite IH. destruct (List.find _ operator_map); [reflexivity|].
        assert (no_operators (Some ops) = false) as ->; [|reflexivity].
        simpl in Hops. by destruct ops.
      * rewrite IH, Hno. reflexivity.
    + rewrite IH, Hno. reflexivity.
Qed.

Lemma operators_for_spec
    (class_of : string) (bases : list string)
    (operator_map : list (string * list (string * string)))
    (default_operators : list (string * string)) :
  Forall (λ entry, entry.2 ≠ []) operator_map →
  operators_for class_of bases operator_map default_operators =
  match exact_entry class_of operator_map with
  | Some entry => entry.2
  | None =>
      match first_base_entry bases operator_map with
      | Some entry => entry.2
      | None => default_operators
      end
  end.
Proof.
  intros Hmap. unfold operators_for. rewrite match_operators_spec by done.
  cbn [no_operators].
  destruct (exact_entry class_of operator_map) as [[c ops]|] eqn:He.
  - apply find_some in He as [Hin _]. apply (proj2 (list_elem_of_In _ _)) in Hin.
    rewrite Forall_forall in Hmap. specialize (Hmap _ Hin). simpl in *.
    by destruct ops.
  - destruct (first_base_entry bases operator_map) as [[c ops]|] eqn:Hb; [|reflexivity].
    apply find_some in Hb as [Hin _]. apply (proj2 (list_elem_of_In _ _)) in Hin.
    rewrite Forall_forall in Hmap. specialize (Hmap _ Hin). simpl in *.
    by destruct ops.
Qed.

Lemma OPERATOR_MAP_nonempty : Forall (λ entry, entry.2 ≠ []) OPERATOR_MAP.
Proof. repeat constructor; discriminate. Qed.

(** What the shipped tables give is one of the six operator lists. *)
Lemma operators_for_shipped (class_of : string) (bases : list string) :
  operators_for class_of bases OPERATOR_MAP DEFAULT_OPERATORS
  ∈ [DEFAULT_OPERATORS; TEXT_OPERATORS; NUMERIC_OPERATORS; DATE_OPERATORS;
     BOOLEAN_OPERATORS; UUID_OPERATORS].
Proof.
  rewrite operators_for_spec by apply OPERATOR_MAP_nonempty.
  assert (Hvalues : ∀ entry, In entry OPERATOR_MAP →
            entry.2 ∈ [DEFAULT_OPERATORS; TEXT_OPERATORS; NUMERIC_OPERATORS;
                       DATE_OPERATORS; BOOLEAN_OPERATORS; UUID_OPERATORS]).
  { intros entry Hin. unfold OPERATOR_MAP in Hin. simpl in Hin.
    repeat (destruct Hin as [<-|Hin]; [simpl; set_solver|]). destruct Hin. }
  destruct (exact_entry class_of OPERATOR_MAP) as [entry|] eqn:He.
  - apply find_some in He as [Hin _]. by apply Hvalues.
  - destruct (first_base_entry bases OPERATOR_MAP) as [entry|] eqn:Hb.
    + apply find_some in Hb as [Hin _]. by apply Hvalues.
    + set_solver.
Qed.

(** Property X3.  When no operator list of the map is empty,
    [get_field_operators] gives a field the operators of the entry of its
    own class; failing that, those of the first entry, in the order of the
    map, whose class the field is an instance of; failing that, the
    default operators. *)
Theorem X3_operators_for_exact_class_then_first_base
    (class_of : string) (bases : list string)
    (operator_map : list (string * list (string * string)))
    (default_operators : list (string * string)) :
  Forall (λ entry, entry.2 ≠ []) operator_map →
  operators_for class_of bases operator_map default_operators =
  match exact_entry class_of operator_map with
  | Some entry => entry.2
  | None =>
      match first_base_entry bases operator_map with
      | Some entry => entry.2
      | None => default_operators
      end
  end.
Proof. apply operators_for_spec. Qed.

(** Property X4.  With the shipped operator map, whatever the class of a
    field and its bases, the operators offered are not empty, include
    [isnull], are all keys of the [OPERATORS] catalogue, and repeat no
    key. *)
Theorem X4_shipped_catalog_operators_are_valid_choices
    (class_of : string) (bases : list string) :
  let operators := operators_for class_of bases OPERATOR_MAP DEFAULT_OPERATORS in
  operators ≠ []
  ∧ constants.IS_NULL ∈ operators.*1
  ∧ (∀ key, key ∈ operators.*1 → key ∈ OPERATORS.*1)
  ∧ NoDup operators.*1.
Proof.
  intros operators. subst operators.
  pose proof (operators_for_shipped class_of bases) as Hin.
  assert (Hkeys : ∀ ops : list (string * string),
            forallb (λ key, bool_decide (key ∈ OPERATORS.*1)) ops.*1 = true →
            ∀ key, key ∈ ops.*1 → key ∈ OPERATORS.*1).
  { intros ops Hops key Hkey. rewrite forallb_forall in Hops.
    apply list_elem_of_In in Hkey. specialize (Hops _ Hkey).
    by apply bool_decide_eq_true in Hops. }
  repeat (apply elem_of_cons in Hin as [->|Hin]);
    [| | | | | |by apply elem_of_nil in Hin];
    (split; [discriminate|]);
    (split; [apply (bool_decide_unpack _); vm_compute; exact I|]);
    (split; [apply Hkeys; vm_compute; reflexivity|]);
    apply (bool_decide_unpack _); vm_compute; exact I.
Qed.

(** The fields of a model: [URLField] extends [CharField], [DateTimeField]
    extends [DateField], an unknown class gets the default operators. *)
Example test_get_field_operators :
  operators_for "URLField" ["URLField"; "CharField"; "Field"] OPERATOR_MAP
    DEFAULT_OPERATORS = TEXT_OPERATORS
  ∧ operators_for "BooleanField" ["BooleanField"; "Field"] OPERATOR_MAP
      DEFAULT_OPERATORS = BOOLEAN_OPERATORS
  ∧ operators_for "DecimalField" ["DecimalField"; "Field"] OPERATOR_MAP
      DEFAULT_OPERATORS = NUMERIC_OPERATORS
  ∧ operators_for "Mock" ["Mock"] OPERATOR_MAP DEFAULT_OPERATORS = DEFAULT_OPERATORS.
Proof. repeat split; vm_compute; reflexivity. Qed.

(** * Properties of the clause form *)

Lemma add_error_lookup (form : FieldFilterForm) (name message : string) :
  errors (add_error form name message) !! name
  = Some (default [] (errors form !! name) ++ [message])%list
  ∧ (∀ k, k ≠ name → errors (add_error form name message) !! k = errors form !! k)
  ∧ value_required (add_error form name message) = value_required form.
Proof.
  unfold add_error. simpl. split; [apply lookup_insert_eq|]. split; [|reflexivity].
  intros k Hk. by apply lookup_insert_ne.
Qed.

Lemma operator_allowed_spec (operator : PyVal) (allowed : list string) :
  existsb (λ key, bool_decide (operator = PyStr key)) allowed = true
  ↔ ∃ key, operator = PyStr key ∧ key ∈ allowed.
Proof.
  rewrite existsb_exists. split.
  - intros (key & Hin & Hkey). apply bool_decide_eq_true in Hkey.
    exists key. split; [done|]. by apply list_elem_of_In.
  - intros (key & Hkey & Hin). exists key. split; [by apply list_elem_of_In|].
    by apply bool_decide_eq_true.
Qed.

Section ClauseFormTheorems.
Variable OR_SEPARATOR : string.
Variable get_fields_from_path : ContentType → string → result (list ModelField).

Local Abbreviation clean_operator := (_clean_operator OR_SEPARATOR).
Local Abbreviation clean_value := (_clean_value OR_SEPARATOR get_fields_from_path).
Local Abbreviation clean_form := (clean OR_SEPARATOR get_fields_from_path).

Lemma _clean_operator_cases (form : FieldFilterForm) (cleaned_data : gmap string PyVal)
    (path : string) (operator : PyVal) :
  cleaned_data !! "field" = Some (PyStr path) →
  cleaned_data !! "operator" = Some operator → truthy operator = true →
  let allowed := default [] (field_operators form !! path) in
  (path = OR_SEPARATOR ∨ (∃ key, operator = PyStr key ∧ key ∈ allowed) →
   clean_operator form cleaned_data = (operator, form))
  ∧ (path ≠ OR_SEPARATOR → (∀ key, operator = PyStr key → key ∉ allowed) →
     clean_operator form cleaned_data
     = (operator,
        add_error form "operator"
          ("Operator '" +:+ py_str operator +:+ "' is not allowed for this field."))).
Proof.
  intros Hf Ho Hot allowed. unfold _clean_operator, dict_get.
  rewrite Hf, Ho. simpl. rewrite Hot. simpl.
  fold allowed.
  pose proof (operator_allowed_spec operator allowed) as Hex.
  split.
  - intros [->|Hallowed].
    + rewrite (bool_decide_eq_false_2 (PyStr OR_SEPARATOR ≠ PyStr OR_SEPARATOR)); [done|].
      intros H. by apply H.
    + destruct (bool_decide (PyStr path ≠ PyStr OR_SEPARATOR)); [|done].
      apply Hex in Hallowed. by rewrite Hallowed.
  - intros Hsep Hnot.
    rewrite (bool_decide_eq_true_2 (PyStr path ≠ PyStr OR_SEPARATOR)) by congruence.
    destruct (existsb _ allowed) eqn:Hb; [|done].
    destruct (proj1 Hex eq_refl) as (key & Hkey & Hin). by destruct (Hnot key Hkey).
Qed.

(** Property X5.  For a row with a field and a non-empty operator,
    [_clean_operator] returns the operator unchanged.  It leaves the form
    alone when the field is the separator or the operator is among those
    of the field; otherwise it appends one error that names the operator
    to the errors of the operator, and touches no other error. *)
Theorem X5_clean_operator_rejects_exactly_disallowed
    (form : FieldFilterForm) (cleaned_data : gmap string PyVal)
    (path : string) (operator : PyVal) :
  cleaned_data !! "field" = Some (PyStr path) →
  cleaned_data !! "operator" = Some operator → truthy operator = true →
  let allowed := default [] (field_operators form !! path) in
  let outcome := clean_operator form cleaned_data in
  outcome.1 = operator
  ∧ (path = OR_SEPARATOR ∨ (∃ key, operator = PyStr key ∧ key ∈ allowed) →
     outcome.2 = form)
  ∧ (path ≠ OR_SEPARATOR → (∀ key, operator = PyStr key → key ∉ allowed) →
     errors outcome.2 !! "operator"
     = Some (default [] (errors form !! "operator")
             ++ ["Operator '" +:+ py_str operator +:+ "' is not allowed for this field."])%list
     ∧ (∀ k, k ≠ "operator" → errors outcome.2 !! k = errors form !! k)).
Proof.
  intros Hf Ho Hot allowed outcome. subst outcome.
  destruct (_clean_operator_cases form cleaned_data path operator Hf Ho Hot)
    as [Hok Hbad]. fold allowed in Hok, Hbad.
  split; [|split].
  - destruct (decide (path = OR_SEPARATOR)) as [Hsep|Hsep]; [by rewrite Hok by auto|].
    destruct (existsb (λ key, bool_decide (operator = PyStr key)) allowed) eqn:Hb.
    + apply operator_allowed_spec in Hb. by rewrite Hok by auto.
    + rewrite Hbad; [done|done|]. intros key Hkey Hin.
      assert (Hb' : existsb (λ key, bool_decide (operator = PyStr key)) allowed = true)
        by (apply operator_allowed_spec; eauto).
      congruence.
  - intros H. by rewrite Hok.
  - intros Hsep Hnot. rewrite Hbad by done. simpl.
    destruct (add_error_lookup form "operator"
                ("Operator '" +:+ py_str operator +:+ "' is not allowed for this field."))
      as (H1 & H2 & _). split; [exact H1|exact H2].
Qed.

(** Property X6.  For a clause whose field is not the separator, whose
    operator takes a value and whose value is not empty, [_clean_value]
    returns the value as submitted.  The form is unchanged when
    [to_python] of the field accepts the value; when it raises, one error
    is appended to the errors of the value, made of the internal type of
    the field and the message of the exception, and nothing else
    changes. *)
Theorem X6_clean_value_reports_conversion_failure
    (form : FieldFilterForm) (cleaned_data : gmap string PyVal)
    (path operator v : string) (fs : list ModelField) (model_field : ModelField) :
  cleaned_data !! "field" = Some (PyStr path) → path ≠ "" → path ≠ OR_SEPARATOR →
  cleaned_data !! "operator" = Some (PyStr operator) → operator ≠ "" →
  operator ∉ NO_VALUE_OPERATORS OR_SEPARATOR →
  cleaned_data !! "value" = Some (PyStr v) → v ≠ "" →
  get_fields_from_path (form_model form) path = Ok fs → last fs = Some model_field →
  ∃ form',
    clean_value form cleaned_data = Ok (PyStr v, form')
    ∧ (is_ok (to_python model_field v) = true → form' = form)
    ∧ (∀ error, to_python model_field v = Raise error →
         errors form' !! "value"
         = Some (default [] (errors form !! "value")
                 ++ ["Value is not valid for field ("
                     +:+ get_internal_type model_field +:+ "): "
                     +:+ error_message error])%list
         ∧ (∀ k, k ≠ "value" → errors form' !! k = errors form !! k)
         ∧ value_required form' = value_required form).
Proof.
  intros Hf Hfne Hsep Ho Hone Hnov Hv Hvne Hgfp Hlast.
  unfold _clean_value, dict_get. rewrite Hf, Ho, Hv. simpl.
  rewrite !(bool_decide_eq_false_2 (_ = "")) by done. simpl.
  rewrite (bool_decide_eq_false_2 (PyStr path = PyStr OR_SEPARATOR)) by congruence.
  assert (Hno : in_no_value_operators OR_SEPARATOR (PyStr operator) = false).
  { apply bool_decide_eq_false_2. intros Hin. apply Hnov.
    apply list_elem_of_fmap in Hin as (k & [= ->] & Hk). done. }
  rewrite Hno. simpl. rewrite Hgfp. simpl.
  unfold last_item. rewrite Hlast. simpl.
  destruct (to_python model_field v) as [x|error].
  - exists form. split; [done|]. split; [done|]. intros error [=].
  - eexists. split; [reflexivity|]. split; [done|].
    intros error' [= <-]. apply add_error_lookup.
Qed.

(** Property X7.  [clean] accepts a separator row with any non-empty
    operator: the cleaned data come back with the value set to the empty
    string, the value is no longer required, and the errors reported on
    the value are dropped. *)
Theorem X7_clean_accepts_separator_row
    (form : FieldFilterForm) (cleaned_data : gmap string PyVal) (operator : PyVal) :
  OR_SEPARATOR ≠ "" →
  cleaned_data !! "field" = Some (PyStr OR_SEPARATOR) →
  cleaned_data !! "operator" = Some operator → truthy operator = true →
  ∃ form',
    clean_form form cleaned_data
    = Ok (<["value" := PyStr ""]> (<["operator" := operator]> cleaned_data), form')
    ∧ errors form' = delete "value" (errors form)
    ∧ value_required form' = false.
Proof.
  intros Hne Hf Ho Hot. unfold clean.
  destruct (_clean_operator_cases form cleaned_data OR_SEPARATOR operator Hf Ho Hot)
    as [Hok _].
  rewrite Hok by auto.
  unfold _clean_value, dict_get.
  rewrite lookup_insert_ne by done. rewrite Hf. simpl.
  rewrite (bool_decide_eq_false_2 _ Hne). simpl.
  rewrite lookup_insert_eq. simpl. rewrite Hot. simpl.
  rewrite bool_decide_eq_true_2 by done. simpl.
  eexists. split; [reflexivity|]. split; reflexivity.
Qed.
End ClauseFormTheorems.

(** * The validator and the compiler agree on well-placed separators *)

Lemma well_placed_after_separator (rest : list bool) :
  well_placed_after_clause (true :: rest) = well_placed rest.
Proof. destruct rest as [|[] rest]; reflexivity. Qed.

Lemma no_empty_group_flags (tokens : list (option Q)) :
  forallb nonempty_group (tail (and_groups tokens))
  = well_placed_after_clause ((λ t, bool_decide (t = None)) <$> tokens)
  ∧ no_empty_group tokens = well_placed ((λ t : option Q, bool_decide (t = None)) <$> tokens).
Proof.
  unfold no_empty_group.
  induction tokens as [|[q|] tokens [IHh IHg]].
  - split; reflexivity.
  - rewrite fmap_cons.
    rewrite (bool_decide_eq_false_2 (Some q = None)) by done.
    cbn [and_groups well_placed well_placed_after_clause].
    destruct (and_groups_cons tokens) as (g & gs & Hg). rewrite Hg in *.
    cbn [tail forallb] in *. split; [exact IHh|].
    unfold nonempty_group at 1. rewrite bool_decide_eq_false_2 by done. exact IHh.
  - rewrite fmap_cons, (bool_decide_eq_true_2 (None = None)) by done.
    cbn [and_groups tail forallb]. rewrite well_placed_after_separator.
    split; [exact IHg|reflexivity].
Qed.

Section Bridge.
Variable OR_SEPARATOR : string.
Variable get_fields_from_path : ContentType → string → result (list ModelField).

Local Abbreviation token := (clause_token OR_SEPARATOR get_fields_from_path).
Local Abbreviation compile := (build_query_filter OR_SEPARATOR get_fields_from_path).
Local Abbreviation is_or := (field_is_or_separator OR_SEPARATOR).

(** The last two checks of the validator on the flags. *)
Lemma validator_tail_flags (ds : list (gmap string PyVal)) :
  (negb (from_option is_or false (last ds))
   && is_ok (consecutive_or_loop OR_SEPARATOR ds false)
   = well_placed_after_clause (is_or <$> ds))
  ∧ (negb (from_option is_or false (last ds))
     && is_ok (consecutive_or_loop OR_SEPARATOR ds true)
     = match ds with [] => true | _ => well_placed (is_or <$> ds) end).
Proof.
  induction ds as [|d ds [IHf IHt]]; [split; reflexivity|].
  rewrite fmap_cons. cbn [consecutive_or_loop].
  assert (Hlast : from_option is_or false (last (d :: ds))
                  = match ds with [] => is_or d | _ => from_option is_or false (last ds) end).
  { rewrite last_cons. destruct ds as [|d' ds']; [reflexivity|].
    by destruct (last (d' :: ds')) eqn:Hl; [|by rewrite last_cons in Hl; destruct (last ds')]. }
  rewrite Hlast. destruct (is_or d) eqn:Hd.
  - rewrite well_placed_after_separator. cbn [well_placed]. split.
    + destruct ds as [|d' ds']; [reflexivity|]. exact IHt.
    + by rewrite andb_false_r.
  - cbn [well_placed well_placed_after_clause].
    destruct ds as [|d' ds']; [split; reflexivity|]. split; exact IHf.
Qed.

Lemma clean_field_filters_flags (cleaned_data : list (gmap string PyVal)) :
  is_ok (clean_field_filters OR_SEPARATOR cleaned_data)
  = well_placed (is_or <$> List.filter not_deleted cleaned_data).
Proof.
  unfold clean_field_filters.
  destruct (List.filter not_deleted cleaned_data) as [|d ds] eqn:Hfilters; [reflexivity|].
  rewrite fmap_cons. cbn [well_placed].
  destruct (is_or d) eqn:Hd; [reflexivity|].
  destruct (validator_tail_flags (d :: ds)) as [Hf _].
  rewrite fmap_cons, Hd in Hf. cbn [well_placed_after_clause] in Hf.
  rewrite <- Hf.
  by destruct (from_option is_or false (last (d :: ds))).
Qed.

Lemma saved_rows_flags (rows : list (gmap string PyVal)) (fs : list FieldFilter) :
  (λ d, dict_get d "field" PyNone) <$> rows = (λ f, PyStr (field f)) <$> fs →
  is_or <$> rows = (λ f, bool_decide (field f = OR_SEPARATOR)) <$> fs.
Proof.
  revert fs. induction rows as [|d rows IH]; intros [|f fs]; try done.
  rewrite !fmap_cons. intros [= Hd Hrows]. rewrite (IH _ Hrows). f_equal.
  unfold field_is_or_separator. rewrite Hd.
  destruct (decide (field f = OR_SEPARATOR)) as [->|Hne].
  - by rewrite !bool_decide_eq_true_2.
  - rewrite !bool_decide_eq_false_2; [done|done|congruence].
Qed.

Lemma clause_data_rows (fs : list FieldFilter) :
  (λ d, dict_get d "field" PyNone) <$> List.filter not_deleted (clause_data <$> fs)
  = (λ f, PyStr (field f)) <$> fs.
Proof.
  induction fs as [|f fs IH]; [reflexivity|].
  rewrite !fmap_cons. cbn [List.filter].
  assert (Hnd : not_deleted (clause_data f) = true) by reflexivity.
  rewrite Hnd, fmap_cons, IH. f_equal.
Qed.

Lemma token_flags mf (fs : list FieldFilter) (tokens : list (option Q)) :
  traverse (token mf) fs = Ok tokens →
  (λ t : option Q, bool_decide (t = None)) <$> tokens
  = (λ f, bool_decide (field f = OR_SEPARATOR)) <$> fs.
Proof.
  intros H. apply traverse_Ok_Forall2 in H.
  induction H as [|f t fs tokens Hf _ IH]; [reflexivity|].
  rewrite !fmap_cons, IH. f_equal.
  unfold clause_token in Hf. case_bool_decide as Hsep.
  - injection Hf as <-. by rewrite bool_decide_eq_true_2.
  - destruct (make_query_filter _ mf f) as [q|]; [|done].
    injection Hf as <-. by rewrite bool_decide_eq_false_2.
Qed.

End Bridge.

(** * Joining and reordering filters *)

Lemma traverse_app {A B} (f : A → result B) (l1 l2 : list A) (y1 y2 : list B) :
  traverse f l1 = Ok y1 → traverse f l2 = Ok y2 →
  traverse f (l1 ++ l2)%list = Ok (y1 ++ y2)%list.
Proof.
  revert y1. induction l1 as [|x l1 IH]; intros y1; simpl.
  - by intros [= <-].
  - destruct (f x) as [y|]; simpl; [|done].
    destruct (traverse f l1) as [ys|]; simpl; [|done].
    intros [= <-] H2. by rewrite (IH ys eq_refl H2).
Qed.

Lemma traverse_ext {A B} (f g : A → result B) (l : list A) :
  (∀ x, f x = g x) → traverse f l = traverse g l.
Proof. intros H. induction l as [|x l IH]; simpl; [done|]. by rewrite H, IH. Qed.

Lemma traverse_Permutation {A B} (f : A → result B) (l l' : list A) (ys : list B) :
  l ≡ₚ l' → traverse f l = Ok ys →
  ∃ ys', traverse f l' = Ok ys' ∧ ys ≡ₚ ys'.
Proof.
  intros Hp. revert ys.
  induction Hp as [|x l l' Hp IH|x y l|l l' l'' Hp1 IH1 Hp2 IH2]; intros ys; simpl.
  - intros [= <-]. by exists [].
  - destruct (f x) as [b|]; simpl; [|done].
    destruct (traverse f l) as [bs|]; simpl; [|done]. intros [= <-].
    destruct (IH bs eq_refl) as (bs' & -> & Hbs). simpl.
    exists (b :: bs'). split; [done|]. by constructor.
  - destruct (f y) as [b|]; simpl; [|done].
    destruct (f x) as [a|]; simpl; [|done].
    destruct (traverse f l) as [bs|]; simpl; [|done]. intros [= <-].
    exists (a :: b :: bs). split; [done|]. constructor.
  - intros H. destruct (IH1 _ H) as (ys' & H' & Hys).
    destruct (IH2 _ H') as (ys'' & H'' & Hys').
    exists ys''. split; [done|]. by etrans.
Qed.

Lemma forallb_Permutation {A} (p : A → bool) (l l' : list A) :
  l ≡ₚ l' → forallb p l = forallb p l'.
Proof.
  induction 1 as [|x l l' _ IH|x y l|l l' l'' _ IH1 _ IH2]; simpl.
  - done.
  - by rewrite IH.
  - destruct (p x), (p y); reflexivity.
  - by rewrite IH1.
Qed.

Lemma and_groups_separator (t1 t2 : list (option Q)) :
  and_groups (t1 ++ None :: t2) = (and_groups t1 ++ and_groups t2)%list.
Proof.
  induction t1 as [|[q|] t1 IH]; [reflexivity| |].
  - cbn [app and_groups]. rewrite IH.
    by destruct (and_groups_cons t1) as (g & gs & ->).
  - cbn [app and_groups]. by rewrite IH.
Qed.

Section Joining.
Variable OR_SEPARATOR : string.
Variable get_fields_from_path : ContentType → string → result (list ModelField).

Local Abbreviation token := (clause_token OR_SEPARATOR get_fields_from_path).
Local Abbreviation condition := (make_query_filter get_fields_from_path).
Local Abbreviation compile := (build_query_filter OR_SEPARATOR get_fields_from_path).

(** A clause is compiled against the content type of its filter, and
    against nothing else of it. *)
Lemma make_query_filter_content_type (mf mf' : ModelFilter) (f : FieldFilter) :
  content_type mf = content_type mf' → condition mf f = condition mf' f.
Proof.
  intros H. unfold make_query_filter, build_query_params. by rewrite H.
Qed.

Lemma clause_token_content_type (mf mf' : ModelFilter) (f : FieldFilter) :
  content_type mf = content_type mf' → token mf f = token mf' f.
Proof.
  intros H. unfold clause_token. by rewrite (make_query_filter_content_type mf mf').
Qed.

Lemma compile_Ok_tokens (mf : ModelFilter) (q : Q) :
  compile mf = Ok q →
  ∃ tokens, traverse (token mf) (fields mf) = Ok tokens
            ∧ q = disjunction (conjunction <$> and_groups tokens).
Proof.
  rewrite build_query_filter_refines. unfold compile_spec.
  destruct (traverse (token mf) (fields mf)) as [tokens|]; [|done].
  rewrite bind_Ok. intros [= <-]. eauto.
Qed.

Lemma disjunction_bool (gs : list (list Q)) :
  Forall (Forall (λ q, Q_bool q = true)) gs →
  Q_bool (disjunction (conjunction <$> gs)) = existsb nonempty_group gs.
Proof.
  intros Hgs. destruct Hgs as [|g gs Hg Hgs]; [reflexivity|].
  rewrite fmap_cons. cbn [disjunction existsb].
  rewrite <- (conjunction_bool g Hg).
  generalize (conjunction g). induction Hgs as [|g' gs Hg' _ IH]; intros q0.
  - simpl. by rewrite orb_false_r.
  - rewrite fmap_cons. cbn [fold_left existsb].
    by rewrite IH, Q_bool_or, conjunction_bool, orb_assoc.
Qed.

Lemma Q_matches_or_cases {Row} (lookup_holds : Row → string → PyVal → bool)
    (a b : Q) (r : Row) :
  Q_matches lookup_holds (Q_or a b) r
  = if Q_bool a then
      if Q_bool b then Q_matches lookup_holds a r || Q_matches lookup_holds b r
      else Q_matches lookup_holds a r
    else Q_matches lookup_holds b r.
Proof.
  destruct (Q_bool a) eqn:Ea, (Q_bool b) eqn:Eb.
  - by apply Q_matches_or.
  - apply Q_bool_false in Eb as ->. reflexivity.
  - apply Q_bool_false in Ea as ->. by rewrite Q_or_empty_l.
  - apply Q_bool_false in Ea as ->. by rewrite Q_or_empty_l.
Qed.

(** Property X9.  A filter whose clauses are those of a first filter, a
    separator, and those of a second filter, all three on the same content
    type, compiles whenever the two compile, and matches the rows that
    [q1 | q2] of the two compiled expressions matches. *)
Theorem X9_separator_joins_two_filters_as_union
    (mf mf1 mf2 : ModelFilter) (s : FieldFilter) (q1 q2 : Q) :
  content_type mf1 = content_type mf →
  content_type mf2 = content_type mf →
  field s = OR_SEPARATOR →
  fields mf = (fields mf1 ++ s :: fields mf2)%list →
  compile mf1 = Ok q1 →
  compile mf2 = Ok q2 →
  ∃ q, compile mf = Ok q
       ∧ ∀ (Row : Type) (lookup_holds : Row → string → PyVal → bool) (r : Row),
           Q_matches lookup_holds q r = Q_matches lookup_holds (Q_or q1 q2) r.
Proof.
  intros Hc1 Hc2 Hs Hfs H1 H2.
  apply compile_Ok_tokens in H1 as (t1 & Ht1 & ->).
  apply compile_Ok_tokens in H2 as (t2 & Ht2 & ->).
  rewrite (traverse_ext _ (token mf) _ (λ f, clause_token_content_type mf1 mf f Hc1)) in Ht1.
  rewrite (traverse_ext _ (token mf) _ (λ f, clause_token_content_type mf2 mf f Hc2)) in Ht2.
  assert (Ht : traverse (token mf) (fields mf) = Ok (t1 ++ None :: t2)%list).
  { rewrite Hfs. apply traverse_app; [done|]. simpl.
    rewrite (clause_token_separator _ _ _ _ Hs), Ht2. reflexivity. }
  eexists. split; [by apply compile_tokens|].
  intros Row lookup_holds r.
  assert (Hg1 := and_groups_nonempty_conditions _
                   (tokens_nonempty_conditions _ _ _ _ _ Ht1)).
  assert (Hg2 := and_groups_nonempty_conditions _
                   (tokens_nonempty_conditions _ _ _ _ _ Ht2)).
  rewrite and_groups_separator, Q_matches_or_cases.
  rewrite !disjunction_bool, !disjunction_matches by (try apply Forall_app; done).
  rewrite !existsb_app.
  set (m := λ g, nonempty_group g && forallb (λ q, Q_matches lookup_holds q r) g).
  assert (Hnone : ∀ gs, existsb nonempty_group gs = false → existsb m gs = false).
  { induction gs as [|g gs IH]; [done|]. cbn [existsb]. unfold m at 1.
    destruct (nonempty_group g); [done|]. exact IH. }
  destruct (existsb nonempty_group (and_groups t1)) eqn:E1,
           (existsb nonempty_group (and_groups t2)) eqn:E2; cbn [orb]; try reflexivity.
  - by rewrite (Hnone _ E2), orb_false_r.
  - by rewrite (Hnone _ E1).
Qed.
Lemma compile_Ok_conditions (mf : ModelFilter) (q : Q) :
  Forall (λ f, field f ≠ OR_SEPARATOR) (fields mf) →
  compile mf = Ok q →
  ∃ conds, traverse (condition mf) (fields mf) = Ok conds ∧ q = conjunction conds.
Proof.
  intros Hfs Hq.
  assert (Hc : ∃ conds, traverse (condition mf) (fields mf) = Ok conds).
  { apply compile_Ok_tokens in Hq as (tokens & Ht & _).
    revert tokens Ht. induction Hfs as [|f fs Hf _ IH]; intros tokens; simpl; [eauto|].
    rewrite (clause_token_condition _ _ _ _ Hf).
    destruct (condition mf f) as [c|]; simpl; [|done].
    destruct (traverse (token mf) fs) as [ts|]; simpl; [|done].
    intros _. destruct (IH ts eq_refl) as [cs ->]. simpl. eauto. }
  destruct Hc as [conds Hc]. exists conds. split; [done|].
  rewrite (compile_no_separator _ _ mf conds Hfs Hc) in Hq. congruence.
Qed.

(** Property X10.  Without separators the order of the clauses does not
    matter: when a filter compiles, a filter on the same content type with
    the same clauses in another order compiles too and matches the same
    rows. *)
Theorem X10_clause_order_is_irrelevant_without_separators
    (mf mf' : ModelFilter) (q : Q) :
  content_type mf' = content_type mf →
  fields mf ≡ₚ fields mf' →
  Forall (λ f, field f ≠ OR_SEPARATOR) (fields mf) →
  compile mf = Ok q →
  ∃ q', compile mf' = Ok q'
        ∧ ∀ (Row : Type) (lookup_holds : Row → string → PyVal → bool) (r : Row),
            Q_matches lookup_holds q' r = Q_matches lookup_holds q r.
Proof.
  intros Hct Hp Hfs Hq.
  destruct (compile_Ok_conditions mf q Hfs Hq) as (conds & Hc & ->).
  destruct (traverse_Permutation _ _ _ _ Hp Hc) as (conds' & Hc' & Hconds).
  rewrite (traverse_ext _ (condition mf') _
             (λ f, eq_sym (make_query_filter_content_type mf' mf f Hct))) in Hc'.
  exists (conjunction conds'). split.
  - apply compile_no_separator; [|done]. by rewrite <- Hp.
  - intros Row lookup_holds r. rewrite !conjunction_matches.
    symmetry. by apply forallb_Permutation.
Qed.


(** Property X12.  [build_query_filter] raises the exception of the
    first clause that fails to build: when the clauses before a clause
    build and that clause raises, the compilation raises the same
    exception. *)
Theorem X12_compile_raises_the_first_clause_failure
    (mf : ModelFilter) (good rest : list FieldFilter) (bad : FieldFilter)
    (e : Exception) :
  fields mf = (good ++ bad :: rest)%list →
  Forall (λ f, field f ≠ OR_SEPARATOR → is_ok (condition mf f) = true) good →
  field bad ≠ OR_SEPARATOR →
  condition mf bad = Raise e →
  compile mf = Raise e.
Proof.
  intros Hfs Hgood Hsep Hbad.
  rewrite build_query_filter_refines. unfold compile_spec. rewrite Hfs.
  rewrite (traverse_first_failure (token mf) good rest bad e); [reflexivity| |].
  - eapply Forall_impl; [exact Hgood|]. intros f Hf. unfold clause_token.
    case_bool_decide as Hs; [done|]. specialize (Hf Hs).
    by destruct (condition mf f).
  - by rewrite (clause_token_condition _ _ _ _ Hsep), Hbad.
Qed.
End Joining.

(** * More on the filter repository and on applying a filter *)
Section VisibleFilters.
Variable settings : Settings.
Variable has_perm : User → string → bool.
Variable guardian : option (User → string → ModelFilter → bool).

Local Abbreviation visible := (for_user settings has_perm guardian).

Lemma filter_and_sublist {A} (a c : A → bool) (l : list A) :
  List.filter (λ x, a x && c x) l `sublist_of` List.filter a l.
Proof.
  induction l as [|x l IH]; [done|]. cbn [List.filter].
  destruct (a x), (c x); cbn [andb]; first [exact IH | by constructor].
Qed.

(** Property X13.  [for_user] lists a subsequence of the rows of the
    queryset, in their order; asking twice lists what asking once lists;
    and filtering before [for_user] lists the same rows as filtering
    after it. *)
Theorem X13_for_user_narrows_in_order_and_is_idempotent
    (self : QuerySet) (u : User) (p : ModelFilter → bool) :
  qs_rows (visible self u) `sublist_of` qs_rows self
  ∧ qs_rows (visible (visible self u) u) = qs_rows (visible self u)
  ∧ qs_rows (visible (qs_filter p self) u) = qs_rows (qs_filter p (visible self u)).
Proof.
  set (c := λ mf, if view_owner_only settings then owned_by u mf
                  else owned_by u mf || holds_class_view_permission has_perm u
                       || holds_object_view_permission settings guardian u mf).
  assert (Hw : ∀ qs mf, where_ (visible qs u) mf = where_ qs mf && c mf).
  { intros qs mf. apply for_user_where. }
  unfold qs_rows. cbn [qs_filter table]. rewrite !for_user_table. cbn [table].
  refine (conj _ (conj _ _)).
  - rewrite (List.filter_ext _ _ (Hw self)). apply filter_and_sublist.
  - apply List.filter_ext. intros mf. rewrite (Hw (visible self u)), (Hw self).
    by destruct (where_ self mf), (c mf).
  - apply List.filter_ext. intros mf.
    change (where_ (visible (qs_filter p self) u) mf
            = where_ (visible self u) mf && p mf).
    rewrite (Hw (qs_filter p self)), (Hw self). cbn [qs_filter where_].
    by destruct (where_ self mf), (c mf), (p mf).
Qed.
End VisibleFilters.

Section ApplyingSafely.
Context {Row : Type} `{EqDecision Row}.
Variable lookup_holds : Row → string → PyVal → bool.
Variable build_lookup : string → PyVal → result unit.
Variable OR_SEPARATOR : string.
Variable get_fields_from_path : ContentType → string → result (list ModelField).
Variable settings : Settings.
Variable has_perm : User → string → bool.
Variable guardian : option (User → string → ModelFilter → bool).

Local Abbreviation apply_filter :=
  (ModelFilterListFilter_queryset lookup_holds build_lookup OR_SEPARATOR
     get_fields_from_path settings has_perm guardian).
Local Abbreviation selected v ct t u :=
  (qs_first
     (qs_filter
        (λ mf, bool_decide (id mf = Some v) && bool_decide (content_type mf = ct))
        (for_user settings has_perm guardian (qs_all t) u))).

Lemma selected_Some v ct (t : list ModelFilter) u mf :
  selected v ct t u = Some mf →
  mf ∈ qs_rows (for_user settings has_perm guardian (qs_all t) u)
  ∧ mf ∈ t ∧ id mf = Some v ∧ content_type mf = ct.
Proof.
  unfold qs_first. intros Hhead.
  assert (Hin : mf ∈ qs_rows (qs_filter
                  (λ mf, bool_decide (id mf = Some v) && bool_decide (content_type mf = ct))
                  (for_user settings has_perm guardian (qs_all t) u))).
  { destruct (qs_rows _) as [|x l]; [done|]. injection Hhead as ->. left. }
  apply elem_of_qs_rows in Hin as [Ht Hw]. cbn [qs_filter table where_] in *.
  apply andb_true_iff in Hw as [Hvis Hp]. apply andb_true_iff in Hp as [Hid Hct].
  apply bool_decide_eq_true in Hid, Hct.
  split; [by apply elem_of_qs_rows|].
  rewrite for_user_table in Ht. done.
Qed.

Lemma elem_of_listing (q : Q) (queryset filtered : list Row) (r : Row) :
  queryset_filter lookup_holds build_lookup q queryset = Ok filtered →
  r ∈ distinct filtered
  ↔ r ∈ queryset ∧ Q_matches lookup_holds q r = true.
Proof.
  intros ->%queryset_filter_rows. unfold distinct.
  rewrite elem_of_remove_dups, list_elem_of_filter, Is_true_true. tauto.
Qed.

(** Property X14.  When the ids of the stored filters are unique and
    [ModelFilterListFilter.queryset] returns: every row of the listing it
    returns was in the listing it was given; no stored filter is added;
    every stored filter that the requesting user does not own, or that is
    not ephemeral, is still stored; and a filter left on the request is a
    stored filter with the requested id and the content type of the
    listing, in which case nothing was deleted. *)
Theorem X14_applying_only_narrows_and_only_purges_own_ephemeral
    (value : option Z) (ct : ContentType) (request : HttpRequest)
    (queryset : list Row) (t : list ModelFilter) (result : Applied) :
  NoDup (id <$> t) →
  apply_filter value ct request queryset t = Ok result →
  (∀ r, r ∈ listing result → r ∈ queryset)
  ∧ (∀ row, row ∈ stored result → row ∈ t)
  ∧ (∀ row, row ∈ t →
       owner row ≠ pk (user request) ∨ ephemeral row = false →
       row ∈ stored result)
  ∧ (∀ mf, model_filter_model_filter result = Some mf →
       mf ∈ t ∧ id mf = value ∧ content_type mf = ct ∧ stored result = t).
Proof.
  intros Hnd. unfold ModelFilterListFilter_queryset.
  destruct value as [v|]; [|by intros [= <-]; cbn; auto 10].
  destruct (selected v ct t (user request)) as [mf|] eqn:Hsel;
    [|by intros [= <-]; cbn; auto 10].
  apply selected_Some in Hsel as (_ & Hin & Hid & Hct).
  destruct (build_query_filter _ _ mf) as [q|]; [|done]. rewrite bind_Ok.
  destruct (queryset_filter lookup_holds build_lookup q queryset)
    as [filtered|] eqn:Hfiltered; [|done]. rewrite bind_Ok.
  destruct (bool_decide (owner mf = pk (user request)) && ephemeral mf) eqn:Hpurge;
    intros [= <-]; cbn [listing stored model_filter_model_filter].
  - apply andb_true_iff in Hpurge as [Hown Heph]. apply bool_decide_eq_true in Hown.
    refine (conj _ (conj _ (conj _ _))).
    + intros r Hr. by apply (elem_of_listing _ _ _ _ Hfiltered) in Hr as [? _].
    + intros row Hrow. by apply elem_of_delete_model_filter in Hrow as [? _].
    + intros row Hrow Hkeep. apply elem_of_delete_model_filter. split; [done|].
      intros Hsame. assert (row = mf) as -> by by apply (NoDup_fmap_eq id t).
      destruct Hkeep; congruence.
    + done.
  - refine (conj _ (conj _ (conj _ _))); [|done|done|].
    + intros r Hr. by apply (elem_of_listing _ _ _ _ Hfiltered) in Hr as [? _].
    + by intros ? [= <-].
Qed.
End ApplyingSafely.

(** * Filters that are not listed for the user *)
Section UnlistedFilters.
Context {Row : Type} `{EqDecision Row}.
Variable lookup_holds : Row → string → PyVal → bool.
Variable build_lookup : string → PyVal → result unit.
Variable OR_SEPARATOR : string.
Variable get_fields_from_path : ContentType → string → result (list ModelField).
Variable settings : Settings.
Variable has_perm : User → string → bool.
Variable guardian : option (User → string → ModelFilter → bool).

Local Abbreviation apply_filter :=
  (ModelFilterListFilter_queryset lookup_holds build_lookup OR_SEPARATOR
     get_fields_from_path settings has_perm guardian).

Lemma apply_unlisted (v : Z) (ct : ContentType) (request : HttpRequest)
    (queryset : list Row) (t : list ModelFilter) :
  (∀ mf, mf ∈ t → id mf = Some v → content_type mf = ct →
     where_ (for_user settings has_perm guardian (qs_all t) (user request)) mf = false) →
  apply_filter (Some v) ct request queryset t
  = Ok {| listing := queryset; stored := t; model_filter_model_filter := None |}.
Proof.
  intros Hunlisted. unfold ModelFilterListFilter_queryset, qs_first, qs_rows, qs_filter.
  cbn [table where_]. rewrite for_user_table. cbn [qs_all table].
  rewrite filter_none; [reflexivity|].
  intros mf Hmf.
  destruct (bool_decide (id mf = Some v)) eqn:Hid;
    [|by rewrite andb_false_r].
  destruct (bool_decide (content_type mf = ct)) eqn:Hct;
    [|by rewrite andb_false_r].
  apply bool_decide_eq_true in Hid, Hct.
  by rewrite (Hunlisted mf Hmf Hid Hct).
Qed.

(** Property X15.  With the view-owner-only toggle on, requesting the id
    of a filter that somebody else owns changes nothing, for any user,
    superusers included: the listing is returned as given, nothing is
    deleted and no filter is stored on the request. *)
Theorem X15_owner_only_view_lets_nobody_apply_a_foreign_filter
    (v : Z) (ct : ContentType) (request : HttpRequest)
    (queryset : list Row) (t : list ModelFilter) :
  view_owner_only settings = true →
  (∀ mf, mf ∈ t → id mf = Some v → owner mf ≠ pk (user request)) →
  apply_filter (Some v) ct request queryset t
  = Ok {| listing := queryset; stored := t; model_filter_model_filter := None |}.
Proof.
  intros Htoggle Hforeign. apply apply_unlisted.
  intros mf Hmf Hid _. rewrite for_user_where, Htoggle. cbn [qs_all where_ andb].
  unfold owned_by. apply bool_decide_eq_false_2. by apply Hforeign.
Qed.
End UnlistedFilters.

(** * Saving, and the redirect that applies the saved filter *)
Section SaveAndApply.
Variable FORM_SAVE_APPLY : string.
Variable FORM_SAVE_APPLY_DISCARD : string.
Variable reverse : string → string.
Variable content_types : list ContentType.
Variable users : list User.
Variable name_clean : PyVal → result (option string).
Variable description_clean : PyVal → result (option string).

Local Abbreviation save :=
  (save_form FORM_SAVE_APPLY_DISCARD content_types users name_clean description_clean).
Local Abbreviation unsaved :=
  (ModelAdmin_save_form content_types users name_clean description_clean).
Local Abbreviation redirect :=
  (_save_apply_redirect FORM_SAVE_APPLY FORM_SAVE_APPLY_DISCARD reverse).

Lemma save_form_ephemeral request form change mf :
  save request form change = Ok mf →
  ephemeral mf = in_POST FORM_SAVE_APPLY_DISCARD request.
Proof.
  unfold save_form.
  destruct (unsaved form) as [new_object|]; [|done].
  simpl. by intros [= <-].
Qed.

(** Property X16.  Whenever [save_form] returns a filter: if the filter
    is ephemeral, [_save_apply_redirect] answers with a redirect to the
    changelist of its content type with [__model_filter] set to its id;
    and if neither apply key is in the request body, the response is
    returned as it is and the filter is not ephemeral. *)
Theorem X16_saved_ephemeral_filter_is_sent_to_its_apply_url
    (request : HttpRequest) (form : ModelFilterForm) (change : bool)
    (response : HttpResponse) (mf : ModelFilter) :
  save request form change = Ok mf →
  (ephemeral mf = true →
   redirect request response mf
   = HttpResponseRedirect
       (reverse ("admin:" +:+ app_label (content_type mf) +:+ "_"
                 +:+ model (content_type mf) +:+ "_changelist")
        +:+ "?__model_filter=" +:+ id_str (id mf)))
  ∧ (POST request !! FORM_SAVE_APPLY = None →
     POST request !! FORM_SAVE_APPLY_DISCARD = None →
     redirect request response mf = response ∧ ephemeral mf = false).
Proof.
  intros Hsave. apply save_form_ephemeral in Hsave.
  unfold _save_apply_redirect. cbn [existsb]. split.
  - intros Heph. rewrite Hsave in Heph. rewrite Heph, orb_true_r. cbn [orb].
    reflexivity.
  - intros Hno Hno'. rewrite Hsave. unfold in_POST. rewrite Hno, Hno'.
    rewrite !bool_decide_eq_false_2 by (by intros [? ?]). done.
Qed.

(** Property X17.  Whenever the bound form yields an instance, the
    instance carries the submitted content type and owner, which are a
    stored content type and a stored user.  A pinned id
    ([_get_content_type], [_get_owner]) that is truthy is binding: the
    submitted id is the pinned one.  So for an existing filter whose
    content type id and owner id are not zero, the instance keeps both,
    and it keeps its id and its clauses in any case.  (A pin that is not
    truthy restricts nothing: [_update_choices] then empties the choices
    of the field and leaves its queryset alone.) *)
Theorem X17_truthy_pins_bind_target_and_owner
    (form : ModelFilterForm) (new_object : ModelFilter) :
  unsaved form = Ok new_object →
  dict_get (data form) "content_type" PyNone = PyInt (ct_id (content_type new_object))
  ∧ content_type new_object ∈ content_types
  ∧ (truthy (_get_content_type form) = true →
     _get_content_type form = PyInt (ct_id (content_type new_object)))
  ∧ dict_get (data form) "owner" PyNone = PyInt (owner new_object)
  ∧ (∃ u, u ∈ users ∧ pk u = owner new_object)
  ∧ (truthy (_get_owner form) = true → _get_owner form = PyInt (owner new_object))
  ∧ (∀ inst, instance form = Some inst →
       id new_object = id inst
       ∧ fields new_object = fields inst
       ∧ (ct_id (content_type inst) ≠ 0 →
          ct_id (content_type new_object) = ct_id (content_type inst))
       ∧ (owner inst ≠ 0 → owner new_object = owner inst)).
Proof.
  unfold ModelAdmin_save_form.
  destruct (name_clean _) as [cleaned_name|]; [|done]. rewrite bind_Ok.
  destruct (description_clean _) as [cleaned_description|]; [|done]. rewrite bind_Ok.
  destruct (clean_choice ct_id _ _) as [ct|] eqn:Hct; [|done]. rewrite bind_Ok.
  destruct (clean_choice pk _ _) as [o|] eqn:Ho; [|done]. rewrite bind_Ok.
  intros [= <-]. cbn [content_type owner id fields].
  apply clean_choice_update_choices in Hct as (Hsct & Hin & Hct).
  apply clean_choice_update_choices in Ho as (Hso & Hino & Ho).
  cbn [model_choice_field field_queryset] in Hin, Hino.
  refine (conj Hsct (conj Hin (conj Hct (conj Hso (conj _ (conj Ho _)))))).
  - by exists o.
  - intros inst Hinst. unfold _get_content_type, _get_owner in Hct, Ho.
    rewrite Hinst in *. cbn [mbind option_bind from_option].
    refine (conj eq_refl (conj eq_refl (conj _ _))).
    + intros Hid. assert (Ht : truthy (PyInt (ct_id (content_type inst))) = true)
        by (simpl; by rewrite bool_decide_eq_false_2).
      specialize (Hct Ht). congruence.
    + intros Hid. assert (Ht : truthy (PyInt (owner inst)) = true)
        by (simpl; by rewrite bool_decide_eq_false_2).
      specialize (Ho Ht). congruence.
Qed.

(** Without a truthy pin the field looks the submitted id up in its whole
    queryset. *)
Lemma clean_choice_unpinned {A} (pk_of : A → Z) (object_id : PyVal)
    (field : ModelChoiceField A) (submitted : PyVal) :
  truthy object_id = false →
  clean_choice pk_of (_update_choices pk_of object_id field) submitted
  = clean_choice pk_of field submitted
  ∧ field_choices (_update_choices pk_of object_id field) = Some [].
Proof. intros Hpin. unfold _update_choices. rewrite Hpin. by split. Qed.
End SaveAndApply.

(** * Adding a filter and managing the own filters *)
Section AddAndManage.
Variable settings : Settings.
Variable has_perm : User → string → bool.
Variable super_has_permission : Action → HttpRequest → option ModelFilter → bool.

Local Abbreviation can := (has_permission settings has_perm super_has_permission).

(** Property X18.  For view, change and delete alike: a user who may
    not add a filter for a content type is denied on every filter of that
    content type; and on the filters the user owns, the check answers
    exactly what [has_add_permission] answers for their content type. *)
Theorem X18_add_permission_decides_the_access_to_own_filters
    (a : Action) (request : HttpRequest) (mf : ModelFilter) :
  (has_add_permission has_perm request (Some (content_type mf)) = false →
   can a request (Some mf) = false)
  ∧ (owner mf = pk (user request) →
     can a request (Some mf)
     = has_add_permission has_perm request (Some (content_type mf))).
Proof.
  unfold has_add_permission. rewrite has_permission_unfold.
  destruct (is_superuser (user request)); [by split|].
  destruct (user_can_access_content_type has_perm (user request) (content_type mf));
    cbn [negb]; [|by split].
  split; [done|]. intros Hown. by rewrite bool_decide_eq_true_2.
Qed.
End AddAndManage.

(** * The edit link of the listing and the change permission *)
Section EditLink.
Variable settings : Settings.
Variable has_perm_obj : User → string → option ModelFilter → bool.
Variable super_has_view_permission : HttpRequest → option ModelFilter → bool.
Variable super_has_change_permission : HttpRequest → option ModelFilter → bool.
Variable super_has_delete_permission : HttpRequest → option ModelFilter → bool.

(** [user.has_perm(perm)] is [user.has_perm(perm, obj=None)]. *)
Local Abbreviation has_perm := (λ u perm, has_perm_obj u perm None).

End EditLink.

(** * The further properties on the demo project *)

(** The declared fields [name], [(membership, Tier)], [(name, Full name)]
    give [name] first, with the label declared last for it. *)
Lemma X1_witness :
  ∃ d, get_clean_filter_fields acme.get_fields_from_path demo.verbose_name demo.title
         acme.customer demo.declared_fields false = Ok d
       ∧ d.*1 = ["name"; "membership"]
       ∧ od_get "name" d = Some "Full name".
Proof.
  destruct (X1_clean_filter_fields_keeps_first_position_last_label
              acme.get_fields_from_path demo.verbose_name demo.title
              acme.customer demo.declared_fields false demo.declared_pairs eq_refl)
    as (d & Hd & Hkeys & Hget).
  exists d. split; [exact Hd|]. split; [exact Hkeys|]. exact (Hget "name").
Defined.

(** A one-element tuple after a good entry is reported, and the entry
    after it is never looked at. *)
Lemma X2_witness :
  get_clean_filter_fields acme.get_fields_from_path demo.verbose_name demo.title
    acme.customer
    ([EntryValue (PyStr "name")] ++ EntrySequence [PyStr "membership"]
       :: [EntryValue (PyStr "bogus")]) false
  = Raise (ValueError "Iterable model filter field length must be 2.").
Proof.
  apply (X2_clean_filter_fields_first_bad_entry_raises
           acme.get_fields_from_path demo.verbose_name demo.title acme.customer
           [EntryValue (PyStr "name")] (EntrySequence [PyStr "membership"])
           [EntryValue (PyStr "bogus")] false).
  - constructor; [reflexivity|constructor].
  - reflexivity.
Defined.

(** With the shipped map, a [URLField] has no entry of its own and gets
    the text operators of [CharField]. *)
Lemma X3_witness :
  operators_for "URLField" ["URLField"; "CharField"; "Field"] OPERATOR_MAP
    DEFAULT_OPERATORS = TEXT_OPERATORS.
Proof.
  exact (X3_operators_for_exact_class_then_first_base
           "URLField" ["URLField"; "CharField"; "Field"] OPERATOR_MAP
           DEFAULT_OPERATORS OPERATOR_MAP_nonempty).
Defined.

(** [regex] is not among the operators of [name]. *)
Lemma X5_witness :
  (_clean_operator acme.OR_SEPARATOR demo.customer_form demo.regex_row).1 = PyStr "regex"
  ∧ errors (_clean_operator acme.OR_SEPARATOR demo.customer_form demo.regex_row).2
      !! "operator"
    = Some ["Operator 'regex' is not allowed for this field."].
Proof.
  destruct (X5_clean_operator_rejects_exactly_disallowed acme.OR_SEPARATOR
              demo.customer_form demo.regex_row "name" (PyStr "regex")
              eq_refl eq_refl eq_refl) as (Hvalue & _ & Hrejected).
  split; [exact Hvalue|].
  apply Hrejected.
  - discriminate.
  - intros key [= <-]. apply (bool_decide_unpack _). vm_compute. exact I.
Defined.

(** [5 years] is no integer: the value comes back, with the error of the
    field on it. *)
Lemma X6_witness :
  ∃ form',
    _clean_value acme.OR_SEPARATOR acme.get_fields_from_path demo.product_form
      demo.min_age_row = Ok (PyStr "5 years", form')
    ∧ errors form' !! "value"
      = Some ["Value is not valid for field (PositiveSmallIntegerField): "
              +:+ "'5 years' value must be an integer."].
Proof.
  destruct (X6_clean_value_reports_conversion_failure acme.OR_SEPARATOR
              acme.get_fields_from_path demo.product_form demo.min_age_row
              "min_age" "exact" "5 years" [acme.PositiveSmallIntegerField]
              acme.PositiveSmallIntegerField)
    as (form' & Hvalue & _ & Herror);
    try first [reflexivity | discriminate].
  - apply (bool_decide_unpack _). vm_compute. exact I.
  - exists form'. split; [exact Hvalue|].
    exact (proj1 (Herror (ValidationError ["'5 years' value must be an integer."])
                    eq_refl)).
Defined.

(** A separator row whose value was reported missing is accepted, and the
    report is dropped. *)
Lemma X7_witness :
  ∃ form',
    clean acme.OR_SEPARATOR acme.get_fields_from_path acme.missing_value_form
      demo.separator_row
    = Ok (<["value" := PyStr ""]> (<["operator" := PyStr "exact"]> demo.separator_row),
          form')
    ∧ errors form' = delete "value" (errors acme.missing_value_form)
    ∧ value_required form' = false.
Proof.
  apply (X7_clean_accepts_separator_row acme.OR_SEPARATOR acme.get_fields_from_path
           acme.missing_value_form demo.separator_row (PyStr "exact"));
    first [reflexivity | discriminate].
Defined.


(** [acme.negated_or] is its two sides joined by a separator. *)
Lemma X9_witness :
  ∃ q, build_query_filter acme.OR_SEPARATOR acme.get_fields_from_path acme.negated_or
       = Ok q
       ∧ ∀ r, Q_matches acme.lookup_holds q r
              = Q_matches acme.lookup_holds
                  (Q_or (QNot (Q_kwargs {[ "name__exact" := PyStr "Wile E. Coyote" ]}))
                        (Q_ [("membership__exact", PyStr "gold")])) r.
Proof.
  destruct (X9_separator_joins_two_filters_as_union acme.OR_SEPARATOR
              acme.get_fields_from_path acme.negated_or demo.not_wile demo.gold
              acme.or_clause
              (QNot (Q_kwargs {[ "name__exact" := PyStr "Wile E. Coyote" ]}))
              (Q_ [("membership__exact", PyStr "gold")])
              eq_refl eq_refl eq_refl eq_refl eq_refl eq_refl) as (q & Hq & Hmatches).
  exists q. split; [exact Hq|]. intros r. apply Hmatches.
Defined.

(** The two clauses of [acme.two_clauses], swapped. *)
Lemma X10_witness :
  ∃ q', build_query_filter acme.OR_SEPARATOR acme.get_fields_from_path demo.swapped
        = Ok q'
        ∧ ∀ r, Q_matches acme.lookup_holds q' r
               = Q_matches acme.lookup_holds
                   (QAnd (Q_ [("name__exact", PyStr "Wile E. Coyote")])
                         (Q_ [("membership__exact", PyStr "platinum")])) r.
Proof.
  destruct (X10_clause_order_is_irrelevant_without_separators acme.OR_SEPARATOR
              acme.get_fields_from_path acme.two_clauses demo.swapped
              (QAnd (Q_ [("name__exact", PyStr "Wile E. Coyote")])
                    (Q_ [("membership__exact", PyStr "platinum")])))
    as (q' & Hq' & Hmatches).
  - reflexivity.
  - apply perm_swap.
  - repeat (constructor; [discriminate|]). constructor.
  - reflexivity.
  - exists q'. split; [exact Hq'|]. intros r. apply Hmatches.
Defined.


(** The second clause names no field of the customer model. *)
Lemma X12_witness :
  build_query_filter acme.OR_SEPARATOR acme.get_fields_from_path demo.bogus_second
  = Raise (FieldDoesNotExist "bogus").
Proof.
  apply (X12_compile_raises_the_first_clause_failure acme.OR_SEPARATOR
           acme.get_fields_from_path demo.bogus_second
           [acme.name_is_wile] [acme.membership_is_gold] acme.bogus_is_x).
  - reflexivity.
  - constructor; [reflexivity|constructor].
  - discriminate.
  - reflexivity.
Defined.

(** Applying the ephemeral filter 7 keeps filter 3, lists customers only,
    and stores no filter on the request. *)
Lemma X14_witness :
  acme.two_clauses ∈ stored demo.applied_one_shot
  ∧ (∀ r, r ∈ listing demo.applied_one_shot → r ∈ [acme.wile; acme.road_runner])
  ∧ (∀ row, row ∈ stored demo.applied_one_shot →
            row ∈ [acme.two_clauses; acme.one_shot]).
Proof.
  destruct (X14_applying_only_narrows_and_only_purges_own_ephemeral
              acme.lookup_holds acme.build_lookup acme.OR_SEPARATOR
              acme.get_fields_from_path
              (acme.settings ∅) (acme.has_perm acme.owner_grants) None
              (Some 7) acme.customer (acme.request (acme.staff 1) ∅)
              [acme.wile; acme.road_runner] [acme.two_clauses; acme.one_shot]
              demo.applied_one_shot)
    as (Hlisting & Hstored & Hkept & _).
  - apply (bool_decide_unpack _). vm_compute. exact I.
  - vm_compute. reflexivity.
  - split; [|split; [exact Hlisting|exact Hstored]].
    apply Hkept; [left|right; reflexivity].
Defined.

(** With the view toggle on, a superuser who asks for filter 3 of user 1
    gets the listing back as it is. *)
Lemma X15_witness :
  ModelFilterListFilter_queryset acme.lookup_holds acme.build_lookup
    acme.OR_SEPARATOR
    acme.get_fields_from_path (acme.settings ∅) (acme.has_perm []) None
    (Some 3) acme.customer (acme.request (acme.superuser 2) ∅)
    [acme.wile; acme.road_runner] [acme.two_clauses; acme.one_shot]
  = Ok {| listing := [acme.wile; acme.road_runner];
          stored := [acme.two_clauses; acme.one_shot];
          model_filter_model_filter := None |}.
Proof.
  apply (X15_owner_only_view_lets_nobody_apply_a_foreign_filter
           acme.lookup_holds acme.build_lookup acme.OR_SEPARATOR
           acme.get_fields_from_path
           (acme.settings ∅) (acme.has_perm []) None 3 acme.customer
           (acme.request (acme.superuser 2) ∅)).
  - reflexivity.
  - intros mf Hmf _.
    apply elem_of_cons in Hmf as [->|Hmf]; [discriminate|].
    apply elem_of_cons in Hmf as [->|Hmf]; [discriminate|].
    by apply elem_of_nil in Hmf.
Defined.

(** Filter 3 saved with save-apply-discard is ephemeral and sent to the
    customer listing with its id. *)
Lemma X16_witness :
  save_form acme.FORM_SAVE_APPLY_DISCARD [acme.customer; acme.product]
    [acme.staff 1; acme.superuser 2] acme.name_clean acme.description_clean
    (acme.request (acme.staff 1) demo.discard_post) (acme.edit_form acme.two_clauses) true
  = Ok demo.saved_discard
  ∧ _save_apply_redirect demo.FORM_SAVE_APPLY acme.FORM_SAVE_APPLY_DISCARD demo.reverse
      (acme.request (acme.staff 1) demo.discard_post) (TemplateResponse "")
      demo.saved_discard
    = HttpResponseRedirect "/admin/core/customer/?__model_filter=3".
Proof.
  assert (Hsaved : save_form acme.FORM_SAVE_APPLY_DISCARD [acme.customer; acme.product]
                     [acme.staff 1; acme.superuser 2] acme.name_clean acme.description_clean
                     (acme.request (acme.staff 1) demo.discard_post)
                     (acme.edit_form acme.two_clauses) true
                   = Ok demo.saved_discard) by (vm_compute; reflexivity).
  split; [exact Hsaved|].
  exact (proj1 (X16_saved_ephemeral_filter_is_sent_to_its_apply_url
                  demo.FORM_SAVE_APPLY acme.FORM_SAVE_APPLY_DISCARD demo.reverse
                  [acme.customer; acme.product] [acme.staff 1; acme.superuser 2] acme.name_clean acme.description_clean
                  (acme.request (acme.staff 1) demo.discard_post)
                  (acme.edit_form acme.two_clauses) true (TemplateResponse "")
                  demo.saved_discard Hsaved) eq_refl).
Defined.

(** The edit form of filter 3 keeps its content type and its owner. *)
Lemma X17_witness :
  ModelAdmin_save_form [acme.customer; acme.product]
    [acme.staff 1; acme.superuser 2] acme.name_clean acme.description_clean
    (acme.edit_form acme.two_clauses) = Ok demo.unsaved_edit
  ∧ ct_id (content_type demo.unsaved_edit) = ct_id (content_type acme.two_clauses)
  ∧ owner demo.unsaved_edit = owner acme.two_clauses.
Proof.
  assert (Hform : ModelAdmin_save_form [acme.customer; acme.product]
                    [acme.staff 1; acme.superuser 2]
                    acme.name_clean acme.description_clean
                    (acme.edit_form acme.two_clauses)
                  = Ok demo.unsaved_edit) by (vm_compute; reflexivity).
  destruct (X17_truthy_pins_bind_target_and_owner
              [acme.customer; acme.product] [acme.staff 1; acme.superuser 2]
              acme.name_clean acme.description_clean
              (acme.edit_form acme.two_clauses) demo.unsaved_edit Hform)
    as (_ & _ & _ & _ & _ & _ & Hpinned).
  destruct (Hpinned acme.two_clauses eq_refl) as (_ & _ & Hct & Hown).
  split; [exact Hform|]. split; [apply Hct|apply Hown]; discriminate.
Defined.

(** A form bound with the initial data [content_type = None] and
    [owner = None] has no pin: it accepts the submitted ids of a stored
    content type and of a stored user. *)
Example test_unpinned_form_is_valid :
  ModelAdmin_save_form [acme.customer; acme.product]
    [acme.staff 1; acme.superuser 2] acme.name_clean acme.description_clean
    {| instance := None;
       initial := {[ "content_type" := PyNone; "owner" := PyNone ]};
       data := {[ "name" := PyStr " Unpinned "; "content_type" := PyInt 2;
                  "owner" := PyInt 2 ]} |}
  = Ok {| id := None; name := Some "Unpinned"; description := Some "";
          content_type := acme.product; owner := 2; created := None;
          ephemeral := false; fields := [] |}.
Proof. vm_compute. reflexivity. Qed.


(** * The operators of the fields a filter form offers *)
Section FieldOperatorsTheorems.
Variable get_fields_from_path : ContentType → string → result (list ModelField).
Variable class_of : ModelField → string.
Variable bases : ModelField → list string.

Local Abbreviation field_object model_ path :=
  (fs ← get_fields_from_path model_ path; last_item fs).
Local Abbreviation operators_loop :=
  (get_field_operators_loop get_fields_from_path class_of bases).

Lemma get_field_operators_loop_lookup (model_ : ContentType) (field_paths : list string)
    (operator_map : list (string * list (string * string)))
    (default_operators : list (string * string)) :
  Forall (λ path, is_ok (field_object model_ path) = true) field_paths →
  ∀ field_operators,
  ∃ d, operators_loop model_ field_paths operator_map default_operators field_operators
       = Ok d
       ∧ ∀ path,
           d !! path
           = if bool_decide (path ∈ field_paths) then
               match field_object model_ path with
               | Ok field_obj =>
                   Some (operators_for (class_of field_obj) (bases field_obj)
                           operator_map default_operators)
               | Raise _ => None
               end
             else field_operators !! path.
Proof.
  induction 1 as [|p paths Hp _ IH]; intros field_operators.
  - exists field_operators. split; [reflexivity|]. intros path.
    rewrite bool_decide_eq_false_2; [done|]. apply not_elem_of_nil.
  - cbn [get_field_operators_loop].
    destruct (get_fields_from_path model_ p) as [fs|] eqn:Hfs; [|done].
    rewrite bind_Ok. simpl in Hp.
    destruct (last_item fs) as [field_obj|] eqn:Hlast; [|done]. rewrite bind_Ok.
    destruct (IH (<[p := operators_for (class_of field_obj) (bases field_obj)
                          operator_map default_operators]> field_operators))
      as (d & Hd & Hlookup).
    exists d. split; [exact Hd|]. intros path. rewrite Hlookup.
    destruct (decide (path ∈ paths)) as [Hin|Hin].
    + rewrite !bool_decide_eq_true_2; [done|by right|done].
    + rewrite (bool_decide_eq_false_2 _ Hin).
      destruct (decide (path = p)) as [->|Hne].
      * rewrite bool_decide_eq_true_2 by left.
        rewrite lookup_insert_eq, Hfs, bind_Ok, Hlast. reflexivity.
      * rewrite lookup_insert_ne by done.
        rewrite bool_decide_eq_false_2; [done|].
        intros Hcons. apply elem_of_cons in Hcons as [?|?]; done.
Qed.

Lemma shipped_operators_valid (c : string) (bs : list string) :
  operators_for c bs OPERATOR_MAP DEFAULT_OPERATORS ≠ []
  ∧ ∀ key, key ∈ (operators_for c bs OPERATOR_MAP DEFAULT_OPERATORS).*1 →
           key ∈ OPERATORS.*1.
Proof.
  pose proof (operators_for_shipped c bs) as Hin.
  assert (Hkeys : ∀ ops : list (string * string),
            forallb (λ key, bool_decide (key ∈ OPERATORS.*1)) ops.*1 = true →
            ∀ key, key ∈ ops.*1 → key ∈ OPERATORS.*1).
  { intros ops Hops key Hkey. rewrite forallb_forall in Hops.
    apply list_elem_of_In in Hkey. specialize (Hops _ Hkey).
    by apply bool_decide_eq_true in Hops. }
  repeat (apply elem_of_cons in Hin as [->|Hin]);
    [| | | | | |by apply elem_of_nil in Hin];
    (split; [discriminate|apply Hkeys; vm_compute; reflexivity]).
Qed.

(** Property X20.  With the shipped operator map, when every offered
    field path leads to a field of the model, [get_field_operators]
    returns a map whose keys are exactly the offered paths, and every
    entry is a non-empty list of operators of the [OPERATORS]
    catalogue. *)
Theorem X20_every_offered_field_gets_operators
    (model_ : ContentType) (field_paths : list string) :
  Forall (λ path, is_ok (field_object model_ path) = true) field_paths →
  ∃ d, get_field_operators get_fields_from_path class_of bases model_ field_paths
         OPERATOR_MAP DEFAULT_OPERATORS = Ok d
       ∧ (∀ path, is_Some (d !! path) ↔ path ∈ field_paths)
       ∧ (∀ path operators, d !! path = Some operators →
            operators ≠ [] ∧ ∀ key, key ∈ operators.*1 → key ∈ OPERATORS.*1).
Proof.
  intros Hpaths. unfold get_field_operators.
  destruct (get_field_operators_loop_lookup model_ field_paths OPERATOR_MAP
              DEFAULT_OPERATORS Hpaths ∅) as (d & Hd & Hlookup).
  exists d. split; [exact Hd|].
  assert (Hcases : ∀ path,
            (path ∈ field_paths
             ∧ ∃ field_obj, d !! path
                 = Some (operators_for (class_of field_obj) (bases field_obj)
                           OPERATOR_MAP DEFAULT_OPERATORS))
            ∨ ((path ∉ field_paths) ∧ d !! path = None)).
  { intros path. rewrite Hlookup.
    destruct (decide (path ∈ field_paths)) as [Hin|Hin].
    - left. split; [done|]. rewrite bool_decide_eq_true_2 by done.
      rewrite Forall_forall in Hpaths. specialize (Hpaths _ Hin).
      destruct (field_object model_ path) as [field_obj|]; [eauto|done].
    - right. split; [done|]. by rewrite bool_decide_eq_false_2. }
  split.
  - intros path. destruct (Hcases path) as [[Hin [f ->]]|[Hin ->]].
    + split; [done|eauto].
    + split; [intros [? ?]; congruence|done].
  - intros path operators Hops.
    destruct (Hcases path) as [[_ [f Hf]]|[_ Hnone]]; [|congruence].
    rewrite Hf in Hops. injection Hops as <-. apply shipped_operators_valid.
Qed.

(** Property X21.  [get_field_operators] raises the exception of the
    first field path that leads to no field of the model, whatever the
    operator map: no map is returned for the paths before it. *)
Theorem X21_field_operators_raise_at_the_first_unknown_path
    (model_ : ContentType) (good rest : list string) (bad : string) (e : Exception)
    (operator_map : list (string * list (string * string)))
    (default_operators : list (string * string)) :
  Forall (λ path, is_ok (field_object model_ path) = true) good →
  field_object model_ bad = Raise e →
  get_field_operators get_fields_from_path class_of bases model_
    (good ++ bad :: rest) operator_map default_operators = Raise e.
Proof.
  intros Hgood Hbad. unfold get_field_operators. generalize (∅ : gmap string (list (string * string))).
  induction Hgood as [|p good Hp _ IH]; intros field_operators.
  - cbn [app get_field_operators_loop].
    destruct (get_fields_from_path model_ bad) as [fs|];
      [|simpl in Hbad |- *; congruence].
    rewrite bind_Ok. simpl in Hbad. by rewrite Hbad.
  - cbn [app get_field_operators_loop].
    destruct (get_fields_from_path model_ p) as [fs|]; [|done].
    rewrite bind_Ok. simpl in Hp.
    destruct (last_item fs) as [field_obj|]; [|done]. rewrite bind_Ok. apply IH.
Qed.
End FieldOperatorsTheorems.

(** The customer form offers [name] and [membership], both with the text
    operators. *)
Lemma X20_witness :
  ∃ d, get_field_operators acme.get_fields_from_path demo_fields.class_of
         demo_fields.bases acme.customer ["name"; "membership"]
         OPERATOR_MAP DEFAULT_OPERATORS = Ok d
       ∧ is_Some (d !! "name")
       ∧ ¬ (is_Some (d !! "min_age")).
Proof.
  destruct (X20_every_offered_field_gets_operators acme.get_fields_from_path
              demo_fields.class_of demo_fields.bases acme.customer
              ["name"; "membership"]) as (d & Hd & Hkeys & _).
  - repeat (constructor; [reflexivity|]). constructor.
  - exists d. split; [exact Hd|]. split.
    + apply Hkeys. left.
    + intros Hsome. apply Hkeys in Hsome.
      apply elem_of_cons in Hsome as [Hsome|Hsome]; [discriminate|].
      apply elem_of_cons in Hsome as [Hsome|Hsome]; [discriminate|].
      by apply elem_of_nil in Hsome.
Defined.

(** [min_age] is no field of the customer model. *)
Lemma X21_witness :
  get_field_operators acme.get_fields_from_path demo_fields.class_of
    demo_fields.bases acme.customer (["name"] ++ "min_age" :: ["membership"])
    OPERATOR_MAP DEFAULT_OPERATORS = Raise (FieldDoesNotExist "min_age").
Proof.
  apply (X21_field_operators_raise_at_the_first_unknown_path
           acme.get_fields_from_path demo_fields.class_of demo_fields.bases
           acme.customer ["name"] ["membership"] "min_age").
  - constructor; [reflexivity|constructor].
  - reflexivity.
Defined.
